(** * DevForecast: the caching, normalisation and preference code

    A shallow embedding of the request-caching route handlers, the client
    cache and the local-storage preference helpers of the dashboard, with the
    properties its specification states about them.

    Conventions of the embedding:
    - JavaScript numbers that the code only uses as integers (epoch
      milliseconds and seconds, HTTP statuses, repository ids, counters) are
      [Z];
    - JavaScript strings are [string];
    - a plain object used as a dictionary is a [gmap string _] when only its
      lookups matter and an association list in insertion order when the code
      enumerates it; the keys the handlers build are never names inherited
      from [Object.prototype];
    - [localStorage] is a record of typed slots holding the parsed form of
      the JSON text stored under each fixed key;
    - module-level state and the clock ([Date.now()]) are passed explicitly;
      an upstream HTTP service is a function from the requested URL to the
      outcome of the call, and every handler returns the calls it made;
    - a handler whose [catch] hands the status of an upstream reply to
      [NextResponse.json], which throws for some statuses, returns a sum:
      the response ([inr]) or what the handler throws ([inl]). *)

From Stdlib Require Import ZArith QArith Qminmax List String Ascii Permutation Sorted Bool Lia.
From stdpp Require Import base tactics option list sorting strings gmap pretty.

Set Warnings "-register-all".

Local Open Scope string_scope.
Local Open Scope Z_scope.

(** ** JavaScript values at the boundary *)

(** A field that may hold [null], be absent ([undefined]) or hold a value. *)
Inductive Nullable (A : Type) : Type :=
| JsNull
| JsUndefined
| JsValue (a : A).
Arguments JsNull {A}.
Arguments JsUndefined {A}.
Arguments JsValue {A} a.

Definition is_null {A} (x : Nullable A) : bool :=
  match x with JsNull => true | _ => false end.

(** [x || d] for a string-or-null [x]: the empty string is falsy too. *)
Definition or_default (x : option string) (d : string) : string :=
  match x with
  | Some s => if decide (s = "") then d else s
  | None => d
  end.

(** ** src/types/github.ts *)

Record License := { license_name : string; license_url : string }.

Record GitHubProjectData := {
  id : Z;
  name : string;
  full_name : string;
  description : Nullable string;
  html_url : string;
  stargazers_count : Z;
  language : Nullable string;
  avatar_url : Nullable string;
  topics : list string;
  open_issues_count : Z;
  created_at : string;
  updated_at : string;
  homepage : Nullable string;
  forks_count : Z;
  license : Nullable License;
  is_bookmarked : Nullable bool
}.

Record GitHubIssueLabel := { label_name : string; label_color : string }.

Record GitHubIssue := {
  issue_id : Z;
  issue_number : Z;
  issue_title : string;
  issue_html_url : string;
  issue_labels : list GitHubIssueLabel;
  issue_created_at : string
}.

(** ** Browser storage *)

(** What [localStorage.getItem] followed by [JSON.parse] finds under a key:
    nothing, text that does not parse, or a value. *)
Inductive Stored (A : Type) : Type :=
| Absent
| Corrupt
| Parsed (a : A).
Arguments Absent {A}.
Arguments Corrupt {A}.
Arguments Parsed {A} a.

(** The client preference helpers (user-preferences utilities). A write to
    [localStorage] is taken to succeed; what was stored is read back as it
    was written. *)
Module Preferences.

(** The two slots the helpers below use:
    [devforecast_bookmarked_projects] and [devforecast_view_history]. *)
Record LocalStorage := {
  BOOKMARK_KEY : Stored (list GitHubProjectData);
  VIEW_HISTORY_KEY : Stored (list string)
}.

(** [window_defined] is [typeof window !== 'undefined']. *)
Record Browser := {
  window_defined : bool;
  localStorage : LocalStorage
}.

Definition setBookmarks (b : Browser) (l : list GitHubProjectData) : Browser :=
  {| window_defined := window_defined b;
     localStorage := {| BOOKMARK_KEY := Parsed l;
                        VIEW_HISTORY_KEY := VIEW_HISTORY_KEY (localStorage b) |} |}.

Definition setHistory (b : Browser) (l : list string) : Browser :=
  {| window_defined := window_defined b;
     localStorage := {| BOOKMARK_KEY := BOOKMARK_KEY (localStorage b);
                        VIEW_HISTORY_KEY := Parsed l |} |}.

(** Both the missing item and the parse error (caught) give []. *)
Definition getBookmarkedProjects (b : Browser) : list GitHubProjectData :=
  if negb (window_defined b) then []
  else match BOOKMARK_KEY (localStorage b) with
       | Parsed l => l
       | Absent | Corrupt => []
       end.

(** [bookmarks.some(p => p.id === projectId)] *)
Definition some_id (projectId : Z) (bookmarks : list GitHubProjectData) : bool :=
  existsb (fun p => Z.eqb (id p) projectId) bookmarks.

(** [{ ...project, is_bookmarked: true }] *)
Definition mark_bookmarked (p : GitHubProjectData) : GitHubProjectData :=
  {| id := id p; name := name p; full_name := full_name p;
     description := description p; html_url := html_url p;
     stargazers_count := stargazers_count p; language := language p;
     avatar_url := avatar_url p; topics := topics p;
     open_issues_count := open_issues_count p; created_at := created_at p;
     updated_at := updated_at p; homepage := homepage p;
     forks_count := forks_count p; license := license p;
     is_bookmarked := JsValue true |}.

Definition addBookmarkedProject (project : GitHubProjectData) (b : Browser) : Browser :=
  if negb (window_defined b) then b
  else
    let bookmarks := getBookmarkedProjects b in
    if negb (some_id (id project) bookmarks)
    then setBookmarks b (bookmarks ++ [mark_bookmarked project])
    else b.

Definition removeBookmarkedProject (projectId : Z) (b : Browser) : Browser :=
  if negb (window_defined b) then b
  else
    let bookmarks := getBookmarkedProjects b in
    setBookmarks b (List.filter (fun p => negb (Z.eqb (id p) projectId)) bookmarks).

Definition isProjectBookmarked (projectId : Z) (b : Browser) : bool :=
  if negb (window_defined b) then false
  else some_id projectId (getBookmarkedProjects b).

Definition getViewHistory (b : Browser) : list string :=
  if negb (window_defined b) then []
  else match VIEW_HISTORY_KEY (localStorage b) with
       | Parsed l => l
       | Absent | Corrupt => []
       end.

(** [[fullName, ...history.filter(item => item !== fullName)].slice(0, 20)] *)
Definition addToViewHistory (fullName : string) (b : Browser) : Browser :=
  if negb (window_defined b) then b
  else
    let history := getViewHistory b in
    let updatedHistory :=
      take 20 (fullName :: filter (fun item => item ≠ fullName) history) in
    setHistory b updatedHistory.

(** A session of the two mutating bookmark calls, from a browser whose
    bookmark slot was never written. *)
Inductive BookmarkCall :=
| CallAdd (project : GitHubProjectData)
| CallRemove (projectId : Z).

Definition runBookmarkCall (b : Browser) (c : BookmarkCall) : Browser :=
  match c with
  | CallAdd p => addBookmarkedProject p b
  | CallRemove i => removeBookmarkedProject i b
  end.

Definition fresh_browser (w : bool) (h : Stored (list string)) : Browser :=
  {| window_defined := w;
     localStorage := {| BOOKMARK_KEY := Absent; VIEW_HISTORY_KEY := h |} |}.

End Preferences.

(** ** The client-side cache (client-cache utilities)

    The store is a plain object; its keys are the cache keys that
    [generateCacheKey] builds from an endpoint path, none of which is a name
    the object inherits. A write to [localStorage] is taken to succeed. One
    call reads the clock once. *)
Module ClientCache.

Section Store.

(** The cached payload: any JSON-serialisable value. *)
Context {T : Type}.

Record CacheEntry := {
  data : T;
  timestamp : Z;
  expiryTime : Z
}.

(** The static fields of the class, the [window] test and the
    [devforecast_api_cache] slot of [localStorage]. *)
Record State := {
  window_defined : bool;
  isInitialized : bool;
  cacheStore : gmap string CacheEntry;
  stored : Stored (gmap string CacheEntry)
}.

Definition with_store (st : State) (c : gmap string CacheEntry) : State :=
  {| window_defined := window_defined st; isInitialized := isInitialized st;
     cacheStore := c; stored := stored st |}.

Definition with_initialized (st : State) : State :=
  {| window_defined := window_defined st; isInitialized := true;
     cacheStore := cacheStore st; stored := stored st |}.

(** [localStorage.setItem(..., JSON.stringify(this.cacheStore))] *)
Definition persistCache (st : State) : State :=
  if negb (window_defined st) then st
  else {| window_defined := window_defined st; isInitialized := isInitialized st;
          cacheStore := cacheStore st; stored := Parsed (cacheStore st) |}.

(** Deletes every entry with [expiryTime < now]; persists when one went. *)
Definition cleanExpiredEntries (now : Z) (st : State) : State :=
  let kept := filter (fun kv => ¬ (expiryTime kv.2 < now)) (cacheStore st) in
  let hasRemovedEntries :=
    bool_decide (map_Exists (fun _ e => expiryTime e < now) (cacheStore st)) in
  let st' := with_store st kept in
  if hasRemovedEntries then persistCache st' else st'.

(** Loads the stored cache on first use. A parse error resets the store and
    leaves [isInitialized] false. *)
Definition initialize (now : Z) (st : State) : State :=
  if negb (window_defined st) || isInitialized st then st
  else match stored st with
       | Parsed c => with_initialized (cleanExpiredEntries now (with_store st c))
       | Absent => with_initialized st
       | Corrupt => with_store st ∅
       end.

Definition cleanCache (now : Z) (st : State) : State :=
  cleanExpiredEntries now (initialize now st).

(** [get] returns [null] (here [None]) when the key has no entry. *)
Definition get (key : string) (now : Z) (st : State) : option T * State :=
  let st1 := cleanExpiredEntries now (initialize now st) in
  (data <$> cacheStore st1 !! key, st1).

Definition set (key : string) (d : T) (duration : Z) (now : Z) (st : State) : State :=
  let st1 := initialize now st in
  let entry := {| data := d; timestamp := now; expiryTime := now + duration |} in
  persistCache (with_store st1 (<[key := entry]> (cacheStore st1))).

Definition has (key : string) (now : Z) (st : State) : bool * State :=
  let st1 := initialize now st in
  match cacheStore st1 !! key with
  | None => (false, st1)
  | Some entry => (bool_decide (expiryTime entry > now), st1)
  end.

Definition clear (key : string) (now : Z) (st : State) : State :=
  let st1 := initialize now st in
  match cacheStore st1 !! key with
  | Some _ => persistCache (with_store st1 (delete key (cacheStore st1)))
  | None => st1
  end.

End Store.

Arguments CacheEntry : clear implicits.
Arguments State : clear implicits.

(** [CACHE_DURATIONS] *)
Definition WEATHER : Z := 10 * 60 * 1000.
Definition GITHUB : Z := 30 * 60 * 1000.
Definition AI_INSIGHT : Z := 60 * 60 * 1000.
Definition DEFAULT : Z := 15 * 60 * 1000.

(** Values allowed in the parameter record of a cache key. *)
Inductive ParamValue :=
| PString (s : string)
| PNumber (n : Z)
| PBoolean (b : bool).

(** [String(v)]; an integer prints in plain decimal (below 10^21). *)
Definition String_ (v : ParamValue) : string :=
  match v with
  | PString s => s
  | PNumber n => pretty n
  | PBoolean true => "true"
  | PBoolean false => "false"
  end.

(** The parameter object: its own keys in enumeration order. *)
Definition Params := list (string * ParamValue).

Definition keys (params : Params) : list string := params.*1.

(** [params[key]], for a key of the object. *)
Definition param (params : Params) (key : string) : option ParamValue :=
  snd <$> List.find (fun kv => bool_decide (kv.1 = key)) params.

(** [String(params[key])] *)
Definition param_string (params : Params) (key : string) : string :=
  match param params key with
  | Some v => String_ v
  | None => "undefined"
  end.

(** [Array.prototype.sort()] without a comparator orders strings by code
    unit. *)
Definition sort (l : list string) : list string := merge_sort String.le l.

(** [Array.prototype.join] *)
Definition join (sep : string) (l : list string) : string := String.concat sep l.

Definition sortedParams (params : Params) : string :=
  join "&" (List.map (fun key => key ++ "=" ++ param_string params key)
                     (sort (keys params))).

Definition generateCacheKey (endpoint : string) (params : Params) : string :=
  endpoint ++ (if decide (sortedParams params = "") then ""
               else "?" ++ sortedParams params).

(** The parameters up to enumeration order and printing of the values. *)
Definition normalized (params : Params) : gmap string string :=
  list_to_map (prod_map (fun k => k) String_ <$> params).

End ClientCache.

(** ** JSON values and their JavaScript reading *)

(** A parsed JSON document. Numbers are exact rationals: the handlers pass
    them through or compare them, and the few places that compute with them
    are read with exact arithmetic. *)
Inductive Json :=
| JNull
| JBool (b : bool)
| JNumber (q : Q)
| JString (s : string)
| JArray (items : list Json)
| JObject (fields : list (string * Json)).

(** A JavaScript value read out of a document: [None] is [undefined]. *)
Definition JsVal := option Json.

Definition truthy (v : JsVal) : bool :=
  match v with
  | None | Some JNull => false
  | Some (JBool b) => b
  | Some (JNumber q) => negb (Qeq_bool q 0)
  | Some (JString s) => negb (bool_decide (s = ""))
  | Some (JArray _) | Some (JObject _) => true
  end.

(** What a handler can throw. *)
Inductive Thrown (D : Type) :=
| AxiosError (message : string) (response : option (Z * D))
| JsError (message : string).
Arguments AxiosError {D} message response.
Arguments JsError {D} message.

(** The last binding of a key wins, as in [JSON.parse]. *)
Definition field (fields : list (string * Json)) (k : string) : JsVal :=
  snd <$> List.find (fun kv => bool_decide (kv.1 = k)) (rev fields).

(** [v.k] for a property name [k] that no built-in prototype defines:
    reading it off [null] or [undefined] throws, off a primitive or an array
    gives [undefined]. *)
Definition prop {D} (v : JsVal) (k : string) : Thrown D + JsVal :=
  match v with
  | None | Some JNull => inl (JsError ("Cannot read properties of null or undefined: " ++ k))
  | Some (JObject fields) => inr (field fields k)
  | Some _ => inr None
  end.

(** [v?.k] *)
Definition opt_prop (v : JsVal) (k : string) : JsVal :=
  match v with
  | Some (JObject fields) => field fields k
  | _ => None
  end.

(** [v[0]] *)
Definition first {D} (v : JsVal) : Thrown D + JsVal :=
  match v with
  | None | Some JNull => inl (JsError "Cannot read properties of null or undefined: 0")
  | Some (JArray items) => inr (head items)
  | Some (JString (String c _)) => inr (Some (JString (String c "")))
  | Some (JObject fields) => inr (field fields "0")
  | Some _ => inr None
  end.

(** [v.length === 0] *)
Definition length_is_zero {D} (v : JsVal) : Thrown D + bool :=
  match v with
  | None | Some JNull => inl (JsError "Cannot read properties of null or undefined: length")
  | Some (JArray items) => inr (bool_decide (items = []))
  | Some (JString s) => inr (bool_decide (s = ""))
  | Some (JObject fields) =>
      inr (match field fields "length" with
           | Some (JNumber q) => Qeq_bool q 0
           | _ => false
           end)
  | Some _ => inr false
  end.

(** ** HTTP: the upstream services and the responses of the routes *)

(** What an upstream call comes to: a reply with a status and a body, or no
    reply at all. *)
Inductive Outcome (D : Type) :=
| Replied (status : Z) (data : D)
| NoReply (message : string).
Arguments Replied {D} status data.
Arguments NoReply {D} message.

(** [axios.get]/[axios.post]: resolves when [validateStatus] accepts the
    status and rejects with an [AxiosError] otherwise. *)
Definition axios {D} (validateStatus : Z -> bool) (o : Outcome D)
  : Thrown D + (Z * D) :=
  match o with
  | Replied s d =>
      if validateStatus s then inr (s, d)
      else inl (AxiosError ("Request failed with status code " ++ pretty s) (Some (s, d)))
  | NoReply m => inl (AxiosError m None)
  end.

(** The default [validateStatus] of axios. *)
Definition default_validateStatus (s : Z) : bool := (200 <=? s) && (s <? 300).

(** [axios.isAxiosError(e)] *)
Definition isAxiosError {D} (e : Thrown D) : bool :=
  match e with AxiosError _ _ => true | JsError _ => false end.

Definition message_of {D} (e : Thrown D) : string :=
  match e with AxiosError m _ => m | JsError m => m end.

(** The JSON body of a route's response: the payload of the route, an
    upstream body handed on as it is, or an [{ error, details }] object. *)
Inductive Body (P : Type) :=
| Payload (p : P)
| Passthrough (j : JsVal)
| Error (error : string) (details : JsVal).
Arguments Payload {P} p.
Arguments Passthrough {P} j.
Arguments Error {P} error details.

(** A response of a route: its status and its JSON body. *)
Record Response (P : Type) := { status : Z; body : Body P }.
Arguments status {P} r.
Arguments body {P} r.

(** The response that [NextResponse.json(body, { status })] builds. The
    handlers write [json] where they give the status themselves (200, 400,
    401, 404, 429, 500, 503), which the call accepts. *)
Definition json {P} (b : Body P) (s : Z) : Response P := {| status := s; body := b |}.

(** The statuses [NextResponse.json] accepts: those from 200 to 599 but for
    204, 205 and 304, which allow no body. *)
Definition accepted (status : Z) : bool :=
  (200 <=? status) && (status <=? 599)
  && negb ((status =? 204) || (status =? 205) || (status =? 304)).

(** [s] between double quotes. *)
Definition quoted (s : string) : string :=
  String (Ascii.ascii_of_nat 34) s ++ String (Ascii.ascii_of_nat 34) "".

(** [NextResponse.json(body, { status })] with a status read off an upstream
    reply. The call builds a [Response], which throws a [RangeError] for a
    status outside 200 to 599 and a [TypeError] for one that allows no body
    (the messages are those of Node's [Response]). *)
Definition NextResponse_json {D P} (b : Body P) (s : Z) : Thrown D + Response P :=
  if (s <? 200) || (599 <? s)
  then inl (JsError ("init[" ++ quoted "status"
                       ++ "] must be in the range of 200 to 599, inclusive."))
  else if (s =? 204) || (s =? 205) || (s =? 304)
  then inl (JsError ("Response constructor: Invalid response status code " ++ pretty s))
  else inr (json b s).

Definition str (s : string) : JsVal := Some (JString s).

(** [`${v}`] for an environment variable. *)
Definition show_env (v : option string) : string :=
  match v with Some s => s | None => "undefined" end.

(** ** The server-side caches *)
Module ServerCache.

Record CacheEntry (D : Type) := { data : D; timestamp : Z }.
Arguments data {D} c.
Arguments timestamp {D} c.

(** [cache[key] && (now - cache[key].timestamp) < ttl], with the data it
    guards. *)
Definition lookup {D} (cache : gmap string (CacheEntry D)) (key : string)
    (now ttl : Z) : option D :=
  match cache !! key with
  | Some e => if now - timestamp e <? ttl then Some (data e) else None
  | None => None
  end.

(** [cache[key] = { data, timestamp: now }] *)
Definition store {D} (cache : gmap string (CacheEntry D)) (key : string)
    (d : D) (now : Z) : gmap string (CacheEntry D) :=
  <[key := {| data := d; timestamp := now |}]> cache.

End ServerCache.

(** ** The combined weather route: the forecast summary *)
Module Forecast.

(** One element of [item.weather]. *)
Record Weather := {
  weather_id : Z;
  weather_main : string;
  weather_description : string;
  icon : string
}.

(** A 3-hour sample of the upstream forecast. Of [item.weather] the code
    reads element 0 only, kept here as [weather0]. *)
Record ThreeHourForecastItem := {
  dt : Z;
  main_temp : Q;
  main_pressure : Q;
  main_humidity : Q;
  weather0 : Weather;
  clouds_all : Q;
  wind_speed : Q;
  wind_deg : Q;
  pop : Q
}.

Record Temp := {
  temp_min : Q; temp_max : Q; temp_day : Q;
  temp_night : Q; temp_eve : Q; temp_morn : Q
}.

Record DailyForecastData := {
  daily_dt : Z;
  daily_temp : Temp;
  daily_weather : list Weather;
  daily_pop : Q;
  daily_summary : string;
  daily_pressure : Q;
  daily_humidity : Q;
  daily_wind_speed : Q;
  daily_wind_deg : Q;
  daily_clouds : Q
}.

(** *** [Date] in UTC *)

(** The time values a [Date] can hold, in milliseconds. *)
Definition valid_time (ms : Z) : bool :=
  (-8640000000000000 <=? ms) && (ms <=? 8640000000000000).

(** Year, month (1 to 12) and day of the month of a day number counted from
    1970-01-01, in the proleptic Gregorian calendar. *)
Definition civil_from_days (days : Z) : Z * Z * Z :=
  let z := days + 719468 in
  let era := z / 146097 in
  let doe := z - era * 146097 in
  let yoe := (doe - doe / 1460 + doe / 36524 - doe / 146096) / 365 in
  let doy := doe - (365 * yoe + yoe / 4 - yoe / 100) in
  let mp := (5 * doy + 2) / 153 in
  let d := doy - (153 * mp + 2) / 5 + 1 in
  let m := if mp <? 10 then mp + 3 else mp - 9 in
  let y := yoe + era * 400 + (if m <=? 2 then 1 else 0) in
  (y, m, d).

(** [String(n).padStart(2, '0')] *)
Definition padStart2 (n : Z) : string :=
  let s := pretty n in
  if (String.length s <? 2)%nat then "0" ++ s else s.

(** The grouping key of [new Date(secs * 1000)]:
    [`${getUTCFullYear()}-${month + 1, padded}-${getUTCDate(), padded}`]. *)
Definition dateKey (secs : Z) : string :=
  if valid_time (secs * 1000) then
    let '(y, m, d) := civil_from_days (secs / 86400) in
    pretty y ++ "-" ++ padStart2 m ++ "-" ++ padStart2 d
  else "NaN-NaN-NaN".

(** [getUTCHours()]; [None] is the [NaN] of an invalid date. *)
Definition getUTCHours (secs : Z) : option Z :=
  if valid_time (secs * 1000) then Some ((secs mod 86400) / 3600) else None.

(** *** [processForecastList] *)

Record Bucket := {
  temps : list Q;
  weatherIcons : list string;
  pops : list Q;
  bucket_dt : Z
}.

Definition set_dt (b : Bucket) (t : Z) : Bucket :=
  {| temps := temps b; weatherIcons := weatherIcons b; pops := pops b;
     bucket_dt := t |}.

Definition push (b : Bucket) (item : ThreeHourForecastItem) : Bucket :=
  {| temps := (temps b ++ [main_temp item])%list;
     weatherIcons := (weatherIcons b ++ [icon (weather0 item)])%list;
     pops := (pops b ++ [pop item])%list;
     bucket_dt := bucket_dt b |}.

(** [dailyData]: the buckets under their date keys, in insertion order. *)
Definition DailyData := list (string * Bucket).

Definition bucket_of (dailyData : DailyData) (key : string) : option Bucket :=
  snd <$> List.find (fun kb => bool_decide (kb.1 = key)) dailyData.

Definition update_bucket (key : string) (f : Bucket -> Bucket)
    (dailyData : DailyData) : DailyData :=
  List.map (fun kb => if bool_decide (kb.1 = key) then (kb.1, f kb.2) else kb)
           dailyData.

(** [hour >= 11 && hour <= 13]; every comparison with [NaN] is false. *)
Definition around_noon (hour : option Z) : bool :=
  match hour with
  | Some h => (11 <=? h) && (h <=? 13)
  | None => false
  end.

(** The bucket made for the first sample of a day, with its [dt] chosen. *)
Definition new_bucket (item : ThreeHourForecastItem) (hour : option Z) : Bucket :=
  let b := {| temps := []; weatherIcons := []; pops := []; bucket_dt := 0 |} in
  if around_noon hour then set_dt b (dt item)
  else if bucket_dt b =? 0 then set_dt b (dt item)
  else b.

(** The body of [list.forEach]. *)
Definition add_item (timezoneOffset : Z) (dailyData : DailyData)
    (item : ThreeHourForecastItem) : DailyData :=
  let key := dateKey (dt item + timezoneOffset) in
  let dailyData1 :=
    match bucket_of dailyData key with
    | None =>
        (dailyData ++
         [(key, new_bucket item (getUTCHours (dt item + timezoneOffset)))])%list
    | Some _ => dailyData
    end in
  update_bucket key (fun b => push b item) dailyData1.

Definition group_by_day (list_ : list ThreeHourForecastItem) (timezoneOffset : Z)
  : DailyData :=
  fold_left (add_item timezoneOffset) list_ [].

(** [icon.replace('n', 'd')]: the first ['n'] becomes ['d']. *)
Fixpoint replace_n_d (s : string) : string :=
  match s with
  | "" => ""
  | String c rest =>
      if Ascii.eqb c "n" then String "d" rest else String c (replace_n_d rest)
  end.

Record IconTally := {
  frequency : gmap string Z;
  maxFreq : Z;
  mostFrequentIcon : string
}.

(** The body of [icons.forEach] in [getMostFrequentIcon]. *)
Definition count_icon (t : IconTally) (icon : string) : IconTally :=
  let dayIcon := replace_n_d icon in
  let n := default 0 (frequency t !! dayIcon) + 1 in
  let frequency' := <[dayIcon := n]> (frequency t) in
  if n >? maxFreq t
  then {| frequency := frequency'; maxFreq := n; mostFrequentIcon := dayIcon |}
  else {| frequency := frequency'; maxFreq := maxFreq t;
          mostFrequentIcon := mostFrequentIcon t |}.

Definition getMostFrequentIcon (icons : list string) : string :=
  match icons with
  | [] => "01d"
  | icon0 :: _ =>
      mostFrequentIcon
        (fold_left count_icon icons
           {| frequency := ∅; maxFreq := 0; mostFrequentIcon := icon0 |})
  end.

(** [Math.min(...l)] and [Math.max(...l)] of the temperatures of a bucket,
    which holds one sample at least. *)
Definition Math_min (l : list Q) : Q :=
  match l with [] => 0%Q | x :: r => fold_left Qmin r x end.
Definition Math_max (l : list Q) : Q :=
  match l with [] => 0%Q | x :: r => fold_left Qmax r x end.

(** [l.reduce((a, b) => a + b, 0) / l.length] *)
Definition average (l : list Q) : Q :=
  (fold_left Qplus l 0 / inject_Z (Z.of_nat (length l)))%Q.

(** [x || d] for a number. *)
Definition or_number (x : option Q) (d : Q) : Q :=
  match x with
  | Some q => if Qeq_bool q 0 then d else q
  | None => d
  end.

(** The function mapped over [Object.entries(dailyData)]. *)
Definition summarize (list_ : list ThreeHourForecastItem) (data : Bucket)
  : DailyForecastData :=
  let minTemp := Math_min (temps data) in
  let maxTemp := Math_max (temps data) in
  let avgPop := average (pops data) in
  let mostFrequentIcon := getMostFrequentIcon (weatherIcons data) in
  let at_dt := List.find (fun item => dt item =? bucket_dt data) list_ in
  let representativeWeather :=
    match List.find (fun item =>
            bool_decide (replace_n_d (icon (weather0 item)) = mostFrequentIcon)) list_ with
    | Some item => weather0 item
    | None =>
        match at_dt with
        | Some item => weather0 item
        | None => {| weather_id := 800; weather_main := "Clear";
                     weather_description := "clear sky"; icon := mostFrequentIcon |}
        end
    end in
  {| daily_dt := bucket_dt data;
     daily_temp := {| temp_min := minTemp; temp_max := maxTemp;
                      temp_day := ((minTemp + maxTemp) / 2)%Q;
                      temp_night := minTemp; temp_eve := maxTemp;
                      temp_morn := minTemp |};
     daily_weather := [ {| weather_id := weather_id representativeWeather;
                           weather_main := weather_main representativeWeather;
                           weather_description := weather_description representativeWeather;
                           icon := mostFrequentIcon |} ];
     daily_pop := avgPop;
     daily_summary := weather_description representativeWeather;
     daily_pressure := or_number (main_pressure <$> at_dt) 1015;
     daily_humidity := or_number (main_humidity <$> at_dt) 60;
     daily_wind_speed := or_number (wind_speed <$> at_dt) 0;
     daily_wind_deg := or_number (wind_deg <$> at_dt) 0;
     daily_clouds := or_number (clouds_all <$> at_dt) 0 |}.

(** [(a, b) => a.dt - b.dt] *)
Definition by_dt (a b : DailyForecastData) : Prop := daily_dt a <= daily_dt b.

#[global] Instance by_dt_dec : RelDecision by_dt :=
  fun a b => decide (daily_dt a <= daily_dt b).

Definition processForecastList (list_ : list ThreeHourForecastItem)
    (timezoneOffset : Z) : list DailyForecastData :=
  take 6 (merge_sort by_dt
            (List.map (fun kb => summarize list_ kb.2)
                      (group_by_day list_ timezoneOffset))).

End Forecast.

(** A non-empty string: what [if (!s)] lets through. *)
Definition nonempty (s : option string) : option string :=
  match s with
  | Some s => if decide (s = "") then None else Some s
  | None => None
  end.

(** ** The combined weather route, [GET /api/weather] (current + forecast) *)
Module CombinedWeatherRoute.
Import Forecast.

Definition CACHE_DURATION : Z := 10 * 60 * 1000.

(** The upstream forecast document, as far as the route reads it. *)
Record RawForecastResponse := {
  message : JsVal;
  list_ : list ThreeHourForecastItem;
  city_timezone : Z
}.

(** The body of an upstream reply: a forecast document or any other
    document (the current weather, an error object, nothing). *)
Inductive OwmData :=
| Document (j : JsVal)
| ForecastDocument (r : RawForecastResponse).

Record CombinedWeatherData := {
  current : OwmData;
  forecast_daily : list DailyForecastData;
  forecast_timezone_offset : Z
}.

(** The upstream calls; each stands for the URL the route builds from these
    pieces. *)
Inductive Request :=
| CurrentWeather (baseUrl city apiKey units : string)
| ForecastByCoordinates (baseUrl : string) (lat lon : Json) (apiKey units : string)
| ForecastByCity (baseUrl city apiKey units : string).

Record Env := {
  OPENWEATHERMAP_API_KEY : option string;
  OPENWEATHERMAP_BASE_URL : option string
}.

(** What the route answers with: its own payload or an upstream body. *)
Inductive WeatherBody :=
| Combined (d : CombinedWeatherData)
| Upstream (d : OwmData).

Definition data_truthy (d : OwmData) : bool :=
  match d with
  | Document j => truthy j
  | ForecastDocument _ => true
  end.

(** [data?.k] *)
Definition data_opt_prop (d : OwmData) (k : string) : JsVal :=
  match d with
  | Document j => opt_prop j k
  | ForecastDocument r => if decide (k = "message") then message r else None
  end.

(** The outer [catch]. It answers with the status of a failed upstream
    reply; what [NextResponse.json] throws there leaves the handler. *)
Definition outer_catch (e : Thrown OwmData) : Thrown OwmData + Response WeatherBody :=
  match e with
  | AxiosError m (Some (s, d)) =>
      let errorDetails :=
        if truthy (data_opt_prop d "message") then data_opt_prop d "message"
        else str m in
      NextResponse_json (Error "Failed to process weather request" errorDetails) s
  | AxiosError m None | JsError m =>
      inr (json (Error "Failed to process weather request" (str m)) 500)
  end.

(** A [return NextResponse.json(...)] inside one of the two inner [try]
    blocks: what it throws is no network error, so the inner [catch] throws it
    on to the outer one. *)
Definition returned_in_try (r : Thrown OwmData + Response WeatherBody)
  : Thrown OwmData + Response WeatherBody :=
  match r with
  | inr response => inr response
  | inl e => outer_catch e
  end.

Definition State := gmap string (ServerCache.CacheEntry CombinedWeatherData).

(** Step 2 of the handler: the forecast call and what follows it. *)
Definition fetch_forecast (upstream : Request -> Outcome OwmData)
    (baseUrl city apiKey units cacheKey : string) (now : Z)
    (currentWeatherData : OwmData) (weatherCache : State)
  : (Thrown OwmData + Response WeatherBody) * State * list Request :=
  let lat := data_opt_prop (Document (data_opt_prop currentWeatherData "coord")) "lat" in
  let lon := data_opt_prop (Document (data_opt_prop currentWeatherData "coord")) "lon" in
  let forecastUrl :=
    match lat, lon with
    | Some lat, Some lon => ForecastByCoordinates baseUrl lat lon apiKey units
    | _, _ => ForecastByCity baseUrl city apiKey units
    end in
  match axios (fun status => status <? 500) (upstream forecastUrl) with
  | inr (status, d) =>
      if negb (status =? 200) then
        (returned_in_try
           (NextResponse_json
              (if data_truthy d then Payload (Upstream d)
               else Error ("Failed to fetch forecast data (" ++ pretty status ++ ")")
                          (str "Unknown forecast error"))
              status),
         weatherCache, [forecastUrl])
      else
        match d with
        | ForecastDocument rawForecastData =>
            let dailySummaries :=
              processForecastList (list_ rawForecastData) (city_timezone rawForecastData) in
            let finalDailyForecast := take 7 dailySummaries in
            let combinedData :=
              {| current := currentWeatherData;
                 forecast_daily := finalDailyForecast;
                 forecast_timezone_offset := city_timezone rawForecastData |} in
            (inr (json (Payload (Combined combinedData)) 200),
             ServerCache.store weatherCache cacheKey combinedData now,
             [forecastUrl])
        | Document _ =>
            (outer_catch (JsError "TypeError: the forecast document has no list"),
             weatherCache, [forecastUrl])
        end
  | inl (AxiosError m None) =>
      (inr (json (Error "Network error fetching forecast data" (str m)) 503),
       weatherCache, [forecastUrl])
  | inl e => (outer_catch e, weatherCache, [forecastUrl])
  end.

(** The handler, from the parsed query ([searchParams.get] gives [null],
    here [None], for a missing parameter), the environment, the upstream
    service, the clock and the module's cache, to the response it returns
    ([inr]) or what it throws ([inl]), the cache afterwards and the upstream
    calls made, in order. *)
Definition GET (city units : option string) (env : Env)
    (upstream : Request -> Outcome OwmData) (now : Z) (weatherCache : State)
  : (Thrown OwmData + Response WeatherBody) * State * list Request :=
  let units := default "metric" (nonempty units) in
  match nonempty city with
  | None => (inr (json (Error "City parameter is required" None) 400), weatherCache, [])
  | Some city =>
      let cacheKey := city ++ "-" ++ units in
      match ServerCache.lookup weatherCache cacheKey now CACHE_DURATION with
      | Some d => (inr (json (Payload (Combined d)) 200), weatherCache, [])
      | None =>
          let baseUrl := default "https://api.openweathermap.org/data/2.5"
                                 (nonempty (OPENWEATHERMAP_BASE_URL env)) in
          match nonempty (OPENWEATHERMAP_API_KEY env) with
          | None =>
              (inr (json (Error "OpenWeatherMap API key is not configured"
                                (str "Please set a valid API key in your .env.local file"))
                         500),
               weatherCache, [])
          | Some apiKey =>
              if decide (apiKey = "your_openweathermap_api_key") then
                (inr (json (Error "OpenWeatherMap API key is not configured"
                                  (str "Please set a valid API key in your .env.local file"))
                           500),
                 weatherCache, [])
              else
                let currentUrl := CurrentWeather baseUrl city apiKey units in
                match axios (fun status => status <? 500) (upstream currentUrl) with
                | inr (status, d) =>
                    if negb (status =? 200) then
                      (returned_in_try
                         (NextResponse_json
                            (if data_truthy d then Payload (Upstream d)
                             else Error ("Failed to fetch current weather ("
                                           ++ pretty status ++ ")")
                                        (str "Unknown error"))
                            status),
                       weatherCache, [currentUrl])
                    else
                      let '(r, c, calls) :=
                        fetch_forecast upstream baseUrl city apiKey units cacheKey
                                       now d weatherCache in
                      (r, c, currentUrl :: calls)
                | inl (AxiosError m None) =>
                    (inr (json (Error "Network error fetching current weather" (str m))
                               503),
                     weatherCache, [currentUrl])
                | inl e => (outer_catch e, weatherCache, [currentUrl])
                end
          end
      end
  end.

End CombinedWeatherRoute.

(** ** The simple weather route (src/app/api/weather/route.ts) *)
Module WeatherRoute.

Definition CACHE_DURATION : Z := 10 * 60 * 1000.

(** [`${baseUrl}/weather?q=${encodeURIComponent(city)}&appid=...&units=...`] *)
Inductive Request :=
| CurrentWeather (baseUrl city apiKey units : string).

Record Env := {
  OPENWEATHERMAP_API_KEY : option string;
  OPENWEATHERMAP_BASE_URL : option string
}.

Definition State := gmap string (ServerCache.CacheEntry JsVal).

(** The inner [catch] wraps whatever was thrown in its [try], also by
    [NextResponse.json], in a plain [Error], which the outer [catch] turns
    into a 500. *)
Definition rethrown (m : string) : Response JsVal :=
  json (Error "Failed to fetch weather data"
              (str ("Axios failed to fetch weather: " ++ m))) 500.

Definition GET (city units : option string) (env : Env)
    (upstream : Request -> Outcome JsVal) (now : Z) (weatherCache : State)
  : Response JsVal * State * list Request :=
  let units := default "metric" (nonempty units) in
  match nonempty city with
  | None => (json (Error "City parameter is required" None) 400, weatherCache, [])
  | Some city =>
      let cacheKey := city ++ "-" ++ units in
      match ServerCache.lookup weatherCache cacheKey now CACHE_DURATION with
      | Some d => (json (Payload d) 200, weatherCache, [])
      | None =>
          let baseUrl := show_env (OPENWEATHERMAP_BASE_URL env) in
          match nonempty (OPENWEATHERMAP_API_KEY env) with
          | None =>
              (json (Error "OpenWeatherMap API key is not configured"
                           (str "Please set a valid API key in your .env.local file")) 500,
               weatherCache, [])
          | Some apiKey =>
              if decide (apiKey = "your_openweathermap_api_key") then
                (json (Error "OpenWeatherMap API key is not configured"
                             (str "Please set a valid API key in your .env.local file")) 500,
                 weatherCache, [])
              else
                let url := CurrentWeather baseUrl city apiKey units in
                match axios (fun status => status <? 500) (upstream url) with
                | inr (status, d) =>
                    if status =? 401 then
                      (json (Error "Invalid API key"
                               (str "The API key is invalid or not activated yet. It may take up to 2 hours after registration to activate.")) 401,
                       weatherCache, [url])
                    else if status =? 404 then
                      (json (Error "City not found"
                               (str ("Could not find weather data for " ++ quoted city))) 404,
                       weatherCache, [url])
                    else if status =? 429 then
                      (json (Error "Too many requests"
                               (str "You have exceeded the API rate limit")) 429,
                       weatherCache, [url])
                    else if negb (status =? 200) then
                      match prop (D := JsVal) d "message" with
                      | inr m =>
                          match
                            NextResponse_json (D := JsVal)
                              (Error "OpenWeatherMap API error"
                                     (if truthy m then m else str "Unknown error")) status
                          with
                          | inr response => (response, weatherCache, [url])
                          | inl e => (rethrown (message_of e), weatherCache, [url])
                          end
                      | inl e => (rethrown (message_of e), weatherCache, [url])
                      end
                    else
                      (json (Payload d) 200,
                       ServerCache.store weatherCache cacheKey d now, [url])
                | inl e => (rethrown (message_of e), weatherCache, [url])
                end
          end
      end
  end.

End WeatherRoute.

(** ** The GitHub routes *)

(** The repository object of the GitHub REST API, as the routes declare it
    ([GitHubTrendingItem]); [None] is [null]. *)
Record Owner := { owner_avatar_url : option string }.

Record GitHubTrendingItem := {
  item_id : Z;
  item_name : string;
  item_full_name : string;
  item_description : option string;
  item_html_url : string;
  item_stargazers_count : Z;
  item_language : option string;
  item_owner : option Owner;
  item_topics : option (list string);
  item_open_issues_count : Z;
  item_created_at : string;
  item_updated_at : string;
  item_homepage : option string;
  item_forks_count : Z;
  item_license : option License
}.

(** The body of a reply of the GitHub API. *)
Inductive GitHubData :=
| RepositoryDocument (r : GitHubTrendingItem)
| SearchDocument (items : list GitHubTrendingItem)
| IssuesDocument (issues : list GitHubIssue)
| OtherDocument (j : JsVal).

(** A value copied as it is from a nullable upstream field. *)
Definition copied {A} (x : option A) : Nullable A :=
  match x with Some a => JsValue a | None => JsNull end.

(** [item.license ? { name: item.license.name, url: item.license.url } : undefined] *)
Definition license_or_undefined (l : option License) : Nullable License :=
  match l with
  | Some l => JsValue {| license_name := license_name l; license_url := license_url l |}
  | None => JsUndefined
  end.

(** [item.owner?.avatar_url || ''] *)
Definition avatar_or_empty (o : option Owner) : string :=
  match o with
  | Some o => or_default (owner_avatar_url o) ""
  | None => ""
  end.

(** The [Authorization] header: the token when one is configured and is not
    the placeholder. *)
Definition baseHeaders (apiToken : option string) : option string :=
  match nonempty apiToken with
  | Some t => if decide (t = "your_github_api_token") then None else Some ("Bearer " ++ t)
  | None => None
  end.

Module GitHubRoute.

Definition CACHE_DURATION : Z := 30 * 60 * 1000.

(** The upstream calls of this route, each with its [Authorization]
    header. *)
Inductive Request :=
| SearchRepositories (baseUrl query : string) (per_page : Z) (headers : option string)
| Repository (baseUrl repoFullName : string) (headers : option string)
| LabelledIssues (baseUrl repoFullName : string) (headers : option string).

(** The object built for each item in [fetchTrendingRepos]. *)
Definition trending_item (item : GitHubTrendingItem) : GitHubProjectData :=
  {| id := item_id item;
     name := item_name item;
     full_name := item_full_name item;
     description := JsValue (or_default (item_description item) "");
     html_url := item_html_url item;
     stargazers_count := item_stargazers_count item;
     language := JsValue (or_default (item_language item) "");
     avatar_url := JsValue (avatar_or_empty (item_owner item));
     topics := default [] (item_topics item);
     open_issues_count := item_open_issues_count item;
     created_at := item_created_at item;
     updated_at := item_updated_at item;
     homepage := copied (item_homepage item);
     forks_count := item_forks_count item;
     license := license_or_undefined (item_license item);
     is_bookmarked := JsUndefined |}.

(** The query of [fetchTrendingRepos], from the date string it derives from
    the clock and the optional qualifiers. *)
Definition trending_query (dateStr : string) (language topic : option string) : string :=
  "created:>" ++ dateStr
    ++ match nonempty language with Some l => " language:" ++ l | None => "" end
    ++ match nonempty topic with Some t => " topic:" ++ t | None => "" end.

(** [fetchTrendingRepos]; [None] is the [null] of a failed fetch. *)
Definition fetchTrendingRepos (baseUrl dateStr : string) (language topic : option string)
    (headers : option string) (upstream : Request -> Outcome GitHubData)
  : option (list GitHubProjectData) * list Request :=
  let searchUrl :=
    SearchRepositories baseUrl (trending_query dateStr language topic) 20 headers in
  match axios default_validateStatus (upstream searchUrl) with
  | inr (status, SearchDocument items) =>
      if negb (status =? 200) then (None, [searchUrl])
      else (Some (List.map trending_item items), [searchUrl])
  | inr (_, _) | inl _ => (None, [searchUrl])
  end.

(** The [repoData] object of [getRepoDetails]. *)
Definition repo_details (data : GitHubTrendingItem) : GitHubProjectData :=
  {| id := item_id data;
     name := item_name data;
     full_name := item_full_name data;
     description := JsValue (or_default (item_description data) "");
     html_url := item_html_url data;
     stargazers_count := item_stargazers_count data;
     language := JsValue (or_default (item_language data) "");
     avatar_url := JsValue (avatar_or_empty (item_owner data));
     topics := default [] (item_topics data);
     open_issues_count := item_open_issues_count data;
     created_at := item_created_at data;
     updated_at := item_updated_at data;
     homepage := copied (item_homepage data);
     forks_count := item_forks_count data;
     license := license_or_undefined (item_license data);
     is_bookmarked := JsUndefined |}.

Definition RepoCache := gmap string (ServerCache.CacheEntry GitHubProjectData).

(** [getRepoDetails]; a 200 reply carries a repository object. *)
Definition getRepoDetails (baseUrl repoFullName : string) (headers : option string)
    (upstream : Request -> Outcome GitHubData) (now : Z) (repoCache : RepoCache)
  : option GitHubProjectData * RepoCache * list Request :=
  let cacheKey := "repo_" ++ repoFullName in
  match ServerCache.lookup repoCache cacheKey now CACHE_DURATION with
  | Some d => (Some d, repoCache, [])
  | None =>
      let repoUrl := Repository baseUrl repoFullName headers in
      match axios default_validateStatus (upstream repoUrl) with
      | inr (status, RepositoryDocument data) =>
          if negb (status =? 200) then (None, repoCache, [repoUrl])
          else
            let repoData := repo_details data in
            (Some repoData, ServerCache.store repoCache cacheKey repoData now, [repoUrl])
      | inr (_, _) | inl _ => (None, repoCache, [repoUrl])
      end
  end.

(** The object built for each issue, in both issue helpers. *)
Definition issue_item (item : GitHubIssue) : GitHubIssue :=
  {| issue_id := issue_id item; issue_number := issue_number item;
     issue_title := issue_title item; issue_html_url := issue_html_url item;
     issue_labels :=
       List.map (fun l => {| label_name := label_name l; label_color := label_color l |})
                (issue_labels item);
     issue_created_at := issue_created_at item |}.

(** [getBeginnerFriendlyIssues]: a status other than 200 gives [[]], and so
    does anything thrown (a rejected call, a body that is not an array). *)
Definition getBeginnerFriendlyIssues (baseUrl repoFullName : string)
    (headers : option string) (upstream : Request -> Outcome GitHubData)
  : list GitHubIssue * list Request :=
  let issuesUrl := LabelledIssues baseUrl repoFullName headers in
  match axios default_validateStatus (upstream issuesUrl) with
  | inr (status, d) =>
      if negb (status =? 200) then ([], [issuesUrl])
      else match d with
           | IssuesDocument issues => (List.map issue_item issues, [issuesUrl])
           | _ => ([], [issuesUrl])
           end
  | inl _ => ([], [issuesUrl])
  end.

End GitHubRoute.

(** [GET /api/github/issues] *)
Module IssuesRoute.

Definition CACHE_DURATION : Z := 5 * 60 * 1000.

Inductive Request :=
| OpenIssues (baseUrl repoFullName : string) (headers : option string).

Record Env := {
  GITHUB_API_TOKEN : option string;
  GITHUB_API_BASE_URL : option string
}.

Definition IssueCache := gmap string (ServerCache.CacheEntry (list GitHubIssue)).

Definition getRepositoryIssues (baseUrl repoFullName : string)
    (headers : option string) (upstream : Request -> Outcome GitHubData)
    (now : Z) (issueCache : IssueCache)
  : list GitHubIssue * IssueCache * list Request :=
  let cacheKey := "issues_" ++ repoFullName in
  match ServerCache.lookup issueCache cacheKey now CACHE_DURATION with
  | Some d => (d, issueCache, [])
  | None =>
      let issuesUrl := OpenIssues baseUrl repoFullName headers in
      match axios default_validateStatus (upstream issuesUrl) with
      | inr (status, d) =>
          if negb (status =? 200) then ([], issueCache, [issuesUrl])
          else match d with
               | IssuesDocument items =>
                   let issues := List.map GitHubRoute.issue_item items in
                   (issues, ServerCache.store issueCache cacheKey issues now, [issuesUrl])
               | _ => ([], issueCache, [issuesUrl])
               end
      | inl _ => ([], issueCache, [issuesUrl])
      end
  end.

(** The body [{ issues }]. *)
Record IssuesBody := { issues : list GitHubIssue }.

Definition GET (repo : option string) (env : Env)
    (upstream : Request -> Outcome GitHubData) (now : Z) (issueCache : IssueCache)
  : Response IssuesBody * IssueCache * list Request :=
  match nonempty repo with
  | None =>
      (json (Error "Missing repository parameter"
                   (str "Please provide a repository name in the format owner/repo")) 400,
       issueCache, [])
  | Some repoFullName =>
      let baseUrl := default "https://api.github.com" (nonempty (GITHUB_API_BASE_URL env)) in
      let '(issues, cache, calls) :=
        getRepositoryIssues baseUrl repoFullName (baseHeaders (GITHUB_API_TOKEN env))
                            upstream now issueCache in
      (json (Payload {| issues := issues |}) 200, cache, calls)
  end.

End IssuesRoute.

(** [GET /api/github/search] *)
Module SearchRoute.

Definition CACHE_DURATION : Z := 5 * 60 * 1000.

Inductive Request :=
| SearchRepositories (baseUrl query : string) (per_page : Z) (headers : option string).

(** The object built for each item in [searchRepositories]; reading
    [item.owner.avatar_url] off a missing owner throws, here [None]. *)
Definition search_item (item : GitHubTrendingItem) : option GitHubProjectData :=
  match item_owner item with
  | None => None
  | Some owner =>
      Some {| id := item_id item;
              name := item_name item;
              full_name := item_full_name item;
              description := JsValue (or_default (item_description item) "");
              html_url := item_html_url item;
              stargazers_count := item_stargazers_count item;
              language := JsValue (or_default (item_language item) "");
              avatar_url := copied (owner_avatar_url owner);
              topics := default [] (item_topics item);
              open_issues_count := item_open_issues_count item;
              created_at := item_created_at item;
              updated_at := item_updated_at item;
              homepage := JsValue (or_default (item_homepage item) "");
              forks_count := item_forks_count item;
              license := license_or_undefined (item_license item);
              is_bookmarked := JsUndefined |}
  end.

Definition SearchCache := gmap string (ServerCache.CacheEntry (list GitHubProjectData)).

Definition searchRepositories (baseUrl query : string) (headers : option string)
    (upstream : Request -> Outcome GitHubData) (now : Z) (searchCache : SearchCache)
  : list GitHubProjectData * SearchCache * list Request :=
  if decide (query = "") then ([], searchCache, [])
  else
    let cacheKey := "search_" ++ query in
    match ServerCache.lookup searchCache cacheKey now CACHE_DURATION with
    | Some d => (d, searchCache, [])
    | None =>
        let searchUrl := SearchRepositories baseUrl query 10 headers in
        match axios default_validateStatus (upstream searchUrl) with
        | inr (status, SearchDocument items) =>
            if negb (status =? 200) then ([], searchCache, [searchUrl])
            else match mapM search_item items with
                 | Some repositories =>
                     (repositories,
                      ServerCache.store searchCache cacheKey repositories now,
                      [searchUrl])
                 | None => ([], searchCache, [searchUrl])
                 end
        | inr (_, _) | inl _ => ([], searchCache, [searchUrl])
        end
    end.

End SearchRoute.

(** ** The AI insight route, [POST /api/gemini] *)
Module GeminiRoute.

(** Code that may throw: the error monad over [Thrown]. *)
Definition try_ {E A B : Type} (x : E + A) (k : A -> E + B) : E + B :=
  match x with
  | inl e => inl e
  | inr a => k a
  end.

Notation "'let?' x ':=' e 'in' k" := (try_ e (fun x => k))
  (at level 10, x name, e at level 100, k at level 200).

(** The three prompts; each stands for the text the route writes around the
    values it carries. *)
Inductive Prompt :=
| ProjectPrompt (name description language stargazers_count : JsVal)
| GlobalPrompt (weather_description temp city project_name project_description : JsVal)
| WeatherPrompt (city weather_description temp : JsVal).

(** [`${baseUrl}/models/gemini-1.5-flash:generateContent?key=${apiKey}`],
    posted with the prompt. *)
Inductive Request :=
| GenerateContent (baseUrl apiKey : string) (prompt : Prompt).

Record Env := {
  GEMINI_API_KEY : option string;
  GEMINI_API_BASE_URL : option string
}.

(** The body [{ message }]. *)
Record MessageBody := { message : JsVal }.

(** [x || d] *)
Definition or_else (x d : JsVal) : JsVal := if truthy x then x else d.

(** The mode selection: the prompt, or the response that ends the request
    before any upstream call. *)
Definition select_prompt (weatherData projectData project : JsVal)
  : Thrown JsVal + (Response MessageBody + Prompt) :=
  if truthy project && negb (truthy weatherData) && negb (truthy projectData) then
    let? name := prop project "name" in
    let? description := prop project "description" in
    if negb (truthy name) || negb (truthy description) then
      inr (inl (json (Error "Project name and description are required for project-specific insight" None) 400))
    else
      let? language := prop project "language" in
      let? stars := prop project "stargazers_count" in
      inr (inr (ProjectPrompt name description
                  (or_else language (str "Not specified"))
                  (or_else stars (Some (JNumber 0)))))
  else if truthy weatherData && truthy projectData && negb (truthy project) then
    let? weather := prop weatherData "weather" in
    let? weather0 := (if truthy weather then first weather else inr None) in
    let? projectName := prop projectData "name" in
    if negb (truthy weather) || negb (truthy weather0) || negb (truthy projectName) then
      inr (inl (json (Error "Required weather and project data fields are missing for global insight" None) 400))
    else
      let? description := prop weather0 "description" in
      let? main := prop weatherData "main" in
      let? temp := prop main "temp" in
      let? city := prop weatherData "name" in
      let? projectDescription := prop projectData "description" in
      inr (inr (GlobalPrompt description temp city projectName projectDescription))
  else if truthy weatherData && negb (truthy projectData) && negb (truthy project) then
    let? weather := prop weatherData "weather" in
    let? weather0 := (if truthy weather then first weather else inr None) in
    let? city := prop weatherData "name" in
    if negb (truthy weather) || negb (truthy weather0) || negb (truthy city) then
      inr (inl (json (Error "Required weather data fields are missing for weather-only insight" None) 400))
    else
      let? description := prop weather0 "description" in
      let? main := prop weatherData "main" in
      let? temp := prop main "temp" in
      inr (inr (WeatherPrompt city description temp))
  else
    inr (inl (json (Error "Invalid request body. Provide {project}, {weatherData, projectData}, or just {weatherData}." None) 400)).

(** The checks on the reply and the extraction of the generated text. *)
Definition generated_text (data : JsVal) : Thrown JsVal + JsVal :=
  let unexpected : Thrown JsVal + JsVal :=
    inl (JsError "Received an unexpected response format from the AI service.") in
  if negb (truthy data) then unexpected else
  let? candidates := prop data "candidates" in
  if negb (truthy candidates) then unexpected else
  let? empty := length_is_zero candidates in
  if (empty : bool) then unexpected else
  let? candidate := first candidates in
  let? content := prop candidate "content" in
  if negb (truthy content) then unexpected else
  let? parts := prop content "parts" in
  if negb (truthy parts) then unexpected else
  let? no_parts := length_is_zero parts in
  if (no_parts : bool) then unexpected else
  let? part := first parts in
  prop part "text".

(** The [catch] of the handler. It answers with the status of a failed
    reply of the service; what [NextResponse.json] throws there leaves the
    handler. *)
Definition on_error (e : Thrown JsVal) : Thrown JsVal + Response MessageBody :=
  match e with
  | AxiosError m response =>
      let details :=
        match response with
        | Some (_, d) => or_else (opt_prop (opt_prop d "error") "message") (str m)
        | None => str m
        end in
      let errorStatus :=
        match response with
        | Some (s, _) => if s =? 0 then 500 else s
        | None => 500
        end in
      NextResponse_json (Error "Failed to communicate with AI service" details) errorStatus
  | JsError m => inr (json (Error "Failed to generate AI insight" (str m)) 500)
  end.

(** The handler, from the parsed body ([None] when [request.json()] throws),
    to the response it returns ([inr]) or what it throws ([inl]), and the
    upstream calls made. *)
Definition POST (body : option Json) (env : Env)
    (upstream : Request -> Outcome JsVal)
  : (Thrown JsVal + Response MessageBody) * list Request :=
  match body with
  | None => (on_error (JsError "Unexpected token in JSON"), [])
  | Some body =>
      let fields :=
        let? weatherData := prop (Some body) "weatherData" in
        let? projectData := prop (Some body) "projectData" in
        let? project := prop (Some body) "project" in
        inr (weatherData, projectData, project) in
      match fields with
      | inl e => (on_error e, [])
      | inr (weatherData, projectData, project) =>
          match select_prompt weatherData projectData project with
          | inl e => (on_error e, [])
          | inr (inl response) => (inr response, [])
          | inr (inr prompt) =>
              match nonempty (GEMINI_API_KEY env), nonempty (GEMINI_API_BASE_URL env) with
              | None, _ =>
                  (inr (json (Error "Server configuration error"
                                    (str "AI API key not configured.")) 500), [])
              | Some _, None =>
                  (inr (json (Error "Server configuration error"
                                    (str "AI API URL not configured.")) 500), [])
              | Some apiKey, Some baseUrl =>
                  let request := GenerateContent baseUrl apiKey prompt in
                  match axios default_validateStatus (upstream request) with
                  | inl e => (on_error e, [request])
                  | inr (_, d) =>
                      match generated_text d with
                      | inl e => (on_error e, [request])
                      | inr text =>
                          (inr (json (Payload {| message := text |}) 200), [request])
                      end
                  end
              end
          end
      end
  end.

End GeminiRoute.

(** ** The vocabulary of the properties *)

(** *** Cache keys *)

(** [c] occurs in [s]. *)
Fixpoint occurs (c : ascii) (s : string) : bool :=
  match s with
  | "" => false
  | String a rest => Ascii.eqb a c || occurs c rest
  end.

(** Parameters that the key format keeps apart: the keys of an object
    (pairwise distinct), no ['='] in a key, no ['&'] in a printed value. *)
Definition plain_params (params : ClientCache.Params) : Prop :=
  NoDup (ClientCache.keys params)
  /\ Forall (fun kv => occurs "=" kv.1 = false
                       /\ occurs "&" (ClientCache.String_ kv.2) = false) params.

(** *** The client cache *)

(** When the cache has not been initialised in a browser, the stored text is
    the serialisation of the store in memory. Every [set] establishes it. *)
Definition coherent {T} (st : ClientCache.State T) : Prop :=
  ClientCache.window_defined st = true -> ClientCache.isInitialized st = false ->
  ClientCache.stored st = Parsed (ClientCache.cacheStore st).

(** *** Icons *)

Definition is_digit (c : ascii) : bool :=
  (48 <=? nat_of_ascii c)%nat && (nat_of_ascii c <=? 57)%nat.

(** An icon code of the weather service: two digits and [d] (day) or [n]
    (night), as in [01d], [10n]. *)
Definition icon_code (s : string) : bool :=
  match s with
  | String a (String b (String c "")) =>
      is_digit a && is_digit b && (Ascii.eqb c "d" || Ascii.eqb c "n")
  | _ => false
  end.

(** The specification's folding: a final [n] becomes [d]. *)
Fixpoint day_equivalent (s : string) : string :=
  match s with
  | "" => ""
  | String c "" => if Ascii.eqb c "n" then "d" else String c ""
  | String c rest => String c (day_equivalent rest)
  end.

(** How often [x] occurs in [l]. *)
Definition occurrences (x : string) (l : list string) : Z :=
  Z.of_nat (length (filter (fun y => y = x) l)).

(** [r] is the code of [l] that first attains the highest count: at its
    occurrence after [pre] it reaches a count that no code exceeds in the
    whole of [l] and that no code had reached in [pre]. *)
Definition first_most_frequent (l : list string) (r : string) : Prop :=
  exists pre post : list string,
    l = (pre ++ r :: post)%list
    /\ (forall x, occurrences x l <= occurrences r (pre ++ [r]))
    /\ (forall x, occurrences x pre < occurrences r (pre ++ [r])).

(** What the loop of [getMostFrequentIcon] maintains after the day icons
    [seen]. *)
Definition tally_of (seen : list string) (t : Forecast.IconTally) : Prop :=
  (forall x, default 0 (Forecast.frequency t !! x) = occurrences x seen)
  /\ (forall x, occurrences x seen <= Forecast.maxFreq t)
  /\ (seen = [] -> Forecast.maxFreq t = 0)
  /\ (seen ≠ [] ->
      exists pre post : list string,
        seen = (pre ++ Forecast.mostFrequentIcon t :: post)%list
        /\ occurrences (Forecast.mostFrequentIcon t)
                       (pre ++ [Forecast.mostFrequentIcon t]) = Forecast.maxFreq t
        /\ forall x, occurrences x pre < Forecast.maxFreq t).

(** *** Forecast buckets *)

(** The samples of [list_] that fall on the calendar day [key]. *)
Definition samples_of_day (timezoneOffset : Z) (key : string)
    (list_ : list Forecast.ThreeHourForecastItem) : list Forecast.ThreeHourForecastItem :=
  List.filter (fun item =>
      bool_decide (Forecast.dateKey (Forecast.dt item + timezoneOffset) = key)) list_.

(** What the grouping loop maintains after the samples [seen]: every day seen
    has a bucket, and every bucket carries the [dt] of the first sample of
    its day. *)
Definition grouped (timezoneOffset : Z) (seen : list Forecast.ThreeHourForecastItem)
    (dailyData : Forecast.DailyData) : Prop :=
  (forall item, item ∈ seen ->
     Forecast.dateKey (Forecast.dt item + timezoneOffset) ∈ dailyData.*1)
  /\ Forall (fun kb => exists first,
                head (samples_of_day timezoneOffset kb.1 seen) = Some first
                /\ Forecast.bucket_dt kb.2 = Forecast.dt first) dailyData.

(** *** Normalised projects *)

(** No field of the project holds [null]. *)
Definition null_free (p : GitHubProjectData) : bool :=
  negb (is_null (description p) || is_null (language p) || is_null (avatar_url p)
        || is_null (homepage p) || is_null (license p) || is_null (is_bookmarked p)).

(** *** The answer of a handler *)

(** The handler returns a response with the status [s]. *)
Definition answers {D P} (a : Thrown D + Response P) (s : Z) : Prop :=
  exists response, a = inr response /\ status response = s.

(** The handler throws: it returns no response. *)
Definition throws {D P} (a : Thrown D + Response P) : Prop :=
  exists e, a = inl e.

(** *** Upstream failures *)

(** The call yields a status other than 200, or no reply. *)
Definition fails {D} (o : Outcome D) : Prop :=
  match o with
  | Replied s _ => s ≠ 200
  | NoReply _ => True
  end.

(** ** Sample inputs *)
Module Samples.

Definition browser : Preferences.Browser :=
  {| Preferences.window_defined := true;
     Preferences.localStorage :=
       {| Preferences.BOOKMARK_KEY := Absent;
          Preferences.VIEW_HISTORY_KEY := Parsed ["a/b"; "c/d"; "a/b"; "e/f"] |} |}.

Definition repository : GitHubTrendingItem :=
  {| item_id := 2325298;
     item_name := "linux";
     item_full_name := "torvalds/linux";
     item_description := None;
     item_html_url := "https://github.com/torvalds/linux";
     item_stargazers_count := 180000;
     item_language := None;
     item_owner := Some {| owner_avatar_url := Some "https://avatars.githubusercontent.com/u/1024025" |};
     item_topics := None;
     item_open_issues_count := 3;
     item_created_at := "2011-09-04T22:48:12Z";
     item_updated_at := "2024-01-01T00:00:00Z";
     item_homepage := None;
     item_forks_count := 54000;
     item_license := None |}.

Definition project : GitHubProjectData := GitHubRoute.repo_details repository.

Definition bookmarked : Preferences.Browser :=
  Preferences.addBookmarkedProject project browser.

Definition clear_sky (icon : string) : Forecast.Weather :=
  {| Forecast.weather_id := 800; Forecast.weather_main := "Clear";
     Forecast.weather_description := "clear sky"; Forecast.icon := icon |}.

Definition sample (dt : Z) (icon : string) : Forecast.ThreeHourForecastItem :=
  {| Forecast.dt := dt; Forecast.main_temp := 10; Forecast.main_pressure := 1015;
     Forecast.main_humidity := 60; Forecast.weather0 := clear_sky icon;
     Forecast.clouds_all := 0; Forecast.wind_speed := 3; Forecast.wind_deg := 180;
     Forecast.pop := 0 |}.

(** Eight samples, three hours apart, that span 2024-01-01 in UTC. *)
Definition day_of_samples : list Forecast.ThreeHourForecastItem :=
  List.map (fun it : Z * Q =>
              {| Forecast.dt := 1704067200 + 10800 * it.1; Forecast.main_temp := it.2;
                 Forecast.main_pressure := 1015; Forecast.main_humidity := 60;
                 Forecast.weather0 := clear_sky "01d"; Forecast.clouds_all := 0;
                 Forecast.wind_speed := 3; Forecast.wind_deg := 180;
                 Forecast.pop := 0 |})
           [(0, 10%Q); (1, 12%Q); (2, 14%Q); (3, 16%Q);
            (4, 18%Q); (5, 15%Q); (6, 13%Q); (7, 11%Q)].

(** 2024-01-01 at 00:00 and at 12:00 UTC. *)
Definition midnight : Forecast.ThreeHourForecastItem := sample 1704067200 "01n".
Definition noon : Forecast.ThreeHourForecastItem := sample 1704110400 "01d".

Definition london : JsVal :=
  Some (JObject [("name", JString "London");
                 ("coord", JObject [("lon", JNumber (-1257 # 10000)); ("lat", JNumber (515085 # 10000))])]).

Definition forecast : CombinedWeatherRoute.RawForecastResponse :=
  {| CombinedWeatherRoute.message := Some (JNumber 0);
     CombinedWeatherRoute.list_ := [midnight; noon];
     CombinedWeatherRoute.city_timezone := 0 |}.

(** An upstream weather service that knows London. *)
Definition owm (r : CombinedWeatherRoute.Request) : Outcome CombinedWeatherRoute.OwmData :=
  match r with
  | CombinedWeatherRoute.CurrentWeather _ _ _ _ =>
      Replied 200 (CombinedWeatherRoute.Document london)
  | _ => Replied 200 (CombinedWeatherRoute.ForecastDocument forecast)
  end.

Definition weather_env : CombinedWeatherRoute.Env :=
  {| CombinedWeatherRoute.OPENWEATHERMAP_API_KEY := Some "k";
     CombinedWeatherRoute.OPENWEATHERMAP_BASE_URL := None |}.

(** A GitHub that refuses every issues request with 403. *)
Definition forbidden {R} (r : R) : Outcome GitHubData :=
  Replied 403 (OtherDocument (Some (JObject [("message", JString "API rate limit exceeded")]))).

Definition github_env : IssuesRoute.Env :=
  {| IssuesRoute.GITHUB_API_TOKEN := None; IssuesRoute.GITHUB_API_BASE_URL := None |}.

(** A request body that names both a project and the weather. *)
Definition ambiguous_body : Json :=
  JObject [("project", JObject [("name", JString "linux"); ("description", JString "kernel")]);
           ("weatherData", JObject [])].

Definition gemini_env : GeminiRoute.Env :=
  {| GeminiRoute.GEMINI_API_KEY := Some "k";
     GeminiRoute.GEMINI_API_BASE_URL := Some "https://generativelanguage.googleapis.com/v1beta" |}.

Definition gemini {R} (r : R) : Outcome JsVal := NoReply "unreachable".

(** The first request for London at the start of 2024, and what it leaves. *)
Definition t0 : Z := 1704067200000.

Definition combined : CombinedWeatherRoute.CombinedWeatherData :=
  {| CombinedWeatherRoute.current := CombinedWeatherRoute.Document london;
     CombinedWeatherRoute.forecast_daily :=
       take 7 (Forecast.processForecastList [midnight; noon] 0);
     CombinedWeatherRoute.forecast_timezone_offset := 0 |}.

Definition weather_cache : CombinedWeatherRoute.State :=
  ServerCache.store ∅ "London-metric" combined t0.

Definition weather_calls : list CombinedWeatherRoute.Request :=
  [CombinedWeatherRoute.CurrentWeather
     "https://api.openweathermap.org/data/2.5" "London" "k" "metric";
   CombinedWeatherRoute.ForecastByCoordinates
     "https://api.openweathermap.org/data/2.5"
     (JNumber (515085 # 10000)) (JNumber (-1257 # 10000)) "k" "metric"].

End Samples.


(** ** Further vocabulary of the properties *)

(** *** The combined weather route *)
Module CombinedWeatherTerms.
Import CombinedWeatherRoute.

(** Under which the handler goes upstream. *)
Definition goes_upstream (city units : option string) (env : Env) (now : Z)
    (weatherCache : State) (c k : string) : Prop :=
  nonempty city = Some c
  /\ nonempty (OPENWEATHERMAP_API_KEY env) = Some k
  /\ k ≠ "your_openweathermap_api_key"
  /\ ServerCache.lookup weatherCache (c ++ "-" ++ default "metric" (nonempty units))
                        now CACHE_DURATION = None.

End CombinedWeatherTerms.


(** *** Forecast buckets *)

(** The bucket [b] holds what the samples [samples] of one day contributed,
    in their order. *)
Definition holds_samples (b : Forecast.Bucket)
    (samples : list Forecast.ThreeHourForecastItem) : Prop :=
  Forecast.temps b = Forecast.main_temp <$> samples
  /\ Forecast.weatherIcons b = (fun item => Forecast.icon (Forecast.weather0 item)) <$> samples
  /\ Forecast.pops b = Forecast.pop <$> samples
  /\ samples ≠ [].

(** What the grouping loop maintains after the samples [seen]: one bucket per
    calendar day seen, each holding the samples of its day. *)
Definition bucketed (timezoneOffset : Z) (seen : list Forecast.ThreeHourForecastItem)
    (dailyData : Forecast.DailyData) : Prop :=
  NoDup dailyData.*1
  /\ (forall item, item ∈ seen ->
        Forecast.dateKey (Forecast.dt item + timezoneOffset) ∈ dailyData.*1)
  /\ Forall (fun kb => holds_samples kb.2 (samples_of_day timezoneOffset kb.1 seen))
            dailyData.

(** The order of the daily summaries: strictly ascending [dt]. *)
Definition earlier (a b : Forecast.DailyForecastData) : Prop :=
  Forecast.daily_dt a < Forecast.daily_dt b.

(** *** The AI routes *)

(** ** The rest of the client cache and the hook over it *)
Module ClientCacheRest.
Import ClientCache.

Section Store.
Context {T : Type}.

(** [clearAll]: empties the store in memory and removes the stored item. *)
Definition clearAll (st : State T) : State T :=
  {| window_defined := window_defined st;
     isInitialized := isInitialized st;
     cacheStore := ∅;
     stored := if window_defined st then Absent else stored st |}.

(** The class as a page load finds it: its static fields at their initial
    values, over what [localStorage] holds. *)
Definition page_load (window : bool) (item : Stored (gmap string (CacheEntry T)))
  : State T :=
  {| window_defined := window; isInitialized := false; cacheStore := ∅;
     stored := item |}.

(** What a sweep at [t] leaves of the entry of a key. *)
Definition unexpired (t : Z) (e : option (CacheEntry T)) : option (CacheEntry T) :=
  e ← e; if decide (expiryTime e < t) then None else Some e.

(** *** [useDataFetcher] *)

(** The state of the hook: [data], [isLoading], [error]. *)
Record HookState := {
  hook_data : option T;
  hook_isLoading : bool;
  hook_error : option string
}.

(** What awaiting the fetcher comes to: a result, an [Error] with its
    message, or something else thrown. *)
Inductive Fetched :=
| Resolved (result : T)
| RejectedError (message : string)
| RejectedOther.

(** [if (cachedData)]: whether a cached value is truthy. *)
Context (truthy_data : T -> bool).

(** [fetchData(force)], for the key and the fetcher of the hook ([None] for
    [null]), the clock at the cache check ([now]) and when the fetcher has
    settled ([later]); with the state of the hook and of the cache it gives
    whether the fetcher was invoked. *)
Definition fetchData (key : option string) (fetcher : option Fetched)
    (cacheDuration : Z) (force : bool) (now later : Z)
    (h : HookState) (c : State T) : HookState * State T * bool :=
  match nonempty key, fetcher with
  | None, _ | _, None => (h, c, false)
  | Some key, Some outcome =>
      let fetch (c : State T) :=
        match outcome with
        | Resolved result =>
            ({| hook_data := Some result; hook_isLoading := false; hook_error := None |},
             set key result cacheDuration later c, true)
        | RejectedError message =>
            ({| hook_data := hook_data h; hook_isLoading := false;
                hook_error := Some message |}, c, true)
        | RejectedOther =>
            ({| hook_data := hook_data h; hook_isLoading := false;
                hook_error := Some "An error occurred" |}, c, true)
        end in
      if force then fetch c
      else
        let '(fresh, c1) := has key now c in
        if fresh then
          let '(cachedData, c2) := get key now c1 in
          match cachedData with
          | Some d =>
              if truthy_data d then
                ({| hook_data := Some d; hook_isLoading := hook_isLoading h;
                    hook_error := hook_error h |}, c2, false)
              else fetch c2
          | None => fetch c2
          end
        else fetch c1
  end.

End Store.

Arguments HookState : clear implicits.
Arguments Fetched : clear implicits.

End ClientCacheRest.

(** ** The favourite languages and topics (github-utils)

    The slots [devforecast_language_preferences] and
    [devforecast_topic_preferences] of [localStorage]; the helpers are written
    like those of the bookmarks. *)
Module Favorites.

Record LocalStorage := {
  LANGUAGE_PREFS_KEY : Stored (list string);
  TOPIC_PREFS_KEY : Stored (list string)
}.

Record Browser := {
  window_defined : bool;
  localStorage : LocalStorage
}.

Definition setLanguages (b : Browser) (l : list string) : Browser :=
  {| window_defined := window_defined b;
     localStorage := {| LANGUAGE_PREFS_KEY := Parsed l;
                        TOPIC_PREFS_KEY := TOPIC_PREFS_KEY (localStorage b) |} |}.

Definition setTopics (b : Browser) (l : list string) : Browser :=
  {| window_defined := window_defined b;
     localStorage := {| LANGUAGE_PREFS_KEY := LANGUAGE_PREFS_KEY (localStorage b);
                        TOPIC_PREFS_KEY := Parsed l |} |}.

Definition getFavoriteLanguages (b : Browser) : list string :=
  if negb (window_defined b) then []
  else match LANGUAGE_PREFS_KEY (localStorage b) with
       | Parsed l => l
       | Absent | Corrupt => []
       end.

(** [languages.includes(language)] *)
Definition includes (x : string) (l : list string) : bool := bool_decide (x ∈ l).

Definition addFavoriteLanguage (language : string) (b : Browser) : Browser :=
  if negb (window_defined b) then b
  else
    let languages := getFavoriteLanguages b in
    if negb (includes language languages)
    then setLanguages b (languages ++ [language])
    else b.

Definition removeFavoriteLanguage (language : string) (b : Browser) : Browser :=
  if negb (window_defined b) then b
  else
    let languages := getFavoriteLanguages b in
    setLanguages b (filter (fun l => l ≠ language) languages).

Definition getFavoriteTopics (b : Browser) : list string :=
  if negb (window_defined b) then []
  else match TOPIC_PREFS_KEY (localStorage b) with
       | Parsed l => l
       | Absent | Corrupt => []
       end.

Definition addFavoriteTopic (topic : string) (b : Browser) : Browser :=
  if negb (window_defined b) then b
  else
    let topics := getFavoriteTopics b in
    if negb (includes topic topics)
    then setTopics b (topics ++ [topic])
    else b.

Definition removeFavoriteTopic (topic : string) (b : Browser) : Browser :=
  if negb (window_defined b) then b
  else
    let topics := getFavoriteTopics b in
    setTopics b (filter (fun t => t ≠ topic) topics).

End Favorites.

(** [clearViewHistory] *)
Definition clearViewHistory (b : Preferences.Browser) : Preferences.Browser :=
  if negb (Preferences.window_defined b) then b
  else Preferences.setHistory b [].

(** ** [parseInt(s, 10)]

    A string is read as the UTF-8 encoding of its characters. [parseInt]
    skips leading white space and line terminators, takes a sign and the
    longest run of decimal digits; [None] is [NaN]. The integer stands for the
    number nearest to it: the routes only compare it with lengths. *)

Definition code (c : ascii) : nat := nat_of_ascii c.

(** TAB, LF, VT, FF, CR and the space. *)
Definition is_white_space1 (a : ascii) : bool :=
  ((9 <=? code a) && (code a <=? 13))%nat || (code a =? 32)%nat.

(** U+00A0. *)
Definition is_white_space2 (a b : ascii) : bool :=
  ((code a =? 194) && (code b =? 160))%nat.

(** U+1680, U+2000 to U+200A, U+2028, U+2029, U+202F, U+205F, U+3000 and
    U+FEFF. *)
Definition is_white_space3 (a b c : ascii) : bool :=
  ((code a =? 225) && (code b =? 154) && (code c =? 128)
   || (code a =? 226) && (code b =? 128)
      && ((128 <=? code c) && (code c <=? 138)
          || (code c =? 168) || (code c =? 169) || (code c =? 175))
   || (code a =? 226) && (code b =? 129) && (code c =? 159)
   || (code a =? 227) && (code b =? 128) && (code c =? 128)
   || (code a =? 239) && (code b =? 187) && (code c =? 191))%nat.

Fixpoint skip_white_space (s : string) : string :=
  match s with
  | String a s1 =>
      if is_white_space1 a then skip_white_space s1
      else match s1 with
           | String b s2 =>
               if is_white_space2 a b then skip_white_space s2
               else match s2 with
                    | String c s3 =>
                        if is_white_space3 a b c then skip_white_space s3 else s
                    | EmptyString => s
                    end
           | EmptyString => s
           end
  | EmptyString => s
  end.

(** The value of the longest run of digits at the head of [s], after the
    digits of value [acc]. *)
Fixpoint digits (s : string) (acc : Z) : Z :=
  match s with
  | String c rest =>
      if is_digit c then digits rest (10 * acc + (Z.of_nat (code c) - 48)) else acc
  | EmptyString => acc
  end.

Definition parseInt (s : string) : option Z :=
  let inputString := skip_white_space s in
  let '(sign, inputString) :=
    match inputString with
    | String "-"%char rest => (-1, rest)
    | String "+"%char rest => (1, rest)
    | _ => (1, inputString)
    end in
  match inputString with
  | String c _ => if is_digit c then Some (sign * digits inputString 0) else None
  | EmptyString => None
  end.

(** ** [shuffleArray] (Fisher-Yates)

    [Math.floor(Math.random() * n)] is an index below [n]; the source of
    randomness is the function [floor_random], which gives that index for the
    [k]-th call of [Math.random] and the bound [n]. *)
Section Shuffle.

Context {A : Type} (floor_random : nat -> nat -> nat).

(** [[array[i], array[j]] = [array[j], array[i]]] *)
Definition swap (i j : nat) (array : list A) : list A :=
  match array !! i, array !! j with
  | Some x, Some y => <[j := x]> (<[i := y]> array)
  | _, _ => array
  end.

(** The loop from [i] down to 1, [k] calls of [Math.random] having been
    made. *)
Fixpoint shuffle_from (i k : nat) (array : list A) : list A :=
  match i with
  | O => array
  | S i' => shuffle_from i' (S k) (swap i (floor_random k (i + 1)) array)
  end.

(** The shuffled array and the number of calls of [Math.random] made. *)
Definition shuffleArray (k : nat) (array : list A) : list A * nat :=
  (shuffle_from (length array - 1) k array, (k + (length array - 1))%nat).

End Shuffle.

(** ** The main GitHub route, [GET /api/github] *)
Module GitHubHandler.
Import GitHubRoute.

Definition curatedRepos : list string :=
  ["facebook/react"; "vercel/next.js"; "tailwindlabs/tailwindcss"; "shadcn-ui/ui";
   "microsoft/typescript"; "sveltejs/svelte"; "golang/go"; "rust-lang/rust";
   "denoland/deno"; "flutter/flutter"; "vuejs/vue"; "angular/angular";
   "torvalds/linux"; "microsoft/vscode"; "freeCodeCamp/freeCodeCamp";
   "openai/openai-cookbook"; "huggingface/transformers"; "tensorflow/tensorflow";
   "kubernetes/kubernetes"; "docker/compose"; "django/django"; "laravel/laravel";
   "dotnet/runtime"; "NixOS/nixpkgs"; "godotengine/godot"; "Shopify/hydrogen";
   "JetBrains/kotlin"; "symfony/symfony"; "spring-projects/spring-boot"].

(** The search parameters the handler reads; [None] is the [null] of
    [searchParams.get]. *)
Record Query := {
  q_count : option string;
  q_filter : option string;
  q_language : option string;
  q_timeFilter : option string;
  q_since : option string;
  q_topic : option string;
  q_repo : option string
}.

Record Env := {
  GITHUB_API_TOKEN : option string;
  GITHUB_API_BASE_URL : option string
}.

Definition TrendingCache := gmap string (ServerCache.CacheEntry (list GitHubProjectData)).

(** The two caches of the module, the upstream calls made so far, and how
    often [Math.random] and [Date.now] have been called. *)
Record World := {
  repoCache : RepoCache;
  trendingCache : TrendingCache;
  calls : list Request;
  randoms : nat;
  reads : nat
}.

(** The body of a response: an array of projects, or
    [{ ...repoData, beginner_issues }]. *)
Inductive GitHubBody :=
| Projects (projects : list GitHubProjectData)
| RepoWithIssues (repoData : GitHubProjectData) (beginner_issues : list GitHubIssue).

Section Handler.

(** What the handler meets: the answer of GitHub to a request, given how many
    requests went out before; the clock at each read; the random indices; and
    the date so many days before today, as [YYYY-MM-DD]. *)
Context (upstream : nat -> Request -> Outcome GitHubData)
        (Date_now : nat -> Z)
        (floor_random : nat -> nat -> nat)
        (days_before_today : Z -> string).

Context (baseUrl : string) (headers : option string).

(** [await getRepoDetails(repoName, baseHeaders)] *)
Definition details (repoName : string) (w : World) : option GitHubProjectData * World :=
  let '(repoData, cache, sent) :=
    getRepoDetails baseUrl repoName headers (upstream (length (calls w)))
                   (Date_now (reads w)) (repoCache w) in
  (repoData,
   {| repoCache := cache; trendingCache := trendingCache w;
      calls := calls w ++ sent; randoms := randoms w; reads := S (reads w) |}).

(** [repoData.language === language] *)
Definition has_language (wanted : string) (repoData : GitHubProjectData) : bool :=
  match language repoData with
  | JsValue l => bool_decide (l = wanted)
  | _ => false
  end.

(** [repoData.topics && repoData.topics.includes(topic)] *)
Definition has_topic (topic : string) (repoData : GitHubProjectData) : bool :=
  bool_decide (topic ∈ topics repoData).

(** The three loops over the shuffled names: stop when [count] projects are
    in, fetch the details, keep the project when it is there and passes. *)
Fixpoint collect (passes : GitHubProjectData -> bool) (count : Z)
    (names : list string) (filteredRepos : list GitHubProjectData) (w : World)
  : list GitHubProjectData * World :=
  match names with
  | [] => (filteredRepos, w)
  | repoName :: names =>
      if Z.of_nat (length filteredRepos) >=? count then (filteredRepos, w)
      else
        let '(repoData, w) := details repoName w in
        match repoData with
        | Some d =>
            collect passes count names
                    (if passes d then filteredRepos ++ [d] else filteredRepos) w
        | None => collect passes count names filteredRepos w
        end
  end.

(** [selectedRepos.map(...)] and [Promise.all]: the names are distinct, so the
    calls touch different entries of the cache; they are started, and taken
    here, in the order of the names. *)
Fixpoint details_of_all (names : list string) (w : World)
  : list (option GitHubProjectData) * World :=
  match names with
  | [] => ([], w)
  | repoName :: names =>
      let '(repoData, w) := details repoName w in
      let '(results, w) := details_of_all names w in
      (repoData :: results, w)
  end.

(** [shuffleArray([...repoList])] *)
Definition shuffled (w : World) : list string * World :=
  let '(names, k) := shuffleArray floor_random (randoms w) curatedRepos in
  (names,
   {| repoCache := repoCache w; trendingCache := trendingCache w;
      calls := calls w; randoms := k; reads := reads w |}).

(** The random selection from the curated list. *)
Definition random_selection (count : Z) (w : World) : Response GitHubBody * World :=
  let '(shuffledRepos, w) := shuffled w in
  let selectedRepos := take (Z.to_nat count) shuffledRepos in
  let '(results, w) := details_of_all selectedRepos w in
  let validResults := omap (fun r => r) results in
  if (length validResults =? 0)%nat
  then (json (Error "Failed to fetch GitHub project data"
                    (str "Could not retrieve data for any repositories.")) 500, w)
  else (json (Payload (Projects validResults)) 200, w).

(** One of the filtered selections, falling back on the random one when no
    project passed. *)
Definition filtered_selection (passes : GitHubProjectData -> bool) (count : Z)
    (w : World) : Response GitHubBody * World :=
  let '(shuffledRepos, w) := shuffled w in
  let '(filteredRepos, w) := collect passes count shuffledRepos [] w in
  if (0 <? length filteredRepos)%nat
  then (json (Payload (Projects filteredRepos)) 200, w)
  else random_selection count w.

(** The date string of [fetchTrendingRepos]. *)
Definition daysBack (since : string) : Z :=
  if decide (since = "monthly") then 30
  else if decide (since = "weekly") then 7
  else 1.

(** The trending branch: the response, or the world in which the handler
    goes on to the curated list. *)
Definition trending (count : Z) (language topic : option string) (since : string)
    (w : World) : Response GitHubBody * World + World :=
  let cacheKey :=
    "trending_" ++ default "all" language ++ "_" ++ since ++ "_" ++ default "all" topic in
  let now := Date_now (reads w) in
  let read (w : World) :=
    {| repoCache := repoCache w; trendingCache := trendingCache w;
       calls := calls w; randoms := randoms w; reads := S (reads w) |} in
  match ServerCache.lookup (trendingCache w) cacheKey now CACHE_DURATION with
  | Some data => inl (json (Payload (Projects (take (Z.to_nat count) data))) 200, read w)
  | None =>
      let trendingParams_topic := topic in
      let '(trendingRepos, sent) :=
        fetchTrendingRepos baseUrl (days_before_today (daysBack since)) language
                           trendingParams_topic headers (upstream (length (calls w))) in
      let w :=
        {| repoCache := repoCache w; trendingCache := trendingCache w;
           calls := calls w ++ sent; randoms := randoms w; reads := S (reads w) |} in
      match trendingRepos with
      | Some ((_ :: _) as trendingRepos) =>
          let filteredRepos :=
            match topic with
            | Some t =>
                if bool_decide (trendingParams_topic ≠ Some t)
                then List.filter (has_topic t) trendingRepos
                else trendingRepos
            | None => trendingRepos
            end in
          inl (json (Payload (Projects (take (Z.to_nat count) filteredRepos))) 200,
               {| repoCache := repoCache w;
                  trendingCache :=
                    ServerCache.store (trendingCache w) cacheKey filteredRepos now;
                  calls := calls w; randoms := randoms w; reads := reads w |})
      | Some [] | None => inr w
      end
  end.

End Handler.

(** [a || b] on two search parameters. *)
Definition or_param (a b : option string) : option string :=
  match nonempty a with Some x => Some x | None => nonempty b end.

(** The [count] of the request: 6 when the parameter is missing, is no number
    or is below 1. *)
Definition count_of (countParam : option string) : Z :=
  match parseInt (default "6" (nonempty countParam)) with
  | Some count => if count <? 1 then 6 else count
  | None => 6
  end.

(** The handler. Every helper catches what it throws, so the [catch] of the
    handler is never entered. *)
Definition GET (upstream : nat -> Request -> Outcome GitHubData)
    (Date_now : nat -> Z) (floor_random : nat -> nat -> nat)
    (days_before_today : Z -> string)
    (q : Query) (env : Env) (w : World) : Response GitHubBody * World :=
  let count := count_of (q_count q) in
  let filter := default "all" (nonempty (q_filter q)) in
  let language := nonempty (q_language q) in
  let since := default "daily" (or_param (q_timeFilter q) (q_since q)) in
  let topic := nonempty (q_topic q) in
  let repoFullName := nonempty (q_repo q) in
  let baseHeaders := baseHeaders (GITHUB_API_TOKEN env) in
  let baseUrl := default "https://api.github.com" (nonempty (GITHUB_API_BASE_URL env)) in
  match repoFullName with
  | Some repoFullName =>
      let '(repoData, w) := details upstream Date_now baseUrl baseHeaders repoFullName w in
      match repoData with
      | None =>
          (json (Error "Repository not found"
                       (str ("Could not find repository: " ++ repoFullName))) 404, w)
      | Some repoData =>
          let '(issues, sent) :=
            getBeginnerFriendlyIssues baseUrl repoFullName baseHeaders
                                      (upstream (length (calls w))) in
          (json (Payload (RepoWithIssues repoData issues)) 200,
           {| repoCache := repoCache w; trendingCache := trendingCache w;
              calls := calls w ++ sent; randoms := randoms w; reads := reads w |})
      end
  | None =>
      let curated (w : World) :=
        match language, topic with
        | Some l, Some t =>
            filtered_selection upstream Date_now floor_random baseUrl baseHeaders
                               (fun d => has_language l d && has_topic t d) count w
        | Some l, None =>
            filtered_selection upstream Date_now floor_random baseUrl baseHeaders
                               (has_language l) count w
        | None, Some t =>
            filtered_selection upstream Date_now floor_random baseUrl baseHeaders
                               (has_topic t) count w
        | None, None =>
            random_selection upstream Date_now floor_random baseUrl baseHeaders count w
        end in
      if decide (filter = "trending") then
        match trending upstream Date_now days_before_today baseUrl baseHeaders
                       count language topic since w with
        | inl response => response
        | inr w => curated w
        end
      else curated w
  end.

End GitHubHandler.

(** ** The handler of the search route, [GET /api/github/search] *)
Module SearchHandler.
Import SearchRoute.

Record Env := {
  GITHUB_API_TOKEN : option string;
  GITHUB_API_BASE_URL : option string
}.

(** The body [{ repositories }]. *)
Record SearchBody := { repositories : list GitHubProjectData }.

(** [searchRepositories] catches what it throws, so the [catch] of the
    handler is never entered. *)
Definition GET (q : option string) (env : Env)
    (upstream : Request -> Outcome GitHubData) (now : Z) (searchCache : SearchCache)
  : Response SearchBody * SearchCache * list Request :=
  match nonempty q with
  | None =>
      (json (Error "Missing search query"
                   (str "Please provide a search query with q parameter")) 400,
       searchCache, [])
  | Some query =>
      let baseUrl := default "https://api.github.com" (nonempty (GITHUB_API_BASE_URL env)) in
      let '(repositories, cache, calls) :=
        searchRepositories baseUrl query (baseHeaders (GITHUB_API_TOKEN env))
                           upstream now searchCache in
      (json (Payload {| repositories := repositories |}) 200, cache, calls)
  end.

End SearchHandler.

(** ** The question route, [POST /api/gemini/question] *)
Module QuestionRoute.
Import GeminiRoute.

(** *** The clean-up of the generated text

    As for [parseInt], a string is read as the UTF-8 encoding of its
    characters; the asterisk is one byte, and so are the bytes of every
    character that is not one. *)

Definition asterisk : ascii := "*"%char.

(** [.replace(/\*\*/g, '')] *)
Fixpoint remove_double_asterisks (s : string) : string :=
  match s with
  | String a (String b rest as tail) =>
      if Ascii.eqb a asterisk && Ascii.eqb b asterisk
      then remove_double_asterisks rest
      else String a (remove_double_asterisks tail)
  | _ => s
  end.

(** What follows one white space character ([\s]) at the head of [s]. *)
Definition after_white_space (s : string) : option string :=
  match s with
  | String a s1 =>
      if is_white_space1 a then Some s1
      else match s1 with
           | String b s2 =>
               if is_white_space2 a b then Some s2
               else match s2 with
                    | String c s3 => if is_white_space3 a b c then Some s3 else None
                    | EmptyString => None
                    end
           | EmptyString => None
           end
  | EmptyString => None
  end.

(** [([^*]+)\*] at the head of [s]: the group and what follows the closing
    asterisk. *)
Fixpoint emphasised (s : string) : option (string * string) :=
  match s with
  | EmptyString => None
  | String a rest =>
      if Ascii.eqb a asterisk then None
      else match rest with
           | String b rest' =>
               if Ascii.eqb b asterisk then Some (String a "", rest')
               else match emphasised rest with
                    | Some (group, after) => Some (String a group, after)
                    | None => None
                    end
           | EmptyString => None
           end
  end.

(** [\s\*([^*]+)\*] at the head of [s]. *)
Definition emphasis_at (s : string) : option (string * string) :=
  match after_white_space s with
  | Some (String a rest) => if Ascii.eqb a asterisk then emphasised rest else None
  | _ => None
  end.

(** [.replace(/\s\*([^*]+)\*/g, ' $1')], scanning at most [n] positions. *)
Fixpoint remove_emphasis_within (n : nat) (s : string) : string :=
  match n, s with
  | S n, String a rest =>
      match emphasis_at s with
      | Some (group, after) => " " ++ group ++ remove_emphasis_within n after
      | None => String a (remove_emphasis_within n rest)
      end
  | _, _ => s
  end.

Definition remove_emphasis (s : string) : string :=
  remove_emphasis_within (String.length s) s.

(** [.trim()]: the white space at the head goes, and then every tail that is
    white space only. *)
Fixpoint trim_end (s : string) : string :=
  match s with
  | EmptyString => EmptyString
  | String a rest =>
      if bool_decide (skip_white_space s = "") then "" else String a (trim_end rest)
  end.

Definition trim (s : string) : string := trim_end (skip_white_space s).

Definition cleanedText (generatedText : string) : string :=
  trim (remove_emphasis (remove_double_asterisks generatedText)).

(** *** The handler *)

(** The two prompts; each stands for the text the route writes around the
    values it carries. *)
Inductive Prompt :=
| RepositoryQuestion (repoName question : JsVal)
| GeneralQuestion (question : JsVal).

Inductive Request :=
| GenerateAnswer (baseUrl apiKey : string) (prompt : Prompt).

(** The body [{ message, question }]. *)
Record AnswerBody := { message : string; question : JsVal }.

(** [generatedText.replace(...)...]: the method is there on a string only. *)
Definition cleaned (generatedText : JsVal) : Thrown JsVal + string :=
  match generatedText with
  | Some (JString s) => inr (cleanedText s)
  | None | Some JNull =>
      inl (JsError "Cannot read properties of null or undefined: replace")
  | Some _ => inl (JsError "generatedText.replace is not a function")
  end.

(** The [catch] of the handler. It answers with the status of a failed
    reply of the service; what [NextResponse.json] throws there leaves the
    handler. *)
Definition on_error (e : Thrown JsVal) : Thrown JsVal + Response AnswerBody :=
  match e with
  | AxiosError m response =>
      let details :=
        match response with
        | Some (_, d) => or_else (opt_prop (opt_prop d "error") "message") (str m)
        | None => str m
        end in
      let errorStatus :=
        match response with
        | Some (s, _) => if s =? 0 then 500 else s
        | None => 500
        end in
      NextResponse_json (Error "Failed to communicate with AI service" details) errorStatus
  | JsError m => inr (json (Error "Failed to generate AI response" (str m)) 500)
  end.

(** The handler, from the parsed body ([None] when [request.json()] throws),
    to the response it returns ([inr]) or what it throws ([inl]), and the
    upstream calls made. *)
Definition POST (body : option Json) (env : Env)
    (upstream : Request -> Outcome JsVal)
  : (Thrown JsVal + Response AnswerBody) * list Request :=
  match body with
  | None => (on_error (JsError "Unexpected token in JSON"), [])
  | Some body =>
      let fields :=
        let? question := prop (Some body) "question" in
        let? repoName := prop (Some body) "repoName" in
        inr (question, repoName) in
      match fields with
      | inl e => (on_error e, [])
      | inr (question, repoName) =>
          if negb (truthy question) then
            (inr (json (Error "Missing question" (str "A question is required")) 400), [])
          else
            match nonempty (GEMINI_API_KEY env), nonempty (GEMINI_API_BASE_URL env) with
            | None, _ =>
                (inr (json (Error "Server configuration error"
                                  (str "AI API key not configured.")) 500), [])
            | Some _, None =>
                (inr (json (Error "Server configuration error"
                                  (str "AI API URL not configured.")) 500), [])
            | Some apiKey, Some baseUrl =>
                let prompt :=
                  if truthy repoName then RepositoryQuestion repoName question
                  else GeneralQuestion question in
                let request := GenerateAnswer baseUrl apiKey prompt in
                match axios default_validateStatus (upstream request) with
                | inl e => (on_error e, [request])
                | inr (_, d) =>
                    match (let? text := generated_text d in cleaned text) with
                    | inl e => (on_error e, [request])
                    | inr cleanedText =>
                        (inr (json (Payload {| message := cleanedText;
                                               question := question |}) 200),
                         [request])
                    end
                end
            end
      end
  end.

End QuestionRoute.

(** No two asterisks in a row. *)
Fixpoint no_double_asterisk (s : string) : bool :=
  match s with
  | String a (String b _ as tail) =>
      negb (Ascii.eqb a QuestionRoute.asterisk && Ascii.eqb b QuestionRoute.asterisk)
      && no_double_asterisk tail
  | _ => true
  end.

(** No asterisk at all. *)
Fixpoint no_asterisk (s : string) : bool :=
  match s with
  | String a rest => negb (Ascii.eqb a QuestionRoute.asterisk) && no_asterisk rest
  | EmptyString => true
  end.

(** ** The route of the popular repositories

    The second handler kept with the issues route: [count] repositories
    drawn from a fixed list and fetched side by side, without a cache. The
    rate-limit headers are only logged. *)
Module PopularRoute.

Definition popularRepos : list string :=
  ["facebook/react"; "vercel/next.js"; "tailwindlabs/tailwindcss"; "shadcn-ui/ui";
   "microsoft/typescript"; "sveltejs/svelte"; "golang/go"; "rust-lang/rust";
   "denoland/deno"; "flutter/flutter"; "vuejs/vue"; "angular/angular";
   "torvalds/linux"; "microsoft/vscode"; "freeCodeCamp/freeCodeCamp";
   "openai/openai-cookbook"; "huggingface/transformers"; "tensorflow/tensorflow";
   "kubernetes/kubernetes"; "docker/compose"].

(** [`${baseUrl}/repos/${repoName}`], with the headers. *)
Inductive Request :=
| Repository (baseUrl repoName : string) (headers : option string).

Definition repoName_of (r : Request) : string :=
  match r with Repository _ repoName _ => repoName end.

Record Env := {
  GITHUB_API_TOKEN : option string;
  GITHUB_API_BASE_URL : option string
}.

(** The object returned for a repository. *)
Record Project := {
  id : JsVal;
  name : JsVal;
  full_name : JsVal;
  description : JsVal;
  html_url : JsVal;
  stargazers_count : JsVal;
  language : JsVal;
  avatar_url : JsVal
}.

(** [validateStatus: status => status < 500] *)
Definition validateStatus (status : Z) : bool := status <? 500.

(** The function mapped over the selected names; [None] is the [null] of a
    failure. *)
Definition fetched (baseUrl : string) (headers : option string)
    (answer : Request -> Outcome JsVal) (repoName : string)
  : option Project * Request :=
  let repoUrl := Repository baseUrl repoName headers in
  let result : Thrown JsVal + option Project :=
    match axios validateStatus (answer repoUrl) with
    | inl e => inl e
    | inr (status, data) =>
        if (status =? 404) || (status =? 401) || (status =? 403) || (status =? 429)
           || (status >=? 400)
        then inr None
        else
          GeminiRoute.try_ (prop data "id") (fun id =>
          GeminiRoute.try_ (prop data "name") (fun name =>
          GeminiRoute.try_ (prop data "full_name") (fun full_name =>
          GeminiRoute.try_ (prop data "description") (fun description =>
          GeminiRoute.try_ (prop data "html_url") (fun html_url =>
          GeminiRoute.try_ (prop data "stargazers_count") (fun stargazers_count =>
          GeminiRoute.try_ (prop data "language") (fun language =>
          GeminiRoute.try_ (prop data "owner") (fun owner =>
          let avatar_url := GeminiRoute.or_else (opt_prop owner "avatar_url") (str "") in
          inr (Some {| id := id; name := name; full_name := full_name;
                       description := GeminiRoute.or_else description (str "");
                       html_url := html_url;
                       stargazers_count :=
                         GeminiRoute.or_else stargazers_count (Some (JNumber 0));
                       language := GeminiRoute.or_else language (str "");
                       avatar_url := avatar_url |})))))))))
    end in
  (match result with inr project => project | inl _ => None end, repoUrl).

(** The requests go out in the order of the names; [upstream k] answers the
    one with [k] before it. *)
Fixpoint fetch_all (baseUrl : string) (headers : option string)
    (upstream : nat -> Request -> Outcome JsVal) (k : nat) (names : list string)
  : list (option Project) * list Request :=
  match names with
  | [] => ([], [])
  | repoName :: names =>
      let '(project, request) := fetched baseUrl headers (upstream k) repoName in
      let '(results, calls) := fetch_all baseUrl headers upstream (S k) names in
      (project :: results, request :: calls)
  end.

(** The [count] of the request: 1 when the parameter is missing, is no number
    or is below 1, and the length of the list at most. *)
Definition count_of (countParam : option string) : Z :=
  let count :=
    match parseInt (default "1" (nonempty countParam)) with
    | Some count => if count <? 1 then 1 else count
    | None => 1
    end in
  Z.min count (Z.of_nat (length popularRepos)).

(** The handler: the response and the requests made. Nothing it calls throws
    past the [catch] of the mapped function, so its own [catch] is never
    entered. *)
Definition GET (upstream : nat -> Request -> Outcome JsVal)
    (floor_random : nat -> nat -> nat) (countParam : option string) (env : Env)
  : Response (list Project) * list Request :=
  let baseUrl := show_env (GITHUB_API_BASE_URL env) in
  let count := count_of countParam in
  let shuffledRepos := (shuffleArray floor_random 0 popularRepos).1 in
  let selectedRepos := take (Z.to_nat count) shuffledRepos in
  let '(results, calls) :=
    fetch_all baseUrl (baseHeaders (GITHUB_API_TOKEN env)) upstream 0 selectedRepos in
  let successfulProjects := omap (fun project => project) results in
  if (length successfulProjects =? 0)%nat && (0 <? count)
  then (json (Error "Failed to fetch any GitHub project data"
                    (str "Could not retrieve data for the selected repositories.")) 500,
        calls)
  else (json (Payload successfulProjects) 200, calls).

End PopularRoute.

(** *** The vocabulary of the GitHub handler *)

(** A project that has the language and the topic the request asks for,
    as far as it asks. *)
Definition wanted (q : GitHubHandler.Query) (d : GitHubProjectData) : Prop :=
  (forall l, nonempty (GitHubHandler.q_language q) = Some l ->
             GitHubHandler.has_language l d = true)
  /\ (forall t, nonempty (GitHubHandler.q_topic q) = Some t ->
                GitHubHandler.has_topic t d = true).

(** The response when no repository of the selection could be retrieved. *)
Definition none_retrieved : Response GitHubHandler.GitHubBody :=
  json (Error "Failed to fetch GitHub project data"
              (str "Could not retrieve data for any repositories.")) 500.

(** The contract of [Math.floor(Math.random() * n)]. *)
Definition below_bound (floor_random : nat -> nat -> nat) : Prop :=
  forall k n, (0 < n)%nat -> (floor_random k n < n)%nat.

(** ** More sample inputs *)
Module MoreSamples.

(** A weather service that does not know the city. *)
Definition unknown_city (r : CombinedWeatherRoute.Request)
  : Outcome CombinedWeatherRoute.OwmData :=
  Replied 404 (CombinedWeatherRoute.Document
                 (Some (JObject [("message", JString "city not found")]))).

Definition london_weather : CombinedWeatherRoute.Request :=
  CombinedWeatherRoute.CurrentWeather
    "https://api.openweathermap.org/data/2.5" "London" "k" "metric".

(** The simple weather route: its environment and two services. *)
Definition simple_env : WeatherRoute.Env :=
  {| WeatherRoute.OPENWEATHERMAP_API_KEY := Some "k";
     WeatherRoute.OPENWEATHERMAP_BASE_URL :=
       Some "https://api.openweathermap.org/data/2.5" |}.

Definition simple_owm (r : WeatherRoute.Request) : Outcome JsVal :=
  Replied 200 Samples.london.

Definition simple_unknown_city (r : WeatherRoute.Request) : Outcome JsVal :=
  Replied 404 (Some (JObject [("message", JString "city not found")])).

Definition simple_london : WeatherRoute.Request :=
  WeatherRoute.CurrentWeather "https://api.openweathermap.org/data/2.5"
                              "London" "k" "metric".

(** A request for an insight on one project, its prompt, and two services. *)
Definition project_body : Json :=
  JObject [("project", JObject [("name", JString "linux");
                                ("description", JString "kernel")])].

Definition project_prompt : GeminiRoute.Prompt :=
  GeminiRoute.ProjectPrompt (str "linux") (str "kernel") (str "Not specified")
                            (Some (JNumber 0)).

Definition project_request : GeminiRoute.Request :=
  GeminiRoute.GenerateContent "https://generativelanguage.googleapis.com/v1beta" "k"
                              project_prompt.

Definition out_of_quota (r : GeminiRoute.Request) : Outcome JsVal :=
  Replied 429 (Some (JObject [("error", JObject [("message", JString "quota exceeded")])])).

(** A reply of the generative service, with the fields it sends beside the
    text. *)
Definition first_part : Json := JObject [("text", JString "Linux is a kernel.")].

Definition first_candidate : Json :=
  JObject [("content", JObject [("parts", JArray [first_part]);
                                ("role", JString "model")]);
           ("finishReason", JString "STOP");
           ("index", JNumber 0)].

Definition generated : JsVal :=
  Some (JObject [("candidates", JArray [first_candidate]);
                 ("usageMetadata", JObject [("totalTokenCount", JNumber 42)]);
                 ("modelVersion", JString "gemini-1.5-flash")]).

Definition answering (r : GeminiRoute.Request) : Outcome JsVal :=
  Replied 200 generated.

(** A browser that has not used the client cache yet. *)
Definition unused_cache : ClientCache.State string :=
  {| ClientCache.window_defined := true; ClientCache.isInitialized := false;
     ClientCache.cacheStore := ∅; ClientCache.stored := Absent |}.

Definition idle_hook : ClientCacheRest.HookState string :=
  {| ClientCacheRest.hook_data := None; ClientCacheRest.hook_isLoading := false;
     ClientCacheRest.hook_error := None |}.

(** The GitHub handler: a GitHub that knows every repository as the sample
    repository, a stopped clock, a source of randomness that always picks the
    first index, and an empty world. *)
Definition github (k : nat) (r : GitHubRoute.Request) : Outcome GitHubData :=
  match r with
  | GitHubRoute.Repository _ _ _ => Replied 200 (RepositoryDocument Samples.repository)
  | GitHubRoute.SearchRepositories _ _ _ _ => Replied 200 (SearchDocument [])
  | GitHubRoute.LabelledIssues _ _ _ => Replied 200 (IssuesDocument [])
  end.

Definition stopped_clock (k : nat) : Z := Samples.t0.

Definition first_index (k n : nat) : nat := 0.

Definition new_year (daysBack : Z) : string := "2024-01-01".

Definition github_env : GitHubHandler.Env :=
  {| GitHubHandler.GITHUB_API_TOKEN := None; GitHubHandler.GITHUB_API_BASE_URL := None |}.

Definition world : GitHubHandler.World :=
  {| GitHubHandler.repoCache := ∅; GitHubHandler.trendingCache := ∅;
     GitHubHandler.calls := []; GitHubHandler.randoms := 0; GitHubHandler.reads := 0 |}.

Definition no_query : GitHubHandler.Query :=
  {| GitHubHandler.q_count := None; GitHubHandler.q_filter := None;
     GitHubHandler.q_language := None; GitHubHandler.q_timeFilter := None;
     GitHubHandler.q_since := None; GitHubHandler.q_topic := None;
     GitHubHandler.q_repo := None |}.

Definition rust_query : GitHubHandler.Query :=
  {| GitHubHandler.q_count := Some "3"; GitHubHandler.q_filter := None;
     GitHubHandler.q_language := Some "Rust"; GitHubHandler.q_timeFilter := None;
     GitHubHandler.q_since := None; GitHubHandler.q_topic := None;
     GitHubHandler.q_repo := None |}.

Definition linux_query : GitHubHandler.Query :=
  {| GitHubHandler.q_count := None; GitHubHandler.q_filter := None;
     GitHubHandler.q_language := None; GitHubHandler.q_timeFilter := None;
     GitHubHandler.q_since := None; GitHubHandler.q_topic := None;
     GitHubHandler.q_repo := Some "torvalds/linux" |}.

End MoreSamples.

(** * Properties *)

Module ResponseFacts.

Lemma NextResponse_json_accepted {D P} (b : Body P) (s : Z) :
  accepted s = true -> NextResponse_json (D := D) b s = inr (json b s).
Proof.
  unfold accepted, NextResponse_json. intros H.
  apply andb_true_iff in H as [H Hn]. apply andb_true_iff in H as [Hl Hu].
  apply negb_true_iff in Hn. rewrite Hn.
  by rewrite (proj2 (Z.ltb_ge _ _)), (proj2 (Z.ltb_ge _ _)) by lia.
Qed.

Lemma NextResponse_json_refused {D P} (b : Body P) (s : Z) :
  accepted s = false -> exists m, NextResponse_json (D := D) (P := P) b s = inl (JsError m).
Proof.
  unfold accepted, NextResponse_json. intros H.
  destruct ((s <? 200) || (599 <? s)) eqn:Hr; [by eexists|].
  destruct ((s =? 204) || (s =? 205) || (s =? 304)) eqn:Hn; [by eexists|].
  apply orb_false_iff in Hr as [Hl Hu]. exfalso.
  rewrite (proj2 (Z.leb_le _ _)), (proj2 (Z.leb_le _ _)) in H by lia. done.
Qed.

Lemma NextResponse_json_inr {D P} (b : Body P) (s : Z) (r : Response P) :
  NextResponse_json (D := D) b s = inr r -> r = json b s /\ accepted s = true.
Proof.
  destruct (accepted s) eqn:Ha.
  - rewrite NextResponse_json_accepted by done. intros ?; by simplify_eq.
  - destruct (NextResponse_json_refused (D := D) b s Ha) as [m ->]. done.
Qed.

End ResponseFacts.

Module PreferencesFacts.
Import Preferences.

Lemma getViewHistory_setHistory (b : Browser) (l : list string) :
  window_defined b = true -> getViewHistory (setHistory b l) = l.
Proof. intros Hw. unfold getViewHistory. simpl. by rewrite Hw. Qed.

Lemma getBookmarkedProjects_setBookmarks (b : Browser) (l : list GitHubProjectData) :
  window_defined b = true -> getBookmarkedProjects (setBookmarks b l) = l.
Proof. intros Hw. unfold getBookmarkedProjects. simpl. by rewrite Hw. Qed.

Lemma getBookmarkedProjects_no_window (b : Browser) :
  window_defined b = false -> getBookmarkedProjects b = [].
Proof. intros Hw. unfold getBookmarkedProjects. by rewrite Hw. Qed.

Lemma some_id_true (i : Z) (l : list GitHubProjectData) :
  some_id i l = true <-> exists q, q ∈ l /\ id q = i.
Proof.
  unfold some_id. rewrite existsb_exists. split.
  - intros (q & Hin & Heq). exists q. split; [by apply list_elem_of_In|].
    by apply Z.eqb_eq.
  - intros (q & Hin & Heq). exists q. split; [by apply list_elem_of_In|].
    by apply Z.eqb_eq.
Qed.

Lemma some_id_false (i : Z) (l : list GitHubProjectData) :
  some_id i l = false <-> i ∉ id <$> l.
Proof.
  rewrite <- not_true_iff_false, some_id_true, list_elem_of_fmap.
  split; intros H (q & ? & ?); apply H; exists q; auto.
Qed.

Lemma id_mark_bookmarked (p : GitHubProjectData) : id (mark_bookmarked p) = id p.
Proof. reflexivity. Qed.

(** Each mutating call keeps the ids of the stored bookmarks distinct. *)
Lemma runBookmarkCall_NoDup (b : Browser) (c : BookmarkCall) :
  NoDup (id <$> getBookmarkedProjects b) ->
  NoDup (id <$> getBookmarkedProjects (runBookmarkCall b c)).
Proof.
  intros Hnd. destruct c as [p | i]; simpl.
  - unfold addBookmarkedProject.
    destruct (window_defined b) eqn:Hw; simpl; [|done].
    destruct (some_id (id p) (getBookmarkedProjects b)) eqn:Hsome; simpl; [done|].
    rewrite getBookmarkedProjects_setBookmarks by done.
    rewrite fmap_app. apply NoDup_app. split; [done|]. split.
    + intros x Hx Hx'. apply list_elem_of_singleton in Hx'. subst x.
      by apply some_id_false in Hsome.
    + apply NoDup_singleton.
  - unfold removeBookmarkedProject.
    destruct (window_defined b) eqn:Hw; simpl; [|done].
    rewrite getBookmarkedProjects_setBookmarks by done.
    induction (getBookmarkedProjects b) as [|q l IH]; simpl; [constructor|].
    apply NoDup_cons in Hnd as [Hq Hl].
    destruct (negb (id q =? i)); simpl; [|by apply IH].
    apply NoDup_cons. split; [|by apply IH].
    intros Hin. apply Hq. apply list_elem_of_fmap in Hin as (q' & -> & Hq').
    apply list_elem_of_fmap. exists q'. split; [done|].
    apply list_elem_of_In, filter_In in Hq' as [Hq' _]. by apply list_elem_of_In.
Qed.




(** C10. [addBookmarkedProject] leaves the storage as it is when a stored
    bookmark already has the id of the project; the bookmarks reached from an
    unwritten slot by any calls of [addBookmarkedProject] and
    [removeBookmarkedProject] have pairwise distinct ids; and after
    [removeBookmarkedProject] of an id, [isProjectBookmarked] of that id is
    false. *)
Theorem addBookmarkedProject_idempotent_by_id
    (p : GitHubProjectData) (b : Browser) (calls : list BookmarkCall)
    (w : bool) (h : Stored (list string)) :
  ((exists q, q ∈ getBookmarkedProjects b /\ id q = id p) ->
     addBookmarkedProject p b = b)
  /\ NoDup (id <$> getBookmarkedProjects (fold_left runBookmarkCall calls (fresh_browser w h)))
  /\ isProjectBookmarked (id p) (removeBookmarkedProject (id p) b) = false.
Proof.
  split; [|split].
  - intros Hq. apply some_id_true in Hq. unfold addBookmarkedProject.
    destruct (window_defined b); simpl; [|done]. by rewrite Hq.
  - assert (Hfresh : NoDup (id <$> getBookmarkedProjects (fresh_browser w h))).
    { unfold getBookmarkedProjects. simpl. destruct (negb w); constructor. }
    revert Hfresh. generalize (fresh_browser w h).
    induction calls as [|c calls IH]; intros b0 Hb0; simpl; [done|].
    apply IH. by apply runBookmarkCall_NoDup.
  - unfold isProjectBookmarked, removeBookmarkedProject.
    destruct (window_defined b) eqn:Hw; simpl; rewrite ?Hw; simpl; [|done].
    rewrite getBookmarkedProjects_setBookmarks by done.
    apply some_id_false. intros Hin.
    apply list_elem_of_fmap in Hin as (q & Hid & Hq).
    apply list_elem_of_In, filter_In in Hq as [_ Hq].
    apply negb_true_iff, Z.eqb_neq in Hq. congruence.
Qed.

Lemma addBookmarkedProject_idempotent_by_id_witness :
  addBookmarkedProject Samples.project Samples.bookmarked = Samples.bookmarked.
Proof.
  apply (addBookmarkedProject_idempotent_by_id
           Samples.project Samples.bookmarked [] true Absent).
  exists (mark_bookmarked Samples.project). split; [|reflexivity].
  apply list_elem_of_In. left. reflexivity.
Defined.

End PreferencesFacts.

Module ServerCacheFacts.
Import ServerCache.

Lemma lookup_store {D} (cache : gmap string (CacheEntry D)) (key : string)
    (d : D) (t0 t ttl : Z) :
  lookup (store cache key d t0) key t ttl = if t - t0 <? ttl then Some d else None.
Proof. unfold lookup, store. by rewrite lookup_insert_eq. Qed.

Lemma lookup_store_Some {D} (cache : gmap string (CacheEntry D)) (key : string)
    (d : D) (t0 t ttl : Z) :
  lookup (store cache key d t0) key t ttl = Some d <-> t - t0 < ttl.
Proof.
  rewrite lookup_store. destruct (Z.ltb_spec (t - t0) ttl); split; (done || lia).
Qed.

Lemma lookup_Some {D} (cache : gmap string (CacheEntry D)) (key : string)
    (d : D) (t ttl : Z) :
  lookup cache key t ttl = Some d <->
  exists e, cache !! key = Some e /\ data e = d /\ t - timestamp e < ttl.
Proof.
  unfold lookup. destruct (cache !! key) as [e|].
  - destruct (Z.ltb_spec (t - timestamp e) ttl); split.
    + intros ?; simplify_eq. by exists e.
    + intros (e' & ? & ? & ?); by simplify_eq.
    + done.
    + intros (e' & ? & ? & ?); simplify_eq. lia.
  - split; [done|]. by intros (e' & ? & _).
Qed.

End ServerCacheFacts.

Module ClientCacheFacts.
Import ClientCache.

Section Store.
Context {T : Type}.
Implicit Types (st : State T) (key : string) (now t : Z).

Lemma cacheStore_persistCache st : cacheStore (persistCache st) = cacheStore st.
Proof. unfold persistCache. by destruct (window_defined st). Qed.

Lemma cacheStore_cleanExpiredEntries now st :
  cacheStore (cleanExpiredEntries now st)
  = filter (fun kv => ¬ (expiryTime kv.2 < now)) (cacheStore st).
Proof.
  unfold cleanExpiredEntries. case_bool_decide; [|done].
  by rewrite cacheStore_persistCache.
Qed.

Lemma lookup_cleanExpiredEntries now st key :
  cacheStore (cleanExpiredEntries now st) !! key
  = e ← cacheStore st !! key; if decide (expiryTime e < now) then None else Some e.
Proof.
  rewrite cacheStore_cleanExpiredEntries, map_lookup_filter.
  destruct (cacheStore st !! key) as [e|]; simpl; [|done].
  case_guard; case_decide; simpl in *; by try lia.
Qed.

Lemma coherent_set key (d : T) duration now st : coherent (set key d duration now st).
Proof.
  unfold coherent, set, persistCache. simpl.
  destruct (window_defined (initialize now st)) eqn:Hw; simpl; [done|].
  intros Hw'. simpl in Hw'. congruence.
Qed.

Lemma lookup_set key (d : T) duration now st :
  cacheStore (set key d duration now st) !! key
  = Some {| data := d; timestamp := now; expiryTime := now + duration |}.
Proof.
  unfold set. rewrite cacheStore_persistCache. simpl. apply lookup_insert_eq.
Qed.

(** Initialising a coherent state leaves the store as it is or sweeps it. *)
Lemma cacheStore_initialize t st :
  coherent st ->
  cacheStore (initialize t st) = cacheStore st
  \/ cacheStore (initialize t st)
     = filter (fun kv => ¬ (expiryTime kv.2 < t)) (cacheStore st).
Proof.
  intros Hco. unfold initialize.
  destruct (window_defined st) eqn:Hw; simpl; [|by left].
  destruct (isInitialized st) eqn:Hi; simpl; [by left|].
  rewrite (Hco Hw Hi). right. simpl.
  by rewrite cacheStore_cleanExpiredEntries.
Qed.

Lemma lookup_initialize t st key :
  coherent st ->
  cacheStore (initialize t st) !! key = cacheStore st !! key
  \/ cacheStore (initialize t st) !! key
     = e ← cacheStore st !! key; if decide (expiryTime e < t) then None else Some e.
Proof.
  intros Hco. destruct (cacheStore_initialize t st Hco) as [-> | ->]; [by left|right].
  rewrite map_lookup_filter.
  destruct (cacheStore st !! key) as [e|]; simpl; [|done].
  case_guard; case_decide; simpl in *; by try lia.
Qed.

Lemma has_fresh key t st e :
  coherent st -> cacheStore st !! key = Some e -> t < expiryTime e ->
  (has key t st).1 = true.
Proof.
  intros Hco He Ht. unfold has.
  destruct (lookup_initialize t st key Hco) as [-> | ->]; rewrite He; simpl.
  - by rewrite bool_decide_eq_true_2 by lia.
  - case_decide; [lia|]. simpl. by rewrite bool_decide_eq_true_2 by lia.
Qed.

Lemma has_expired key t st e :
  coherent st -> cacheStore st !! key = Some e -> expiryTime e < t ->
  (has key t st).1 = false.
Proof.
  intros Hco He Ht. unfold has.
  destruct (lookup_initialize t st key Hco) as [-> | ->]; rewrite He; simpl.
  - by rewrite bool_decide_eq_false_2 by lia.
  - by case_decide; [|lia].
Qed.

Lemma get_fresh key t st e :
  coherent st -> cacheStore st !! key = Some e -> t <= expiryTime e ->
  (get key t st).1 = Some (data e).
Proof.
  intros Hco He Ht. unfold get. simpl. rewrite lookup_cleanExpiredEntries.
  destruct (lookup_initialize t st key Hco) as [-> | ->]; rewrite He; simpl;
    repeat (case_decide; [lia|]; simpl); done.
Qed.

Lemma get_expired key t st e :
  coherent st -> cacheStore st !! key = Some e -> expiryTime e < t ->
  (get key t st).1 = None.
Proof.
  intros Hco He Ht. unfold get. simpl. rewrite lookup_cleanExpiredEntries.
  destruct (lookup_initialize t st key Hco) as [-> | ->]; rewrite He; simpl;
    repeat (case_decide; [|lia]; simpl); done.
Qed.

Lemma has_spec key t st e :
  coherent st -> cacheStore st !! key = Some e ->
  (has key t st).1 = bool_decide (t < expiryTime e).
Proof.
  intros Hco He. unfold has.
  destruct (lookup_initialize t st key Hco) as [-> | ->]; rewrite He; simpl.
  - apply bool_decide_ext. lia.
  - case_decide; simpl; [by rewrite bool_decide_eq_false_2 by lia|].
    apply bool_decide_ext. lia.
Qed.

End Store.

(** Away from the instant [now + ttl] itself, an entry set at [now] with
    time to live [ttl] is servable at [now + ttl - 1] and not at
    [now + ttl + 1]: in the client cache [has] is true exactly while the
    clock is below [expiryTime = now + ttl], and [get] gives the value one
    millisecond before and nothing one millisecond after; in a server cache
    the entry is found exactly while the clock minus its timestamp is below
    [ttl]. *)
Lemma cache_entry_servable_until_ttl {T D : Type} (key : string) (value : T) (d : D)
    (ttl now : Z) (st : State T) (cache : gmap string (ServerCache.CacheEntry D)) :
  (has key (now + ttl - 1) (set key value ttl now st)).1 = true
  /\ (get key (now + ttl - 1) (set key value ttl now st)).1 = Some value
  /\ (has key (now + ttl + 1) (set key value ttl now st)).1 = false
  /\ (get key (now + ttl + 1) (set key value ttl now st)).1 = None
  /\ (forall t, (has key t (set key value ttl now st)).1 = true <-> t < now + ttl)
  /\ ServerCache.lookup (ServerCache.store cache key d now) key (now + ttl - 1) ttl = Some d
  /\ ServerCache.lookup (ServerCache.store cache key d now) key (now + ttl + 1) ttl = None
  /\ (forall t, ServerCache.lookup (ServerCache.store cache key d now) key t ttl = Some d
                <-> t - now < ttl).
Proof.
  pose proof (coherent_set key value ttl now st) as Hco.
  pose proof (lookup_set key value ttl now st) as He.
  repeat split.
  - eapply has_fresh; [done..|]. simpl. lia.
  - by erewrite get_fresh; [|done..|simpl; lia].
  - eapply has_expired; [done..|]. simpl. lia.
  - eapply get_expired; [done..|]. simpl. lia.
  - erewrite has_spec by done. simpl. intros H. by apply bool_decide_eq_true in H.
  - erewrite has_spec by done. simpl. intros H. by apply bool_decide_eq_true_2.
  - rewrite ServerCacheFacts.lookup_store. by rewrite (proj2 (Z.ltb_lt _ _)) by lia.
  - rewrite ServerCacheFacts.lookup_store. by rewrite (proj2 (Z.ltb_ge _ _)) by lia.
  - intros H. by apply ServerCacheFacts.lookup_store_Some in H.
  - intros H. by apply ServerCacheFacts.lookup_store_Some.
Qed.

(** C2, at the failing input. At the instant [now + ttl] itself, where the
    clock equals [expiryTime], [has] holds the entry expired, and [get]
    still serves it: [cleanExpiredEntries] removes an entry only when
    [expiryTime < now]. So [get] serves the value exactly while the clock
    is at most [expiryTime], not while it is below it. *)
Theorem get_serves_at_expiryTime {T : Type} (key : string) (value : T)
    (ttl now : Z) (st : State T) :
  (has key (now + ttl) (set key value ttl now st)).1 = false
  /\ (get key (now + ttl) (set key value ttl now st)).1 = Some value
  /\ (forall t, (get key t (set key value ttl now st)).1 = Some value <-> t <= now + ttl).
Proof.
  pose proof (coherent_set key value ttl now st) as Hco.
  pose proof (lookup_set key value ttl now st) as He.
  split; [|split].
  - erewrite has_spec by done. simpl. by rewrite bool_decide_eq_false_2 by lia.
  - by erewrite get_fresh; [|done..|simpl; lia].
  - intros t. split.
    + intros H. destruct (decide (t <= now + ttl)) as [|Hn]; [done|].
      erewrite get_expired in H; [done..|simpl; lia].
    + intros H. by erewrite get_fresh; [|done..|simpl; lia].
Qed.

End ClientCacheFacts.

Module CacheKeyFacts.
Import ClientCache.

Lemma param_elem_of (params : Params) (k : string) (v : ParamValue) :
  NoDup (keys params) -> (k, v) ∈ params -> param params k = Some v.
Proof.
  unfold param, keys. induction params as [|[k' v'] params IH]; intros Hnd Hin.
  - by apply elem_of_nil in Hin.
  - simpl in *. apply NoDup_cons in Hnd as [Hk' Hnd].
    case_bool_decide as Hk; simpl in *.
    + subst k'. apply elem_of_cons in Hin as [Heq | Hin]; [by simplify_eq|].
      exfalso. apply Hk'. apply list_elem_of_fmap. by exists (k, v).
    + apply elem_of_cons in Hin as [Heq | Hin]; [by simplify_eq|]. by apply IH.
Qed.

Lemma param_None (params : Params) (k : string) :
  k ∉ keys params -> param params k = None.
Proof.
  unfold param, keys. induction params as [|[k' v'] params IH]; intros Hk; [done|].
  simpl in *. apply not_elem_of_cons in Hk as [Hne Hk].
  case_bool_decide; simpl in *; [congruence|]. by apply IH.
Qed.

Lemma param_Permutation (p1 p2 : Params) (k : string) :
  NoDup (keys p1) -> p1 ≡ₚ p2 -> param p1 k = param p2 k.
Proof.
  intros Hnd Hp.
  assert (Hnd2 : NoDup (keys p2)) by (unfold keys in *; by rewrite <- Hp).
  destruct (param p1 k) as [v|] eqn:H1.
  - symmetry. apply param_elem_of; [done|]. rewrite <- Hp.
    unfold param in H1. destruct (List.find _ p1) as [[k' v']|] eqn:Hf; [|done].
    simpl in H1. simplify_eq. apply find_some in Hf as [Hin Hk].
    apply bool_decide_eq_true in Hk. simpl in Hk. subst. by apply list_elem_of_In.
  - symmetry. apply param_None. unfold keys. rewrite <- Hp. intros Hin.
    apply list_elem_of_fmap in Hin as ([k' v] & -> & Hin). simpl in H1.
    by rewrite (param_elem_of p1 k' v) in H1.
Qed.

Lemma sort_Permutation (l1 l2 : list string) : l1 ≡ₚ l2 -> sort l1 = sort l2.
Proof.
  intros Hp. unfold sort.
  apply (StronglySorted_unique String.le); try apply StronglySorted_merge_sort; try apply _.
  by rewrite !merge_sort_Permutation.
Qed.

Lemma sortedParams_Permutation (p1 p2 : Params) :
  NoDup (keys p1) -> p1 ≡ₚ p2 -> sortedParams p1 = sortedParams p2.
Proof.
  intros Hnd Hp. unfold sortedParams.
  rewrite (sort_Permutation (keys p1) (keys p2)) by (unfold keys; by rewrite Hp).
  f_equal. apply map_ext. intros k. unfold param_string.
  by rewrite (param_Permutation p1 p2 k).
Qed.

Lemma generateCacheKey_Permutation (endpoint : string) (p1 p2 : Params) :
  NoDup (keys p1) -> p1 ≡ₚ p2 ->
  generateCacheKey endpoint p1 = generateCacheKey endpoint p2.
Proof.
  intros Hnd Hp. unfold generateCacheKey.
  by rewrite (sortedParams_Permutation p1 p2).
Qed.

(** *** Reading a key back *)

Lemma occurs_app (c : ascii) (s1 s2 : string) :
  occurs c (s1 ++ s2) = occurs c s1 || occurs c s2.
Proof. induction s1 as [|a s1 IH]; simpl; [done|]. by rewrite IH, orb_assoc. Qed.

(** A string is cut in one way only at the first occurrence of a character. *)
Lemma cut_unique (c : ascii) (s1 s2 r1 r2 : string) :
  occurs c s1 = false -> occurs c s2 = false ->
  s1 ++ String c r1 = s2 ++ String c r2 -> s1 = s2 /\ r1 = r2.
Proof.
  revert s2. induction s1 as [|a s1 IH]; intros [|b s2]; simpl; intros H1 H2 Heq.
  - by simplify_eq.
  - simplify_eq. rewrite Ascii.eqb_refl in H2. done.
  - simplify_eq. rewrite Ascii.eqb_refl in H1. done.
  - apply orb_false_iff in H1 as [_ H1]. apply orb_false_iff in H2 as [_ H2].
    simplify_eq. destruct (IH s2 H1 H2) as [-> ->]; done.
Qed.

Lemma no_cut (c : ascii) (s1 s2 r : string) :
  occurs c s1 = false -> s1 = s2 ++ String c r -> False.
Proof.
  intros H1 ->. rewrite occurs_app in H1. simpl in H1.
  rewrite Ascii.eqb_refl, orb_true_r in H1. done.
Qed.

Lemma string_app_nil_r (s : string) : s ++ "" = s.
Proof. induction s as [|a s IH]; [done|]. change (String a (s ++ "") = String a s). by rewrite IH. Qed.

Lemma string_app_assoc (s1 s2 s3 : string) : (s1 ++ s2) ++ s3 = s1 ++ s2 ++ s3.
Proof.
  induction s1 as [|a s1 IH]; [done|].
  change (String a ((s1 ++ s2) ++ s3) = String a (s1 ++ s2 ++ s3)). by rewrite IH.
Qed.

(** What follows the first item of a joined list. *)
Lemma join_cons (sep x : string) (l : list string) :
  join sep (x :: l) = x ++ match l with [] => "" | _ :: _ => sep ++ join sep l end.
Proof. destruct l; [symmetry; apply string_app_nil_r | reflexivity]. Qed.


Lemma param_Some_elem_of (params : Params) (k : string) (v : ParamValue) :
  param params k = Some v -> (k, v) ∈ params.
Proof.
  unfold param. destruct (List.find _ params) as [[k' v']|] eqn:Hf; [|done].
  simpl. intros ?; simplify_eq. apply find_some in Hf as [Hin Hk].
  apply bool_decide_eq_true in Hk. simpl in Hk. subst. by apply list_elem_of_In.
Qed.

Lemma param_is_Some (params : Params) (k : string) :
  k ∈ keys params -> is_Some (param params k).
Proof.
  intros Hk. destruct (param params k) eqn:Hp; [by eexists|].
  exfalso. unfold param in Hp.
  apply list_elem_of_fmap in Hk as ([k' v] & -> & Hin).
  destruct (List.find _ params) eqn:Hf; [done|].
  apply list_elem_of_In in Hin. apply (find_none _ _ Hf) in Hin.
  simpl in Hin. by rewrite bool_decide_eq_true_2 in Hin.
Qed.

Lemma normalized_lookup (params : Params) (k : string) :
  NoDup (keys params) -> normalized params !! k = String_ <$> param params k.
Proof.
  intros Hnd. unfold normalized.
  assert (Hfst : (prod_map (fun k => k) String_ <$> params).*1 = keys params).
  { unfold keys. rewrite <- list_fmap_compose. by apply list_fmap_ext; intros ? []. }
  destruct (param params k) as [v|] eqn:Hp; simpl.
  - apply elem_of_list_to_map_1; [by rewrite Hfst|].
    apply list_elem_of_fmap. exists (k, v). split; [done|].
    by apply param_Some_elem_of.
  - apply not_elem_of_list_to_map_1. rewrite Hfst. intros Hk.
    apply param_is_Some in Hk as [v Hv]. congruence.
Qed.

Lemma elem_of_sort (l : list string) (k : string) : k ∈ sort l <-> k ∈ l.
Proof. unfold sort. by rewrite merge_sort_Permutation. Qed.

(** The joined parameters are read back from the left: a key ends at the
    first ['='], a value at the first ['&']. *)
Lemma joined_items_inj (p1 p2 : Params) (l1 l2 : list string) :
  Forall (fun k => occurs "=" k = false) l1 ->
  Forall (fun k => occurs "=" k = false) l2 ->
  Forall (fun k => occurs "&" (param_string p1 k) = false) l1 ->
  Forall (fun k => occurs "&" (param_string p2 k) = false) l2 ->
  join "&" (List.map (fun key => key ++ "=" ++ param_string p1 key) l1)
  = join "&" (List.map (fun key => key ++ "=" ++ param_string p2 key) l2) ->
  l1 = l2 /\ Forall (fun k => param_string p1 k = param_string p2 k) l1.
Proof.
  intros H1. revert l2.
  induction H1 as [|k1 l1 Hk1 H1 IH]; intros [|k2 l2] H2 V1 V2 Heq.
  - done.
  - exfalso. cbn [List.map] in Heq. rewrite join_cons, !string_app_assoc in Heq.
    apply (f_equal (occurs "=")) in Heq. rewrite !occurs_app in Heq.
    simpl in Heq. by rewrite orb_true_r in Heq.
  - exfalso. cbn [List.map] in Heq. rewrite join_cons, !string_app_assoc in Heq.
    apply (f_equal (occurs "=")) in Heq. rewrite !occurs_app in Heq.
    simpl in Heq. by rewrite orb_true_r in Heq.
  - apply Forall_cons in H2 as [Hk2 H2].
    apply Forall_cons in V1 as [Hv1 V1]. apply Forall_cons in V2 as [Hv2 V2].
    cbn [List.map] in Heq. rewrite !join_cons, !string_app_assoc in Heq.
    apply (cut_unique "=" k1 k2) in Heq as [-> Heq]; [|done..].
    destruct l1 as [|k1' l1], l2 as [|k2' l2].
    + rewrite !string_app_nil_r in Heq. split; [done|]. by repeat constructor.
    + exfalso. rewrite string_app_nil_r in Heq. by eapply (no_cut "&"), Heq.
    + exfalso. rewrite string_app_nil_r in Heq. symmetry in Heq.
      by eapply (no_cut "&"), Heq.
    + apply (cut_unique "&") in Heq as [Hv Heq]; [|done..].
      destruct (IH (k2' :: l2) H2 V1 V2 Heq) as [Hl Hall].
      split; [by rewrite Hl | by constructor].
Qed.

Lemma plain_keys (p : Params) :
  plain_params p -> Forall (fun k => occurs "=" k = false) (sort (keys p)).
Proof.
  intros [_ Hp]. apply Forall_forall. intros k Hk.
  rewrite elem_of_sort in Hk. apply list_elem_of_fmap in Hk as ([k' v] & -> & Hin).
  rewrite Forall_forall in Hp. by destruct (Hp _ Hin) as (? & ?).
Qed.

Lemma plain_values (p : Params) :
  plain_params p ->
  Forall (fun k => occurs "&" (param_string p k) = false) (sort (keys p)).
Proof.
  intros [_ Hp]. apply Forall_forall. intros k Hk. rewrite elem_of_sort in Hk.
  rewrite Forall_forall in Hp. destruct (param_is_Some p k Hk) as [v Hv].
  destruct (Hp _ (param_Some_elem_of _ _ _ Hv)) as (_ & Hv'). simpl in Hv'.
  unfold param_string. by rewrite Hv.
Qed.

Lemma generateCacheKey_inj_plain (ep1 ep2 : string) (p1 p2 : Params) :
  occurs "?" ep1 = false -> occurs "?" ep2 = false ->
  plain_params p1 -> plain_params p2 ->
  generateCacheKey ep1 p1 = generateCacheKey ep2 p2 ->
  ep1 = ep2 /\ normalized p1 = normalized p2.
Proof.
  intros He1 He2 Hp1 Hp2 Heq.
  assert (Hsp : ep1 = ep2 /\ sortedParams p1 = sortedParams p2).
  { unfold generateCacheKey in Heq. repeat case_decide.
    - rewrite !string_app_nil_r in Heq. split; congruence.
    - exfalso. rewrite string_app_nil_r in Heq. by eapply (no_cut "?" ep1).
    - exfalso. rewrite string_app_nil_r in Heq. symmetry in Heq.
      by eapply (no_cut "?" ep2).
    - by apply (cut_unique "?"). }
  destruct Hsp as [-> Hsp]. split; [done|].
  apply joined_items_inj in Hsp as [Hkeys Hvals];
    [|by apply plain_keys|by apply plain_keys|by apply plain_values..].
  destruct Hp1 as [Hnd1 _], Hp2 as [Hnd2 _].
  apply map_eq. intros k. rewrite !normalized_lookup by done.
  destruct (decide (k ∈ keys p1)) as [Hk | Hk].
  - assert (Hk2 : k ∈ keys p2) by (by rewrite <- elem_of_sort, <- Hkeys, elem_of_sort).
    rewrite Forall_forall in Hvals. specialize (Hvals k). rewrite elem_of_sort in Hvals.
    specialize (Hvals Hk). unfold param_string in Hvals.
    destruct (param_is_Some p1 k Hk) as [v1 Hv1], (param_is_Some p2 k Hk2) as [v2 Hv2].
    rewrite Hv1, Hv2 in *. simpl. congruence.
  - assert (Hk2 : k ∉ keys p2) by (by rewrite <- elem_of_sort, <- Hkeys, elem_of_sort).
    by rewrite !param_None.
Qed.

(** C3, as amended. The key does not depend on the enumeration order of the
    parameters, so [{a:1, b:2}] and [{b:2, a:1}] give one key; and two pairs
    of an endpoint without ['?'] and parameters without ['='] in a key and
    without ['&'] in a printed value have the same key only when the
    endpoints are equal and the parameters agree up to order and
    printing. *)
Theorem generateCacheKey_order_independent_injective_on_plain
    (endpoint endpoint' : string) (p1 p2 p' : Params) :
  (NoDup (keys p1) -> p1 ≡ₚ p2 ->
     generateCacheKey endpoint p1 = generateCacheKey endpoint p2)
  /\ generateCacheKey endpoint [("a", PNumber 1); ("b", PNumber 2)]
     = generateCacheKey endpoint [("b", PNumber 2); ("a", PNumber 1)]
  /\ (occurs "?" endpoint = false -> occurs "?" endpoint' = false ->
      plain_params p1 -> plain_params p' ->
      generateCacheKey endpoint p1 = generateCacheKey endpoint' p' ->
      endpoint = endpoint' /\ normalized p1 = normalized p').
Proof.
  split; [|split].
  - apply generateCacheKey_Permutation.
  - apply generateCacheKey_Permutation; [compute_done | apply perm_swap].
  - apply generateCacheKey_inj_plain.
Qed.

Lemma generateCacheKey_order_independent_injective_on_plain_witness :
  generateCacheKey "/api/weather" [("city", PString "London"); ("units", PString "metric")]
  = generateCacheKey "/api/weather" [("units", PString "metric"); ("city", PString "London")]
  /\ normalized [("city", PString "London"); ("units", PString "metric")]
     = normalized [("units", PString "metric"); ("city", PString "London")].
Proof.
  destruct (generateCacheKey_order_independent_injective_on_plain
              "/api/weather" "/api/weather"
              [("city", PString "London"); ("units", PString "metric")]
              [("units", PString "metric"); ("city", PString "London")]
              [("units", PString "metric"); ("city", PString "London")])
    as (Horder & _ & Hinj).
  split.
  - apply Horder; [compute_done | apply perm_swap].
  - apply Hinj; [reflexivity | reflexivity | | | vm_compute; reflexivity];
      (split; [compute_done | repeat constructor]).
Defined.

(** The claim as stated fails: a value that holds ['&'] reads as two
    parameters, a key that holds ['='] reads as a shorter key with a
    longer value, and an endpoint that holds ['?'] shares its key with a
    shorter endpoint and a parameter. *)
Lemma generateCacheKey_not_injective :
  (("/api/github", normalized [("q", PString "x&y=1")])
     ≠ ("/api/github", normalized [("q", PString "x"); ("y", PNumber 1)])
   /\ generateCacheKey "/api/github" [("q", PString "x&y=1")]
      = generateCacheKey "/api/github" [("q", PString "x"); ("y", PNumber 1)])
  /\ (("/api/github", normalized [("a=b", PString "c")])
        ≠ ("/api/github", normalized [("a", PString "b=c")])
      /\ generateCacheKey "/api/github" [("a=b", PString "c")]
         = generateCacheKey "/api/github" [("a", PString "b=c")])
  /\ (("/api/github?q=x", normalized []) ≠ ("/api/github", normalized [("q", PString "x")])
      /\ generateCacheKey "/api/github?q=x" []
         = generateCacheKey "/api/github" [("q", PString "x")]).
Proof.
  split; [|split]; (split; [|vm_compute; reflexivity]); intros Heq.
  - apply (f_equal (fun em => em.2 !! "y")) in Heq. vm_compute in Heq. discriminate.
  - apply (f_equal (fun em => em.2 !! "a")) in Heq. vm_compute in Heq. discriminate.
  - apply (f_equal fst) in Heq. discriminate.
Qed.

End CacheKeyFacts.

Module IconFacts.
Import Forecast.

Lemma replace_n_d_icon_code (s : string) :
  icon_code s = true -> replace_n_d s = day_equivalent s.
Proof.
  destruct s as [|a [|b [|c [|]]]]; try done. simpl.
  intros H. apply andb_true_iff in H as [H Hc]. apply andb_true_iff in H as [Ha Hb].
  assert (Hn : forall x, is_digit x = true -> Ascii.eqb x "n" = false).
  { intros x Hx. apply Ascii.eqb_neq. intros ->. done. }
  by rewrite (Hn a Ha), (Hn b Hb).
Qed.

Lemma occurrences_nil (x : string) : occurrences x [] = 0.
Proof. reflexivity. Qed.

Lemma occurrences_snoc (x y : string) (l : list string) :
  occurrences x (l ++ [y]) = occurrences x l + (if decide (y = x) then 1 else 0).
Proof.
  unfold occurrences. rewrite filter_app, length_app, filter_cons, filter_nil.
  case_decide; simpl; lia.
Qed.

Lemma occurrences_app_le (x : string) (l k : list string) :
  occurrences x l <= occurrences x (l ++ k).
Proof. unfold occurrences. rewrite filter_app, length_app. lia. Qed.

Lemma occurrences_nonneg (x : string) (l : list string) : 0 <= occurrences x l.
Proof. unfold occurrences. lia. Qed.

Lemma tally_of_count_icon (seen : list string) (t : IconTally) (icon : string) :
  tally_of seen t -> tally_of (seen ++ [replace_n_d icon]) (count_icon t icon).
Proof.
  intros (Hfreq & Hmax & Hnil & Hcons). unfold count_icon.
  set (y := replace_n_d icon). rewrite (Hfreq y).
  assert (Hy : occurrences y (seen ++ [y]) = occurrences y seen + 1).
  { rewrite occurrences_snoc. by rewrite decide_True. }
  assert (Hfreq' : forall x,
    default 0 (<[y := occurrences y seen + 1]> (frequency t) !! x)
    = occurrences x (seen ++ [y])).
  { intros x. rewrite occurrences_snoc. destruct (decide (y = x)) as [<- | Hne].
    - by rewrite lookup_insert_eq.
    - rewrite lookup_insert_ne by done. rewrite Hfreq. lia. }
  destruct (Z.gtb_spec (occurrences y seen + 1) (maxFreq t)) as [Hgt | Hle];
    (split; [exact Hfreq'|]); simpl.
  - split; [|split].
    + intros x. rewrite occurrences_snoc. specialize (Hmax x). case_decide; subst; lia.
    + intros Heq. by destruct seen.
    + intros _. exists seen, []. split; [done|]. split; [done|].
      intros x. specialize (Hmax x). lia.
  - assert (Hne : seen ≠ []).
    { intros ->. rewrite Hnil in Hle by done. rewrite occurrences_nil in Hle. lia. }
    split; [|split].
    + intros x. rewrite occurrences_snoc. specialize (Hmax x). case_decide; subst; lia.
    + intros Heq. by destruct seen.
    + intros _. destruct (Hcons Hne) as (pre & post & -> & Hr & Hpre).
      exists pre, (post ++ [y])%list. split; [|done].
      by rewrite <- app_assoc.
Qed.

Lemma tally_of_fold (icons : list string) (seen : list string) (t : IconTally) :
  tally_of seen t ->
  tally_of (seen ++ List.map replace_n_d icons) (fold_left count_icon icons t).
Proof.
  revert seen t. induction icons as [|icon icons IH]; intros seen t Ht; simpl.
  - by rewrite app_nil_r.
  - replace (seen ++ replace_n_d icon :: List.map replace_n_d icons)%list
      with ((seen ++ [replace_n_d icon]) ++ List.map replace_n_d icons)%list
      by (by rewrite <- app_assoc).
    apply IH. by apply tally_of_count_icon.
Qed.

Lemma tally_of_empty (icon0 : string) :
  tally_of [] {| frequency := ∅; maxFreq := 0; mostFrequentIcon := icon0 |}.
Proof. repeat split; try done. Qed.

(** The icon returned is the day icon that first reaches the highest
    count. *)
Lemma getMostFrequentIcon_first_most_frequent (icons : list string) :
  icons ≠ [] ->
  first_most_frequent (List.map replace_n_d icons) (getMostFrequentIcon icons).
Proof.
  intros Hne. destruct icons as [|icon0 icons']; [done|].
  unfold getMostFrequentIcon. set (icons := icon0 :: icons').
  pose proof (tally_of_fold icons [] _ (tally_of_empty icon0)) as (Hfreq & Hmax & _ & Hcons).
  rewrite app_nil_l in *.
  destruct Hcons as (pre & post & Heq & Hr & Hpre); [done|].
  exists pre, post. split; [done|]. rewrite Hr. split; [apply Hmax | apply Hpre].
Qed.

(** The description fixes the icon: a list has one first most frequent code
    at most. *)
Lemma first_most_frequent_unique (l : list string) (r r' : string) :
  first_most_frequent l r -> first_most_frequent l r' -> r = r'.
Proof.
  assert (Hlt : forall pre post pre' post' a b,
    (pre ++ a :: post = pre' ++ b :: post')%list ->
    (forall x, occurrences x l <= occurrences a (pre ++ [a])) ->
    l = (pre ++ a :: post)%list ->
    (forall x, occurrences x pre' < occurrences b (pre' ++ [b])) ->
    (forall x, occurrences x l <= occurrences b (pre' ++ [b])) ->
    forall k, pre' = (pre ++ a :: k)%list -> False).
  { intros pre post pre' post' a b Heq Hmax Hl Hpre' Hmax' k ->.
    specialize (Hpre' a). specialize (Hmax b).
    assert (occurrences b ((pre ++ a :: k) ++ [b]) <= occurrences b l).
    { rewrite Hl, Heq.
      replace ((pre ++ a :: k) ++ b :: post')%list
        with (((pre ++ a :: k) ++ [b]) ++ post')%list by (by rewrite <- !app_assoc).
      apply occurrences_app_le. }
    assert (occurrences a (pre ++ [a]) <= occurrences a (pre ++ a :: k)).
    { replace (pre ++ a :: k)%list with ((pre ++ [a]) ++ k)%list
        by (by rewrite <- app_assoc).
      apply occurrences_app_le. }
    lia. }
  intros (pre & post & Hl & Hmax & Hpre) (pre' & post' & Hl' & Hmax' & Hpre').
  assert (Heq : (pre ++ r :: post = pre' ++ r' :: post')%list) by congruence.
  destruct (app_eq_app _ _ _ _ Heq) as [k [[Hk1 Hk2] | [Hk1 Hk2]]].
  - destruct k as [|x k]; simpl in Hk2.
    + congruence.
    + exfalso. injection Hk2 as Hx Hpost. subst x.
      by apply (Hlt pre' post' pre post r' r (eq_sym Heq) Hmax' Hl' Hpre Hmax k).
  - destruct k as [|x k]; simpl in Hk2.
    + congruence.
    + exfalso. injection Hk2 as Hx Hpost. subst x.
      by apply (Hlt pre post pre' post' r r' Heq Hmax Hl Hpre' Hmax' k).
Qed.

(** C6. For a non-empty list of icon codes, the representative icon is the
    code that first attains the highest count among the codes with every
    night variant folded to its day equivalent, hence a most frequent one;
    and [01n, 01n, 02d] gives [01d]. *)
Theorem getMostFrequentIcon_folds_night_and_takes_first_max (icons : list string) :
  icons ≠ [] -> Forall (fun icon => icon_code icon = true) icons ->
  first_most_frequent (List.map day_equivalent icons) (getMostFrequentIcon icons)
  /\ (forall x, occurrences x (List.map day_equivalent icons)
                <= occurrences (getMostFrequentIcon icons) (List.map day_equivalent icons))
  /\ getMostFrequentIcon ["01n"; "01n"; "02d"] = "01d".
Proof.
  intros Hne Hcodes.
  assert (Hmap : List.map replace_n_d icons = List.map day_equivalent icons).
  { apply map_ext_in. intros icon Hin. apply replace_n_d_icon_code.
    rewrite Forall_forall in Hcodes. by apply Hcodes, list_elem_of_In. }
  pose proof (getMostFrequentIcon_first_most_frequent icons Hne) as Hfirst.
  rewrite Hmap in Hfirst. split; [done|]. split; [|reflexivity].
  destruct Hfirst as (pre & post & Heq & Hall & _). intros x.
  etrans; [apply Hall|]. rewrite Heq.
  replace (pre ++ getMostFrequentIcon icons :: post)%list
    with ((pre ++ [getMostFrequentIcon icons]) ++ post)%list by (by rewrite <- app_assoc).
  apply occurrences_app_le.
Qed.

Lemma getMostFrequentIcon_folds_night_and_takes_first_max_witness :
  first_most_frequent (List.map day_equivalent ["02d"; "01n"; "01d"; "02d"])
                      (getMostFrequentIcon ["02d"; "01n"; "01d"; "02d"]).
Proof.
  apply (getMostFrequentIcon_folds_night_and_takes_first_max
           ["02d"; "01n"; "01d"; "02d"]); [done | repeat constructor].
Defined.

End IconFacts.

Module ForecastFacts.
Import Forecast.

Lemma bucket_dt_new_bucket (item : ThreeHourForecastItem) (hour : option Z) :
  bucket_dt (new_bucket item hour) = dt item.
Proof. unfold new_bucket. by destruct (around_noon hour). Qed.

Lemma bucket_of_None (dailyData : DailyData) (key : string) :
  bucket_of dailyData key = None <-> key ∉ dailyData.*1.
Proof.
  unfold bucket_of. split.
  - intros H Hin. apply list_elem_of_fmap in Hin as (kb & -> & Hin).
    destruct (List.find _ dailyData) eqn:Hf; [done|].
    apply find_none with (x := kb) in Hf; [|by apply list_elem_of_In].
    by rewrite bool_decide_eq_true_2 in Hf.
  - intros H. destruct (List.find _ dailyData) as [[k b]|] eqn:Hf; [|done].
    exfalso. apply find_some in Hf as [Hin Hk].
    apply bool_decide_eq_true in Hk. simpl in Hk. apply H. rewrite <- Hk.
    apply list_elem_of_fmap. exists (k, b). split; [done|]. by apply list_elem_of_In.
Qed.

Lemma update_bucket_keys (key : string) (f : Bucket -> Bucket) (dailyData : DailyData) :
  (update_bucket key f dailyData).*1 = dailyData.*1.
Proof.
  unfold update_bucket. induction dailyData as [|[k b] dd IH]; [done|].
  cbn. f_equal; [by case_bool_decide | exact IH].
Qed.

Lemma add_item_keys (timezoneOffset : Z) (dailyData : DailyData) (item : ThreeHourForecastItem) :
  dateKey (dt item + timezoneOffset) ∈ (add_item timezoneOffset dailyData item).*1
  /\ forall k, k ∈ dailyData.*1 -> k ∈ (add_item timezoneOffset dailyData item).*1.
Proof.
  unfold add_item. rewrite update_bucket_keys.
  destruct (bucket_of dailyData _) eqn:Hb.
  - split; [|done]. destruct (decide (dateKey (dt item + timezoneOffset) ∈ dailyData.*1)); [done|].
    apply bucket_of_None in n. congruence.
  - rewrite fmap_app. simpl. split; [|intros k Hk]; apply elem_of_app; [right|left]; [|done].
    apply list_elem_of_singleton. done.
Qed.

Lemma samples_of_day_snoc (timezoneOffset : Z) (key : string)
    (seen : list ThreeHourForecastItem) (item : ThreeHourForecastItem) :
  samples_of_day timezoneOffset key (seen ++ [item])
  = (samples_of_day timezoneOffset key seen
     ++ if bool_decide (dateKey (dt item + timezoneOffset) = key) then [item] else [])%list.
Proof. unfold samples_of_day. by rewrite List.filter_app. Qed.

Lemma grouped_add_item (timezoneOffset : Z) (seen : list ThreeHourForecastItem)
    (dailyData : DailyData) (item : ThreeHourForecastItem) :
  grouped timezoneOffset seen dailyData ->
  grouped timezoneOffset (seen ++ [item]) (add_item timezoneOffset dailyData item).
Proof.
  intros [Hkeys Hdt]. split.
  - intros it Hit. destruct (add_item_keys timezoneOffset dailyData item) as [Hnew Hold].
    apply elem_of_app in Hit as [Hit | Hit]; [by apply Hold, Hkeys|].
    apply list_elem_of_singleton in Hit. by subst.
  - unfold add_item. set (key := dateKey (dt item + timezoneOffset)).
    assert (Hold : Forall (fun kb => exists first,
                head (samples_of_day timezoneOffset kb.1 (seen ++ [item])) = Some first
                /\ bucket_dt kb.2 = dt first) dailyData).
    { eapply Forall_impl; [exact Hdt|]. intros [k b] (first & Hfirst & Hb). simpl in *.
      exists first. split; [|done]. rewrite samples_of_day_snoc.
      destruct (samples_of_day timezoneOffset k seen); [done|]. done. }
    assert (Hupd : forall dd, Forall (fun kb => exists first,
                head (samples_of_day timezoneOffset kb.1 (seen ++ [item])) = Some first
                /\ bucket_dt kb.2 = dt first) dd ->
              Forall (fun kb => exists first,
                head (samples_of_day timezoneOffset kb.1 (seen ++ [item])) = Some first
                /\ bucket_dt kb.2 = dt first)
                (update_bucket key (fun b => push b item) dd)).
    { intros dd Hdd. unfold update_bucket. apply Forall_forall. intros kb Hkb.
      apply list_elem_of_In, in_map_iff in Hkb as ([k b] & <- & Hin).
      rewrite Forall_forall in Hdd. apply list_elem_of_In in Hin.
      destruct (Hdd _ Hin) as (first & ? & ?). simpl in *.
      exists first. by case_bool_decide. }
    apply Hupd. destruct (bucket_of dailyData key) eqn:Hb; [done|].
    apply Forall_app. split; [done|]. apply Forall_singleton. simpl.
    exists item. split; [|apply bucket_dt_new_bucket].
    rewrite samples_of_day_snoc. fold key. rewrite bool_decide_eq_true_2 by done.
    assert (Hnone : samples_of_day timezoneOffset key seen = []).
    { apply bucket_of_None in Hb. unfold samples_of_day.
      destruct (List.filter _ seen) as [|it l] eqn:Hf; [done|]. exfalso.
      assert (Hin : In it (List.filter (fun item0 =>
        bool_decide (dateKey (dt item0 + timezoneOffset) = key)) seen))
        by (rewrite Hf; by left).
      apply filter_In in Hin as [Hin Hk]. apply bool_decide_eq_true in Hk.
      apply Hb. rewrite <- Hk. by apply Hkeys, list_elem_of_In. }
    by rewrite Hnone.
Qed.

Lemma grouped_group_by_day (list_ : list ThreeHourForecastItem) (timezoneOffset : Z) :
  grouped timezoneOffset list_ (group_by_day list_ timezoneOffset).
Proof.
  unfold group_by_day.
  assert (H : forall rest seen dd, grouped timezoneOffset seen dd ->
    grouped timezoneOffset (seen ++ rest) (fold_left (add_item timezoneOffset) rest dd)).
  { induction rest as [|item rest IH]; intros seen dd Hg; simpl.
    - by rewrite app_nil_r.
    - replace (seen ++ item :: rest)%list with ((seen ++ [item]) ++ rest)%list
        by (by rewrite <- app_assoc).
      by apply IH, grouped_add_item. }
  apply (H list_ [] []). split; [|constructor]. intros item Hin.
  by apply elem_of_nil in Hin.
Qed.

(** The [dt] of every daily summary is the [dt] of the first sample of its
    calendar day, whatever the hours of the samples. *)
Lemma processForecastList_dt_is_first_sample
    (list_ : list ThreeHourForecastItem) (timezoneOffset : Z) (d : DailyForecastData) :
  d ∈ processForecastList list_ timezoneOffset ->
  exists key first,
    head (samples_of_day timezoneOffset key list_) = Some first
    /\ daily_dt d = dt first.
Proof.
  unfold processForecastList. intros Hd.
  apply elem_of_take in Hd as (i & Hd & _). apply list_elem_of_lookup_2 in Hd.
  rewrite merge_sort_Permutation in Hd.
  apply list_elem_of_In, in_map_iff in Hd as ([key b] & <- & Hin).
  destruct (grouped_group_by_day list_ timezoneOffset) as [_ Hdt].
  rewrite Forall_forall in Hdt. apply list_elem_of_In in Hin.
  destruct (Hdt _ Hin) as (first & Hfirst & Hb). by exists key, first.
Qed.

(** Eight samples over one UTC day with the temperatures 10, 12, 14, 16, 18,
    15, 13 and 11 make one day with minimum 10 and maximum 18. *)
Example processForecastList_min_max :
  (fun d => (temp_min (daily_temp d), temp_max (daily_temp d)))
    <$> processForecastList Samples.day_of_samples 0
  = [(10%Q, 18%Q)].
Proof. vm_compute. reflexivity. Qed.

(** C5, at the failing input. The two samples of 2024-01-01 at 00:00 and
    12:00 UTC fall in one bucket; the second is a sample between 11:00 and
    13:00, yet the day is recorded with the timestamp of the first. *)
Theorem processForecastList_overlooks_later_noon_sample :
  samples_of_day 0 "2024-01-01" [Samples.midnight; Samples.noon]
    = [Samples.midnight; Samples.noon]
  /\ getUTCHours (dt Samples.midnight + 0) = Some 0
  /\ getUTCHours (dt Samples.noon + 0) = Some 12
  /\ daily_dt <$> processForecastList [Samples.midnight; Samples.noon] 0
     = [dt Samples.midnight].
Proof. repeat split; vm_compute; reflexivity. Qed.

End ForecastFacts.

Module NormalizationFacts.

Lemma search_item_normalizes (item : GitHubTrendingItem) (p : GitHubProjectData) :
  SearchRoute.search_item item = Some p ->
  is_null (description p) = false /\ is_null (homepage p) = false
  /\ is_null (language p) = false /\ is_null (license p) = false.
Proof.
  unfold SearchRoute.search_item. destruct (item_owner item); [|done].
  intros ?; simplify_eq. simpl. repeat split. by destruct (item_license item).
Qed.

Lemma repo_details_homepage (data : GitHubTrendingItem) :
  homepage (GitHubRoute.repo_details data) = copied (item_homepage data)
  /\ homepage (GitHubRoute.trending_item data) = copied (item_homepage data).
Proof. done. Qed.

(** C4, at the failing input. For a repository whose upstream [homepage] is
    [null], the repository-details and trending mappings give a project
    whose [homepage] is [null]; the search mapping gives a project without
    a [null] field. *)
Theorem repo_details_keeps_null_homepage :
  item_homepage Samples.repository = None
  /\ homepage (GitHubRoute.repo_details Samples.repository) = JsNull
  /\ homepage (GitHubRoute.trending_item Samples.repository) = JsNull
  /\ null_free (GitHubRoute.repo_details Samples.repository) = false
  /\ null_free (GitHubRoute.trending_item Samples.repository) = false
  /\ null_free <$> SearchRoute.search_item Samples.repository = Some true.
Proof. repeat split. Qed.

End NormalizationFacts.

Module GeminiFacts.
Import GeminiRoute.

(** C7. A request body whose [project] and [weatherData] are both truthy is
    answered with the 400 of an invalid body, and no upstream call is
    made. *)
Theorem POST_rejects_project_with_weatherData (body : Json) (env : Env)
    (upstream : Request -> Outcome JsVal) :
  truthy (opt_prop (Some body) "project") = true ->
  truthy (opt_prop (Some body) "weatherData") = true ->
  POST (Some body) env upstream
  = (inr (json (Error "Invalid request body. Provide {project}, {weatherData, projectData}, or just {weatherData}." None) 400), []).
Proof.
  intros Hp Hw. destruct body as [| | | | |fields]; try done.
  unfold POST. simpl in *. unfold select_prompt. rewrite Hp, Hw. simpl.
  by destruct (truthy (field fields "projectData")).
Qed.

Lemma POST_rejects_project_with_weatherData_witness :
  POST (Some Samples.ambiguous_body) Samples.gemini_env Samples.gemini
  = (inr (json (Error "Invalid request body. Provide {project}, {weatherData, projectData}, or just {weatherData}." None) 400), []).
Proof.
  apply (POST_rejects_project_with_weatherData
           Samples.ambiguous_body Samples.gemini_env Samples.gemini);
    reflexivity.
Defined.

End GeminiFacts.

Module IssuesFacts.

Lemma axios_fails {D} (o : Outcome D) :
  fails o ->
  match axios default_validateStatus o with
  | inr (s, _) => s ≠ 200
  | inl _ => True
  end.
Proof.
  destruct o as [s d|m]; simpl; [|done]. intros Hs.
  by destruct (default_validateStatus s).
Qed.

(** C8. When the upstream issues fetch yields a status other than 200 or
    fails, the beginner-friendly-issues helper returns the empty list, and
    the issues route (for a repository name that is given and has no fresh
    cache entry, so that the fetch takes place) answers 200 with an empty
    list of issues. *)
Theorem failed_issues_fetch_gives_empty_list
    (repoFullName baseUrl : string) (headers : option string)
    (env : IssuesRoute.Env)
    (github : GitHubRoute.Request -> Outcome GitHubData)
    (github' : IssuesRoute.Request -> Outcome GitHubData)
    (now : Z) (issueCache : IssuesRoute.IssueCache) :
  repoFullName ≠ "" ->
  ServerCache.lookup issueCache ("issues_" ++ repoFullName) now
                     IssuesRoute.CACHE_DURATION = None ->
  fails (github (GitHubRoute.LabelledIssues baseUrl repoFullName headers)) ->
  fails (github' (IssuesRoute.OpenIssues
                    (default "https://api.github.com"
                             (nonempty (IssuesRoute.GITHUB_API_BASE_URL env)))
                    repoFullName (baseHeaders (IssuesRoute.GITHUB_API_TOKEN env)))) ->
  GitHubRoute.getBeginnerFriendlyIssues baseUrl repoFullName headers github
    = ([], [GitHubRoute.LabelledIssues baseUrl repoFullName headers])
  /\ IssuesRoute.GET (Some repoFullName) env github' now issueCache
    = (json (Payload {| IssuesRoute.issues := [] |}) 200, issueCache,
       [IssuesRoute.OpenIssues
          (default "https://api.github.com"
                   (nonempty (IssuesRoute.GITHUB_API_BASE_URL env)))
          repoFullName (baseHeaders (IssuesRoute.GITHUB_API_TOKEN env))]).
Proof.
  intros Hrepo Hmiss Hf Hf'. split.
  - unfold GitHubRoute.getBeginnerFriendlyIssues.
    apply axios_fails in Hf.
    destruct (axios _ _) as [e|[s d]]; [done|].
    by rewrite (proj2 (Z.eqb_neq s 200) Hf).
  - unfold IssuesRoute.GET. simpl. rewrite decide_False by done.
    unfold IssuesRoute.getRepositoryIssues. rewrite Hmiss.
    apply axios_fails in Hf'.
    destruct (axios _ _) as [e|[s d]]; [done|].
    by rewrite (proj2 (Z.eqb_neq s 200) Hf').
Qed.

Lemma failed_issues_fetch_gives_empty_list_witness :
  GitHubRoute.getBeginnerFriendlyIssues "https://api.github.com" "torvalds/linux" None
      Samples.forbidden
    = ([], [GitHubRoute.LabelledIssues "https://api.github.com" "torvalds/linux" None])
  /\ IssuesRoute.GET (Some "torvalds/linux") Samples.github_env Samples.forbidden 0 ∅
    = (json (Payload {| IssuesRoute.issues := [] |}) 200, ∅,
       [IssuesRoute.OpenIssues "https://api.github.com" "torvalds/linux" None]).
Proof.
  apply (failed_issues_fetch_gives_empty_list
           "torvalds/linux" "https://api.github.com" None Samples.github_env
           Samples.forbidden Samples.forbidden 0 ∅);
    [done | reflexivity | by vm_compute | by vm_compute].
Defined.

End IssuesFacts.

Module WeatherFacts.
Import CombinedWeatherRoute.

Lemma nonempty_Some (s : option string) (x : string) :
  nonempty s = Some x -> s = Some x /\ x ≠ "".
Proof. destruct s as [s|]; simpl; [|done]. case_decide; naive_solver. Qed.

(** The outer [catch] answers with an error body, or throws. *)
Lemma outer_catch_is_error (e : Thrown OwmData) (p : WeatherBody) (s : Z)
    (c c' : State) (l l' : list Request) :
  (outer_catch e, c, l) ≠ (inr (json (Payload p) s), c', l').
Proof.
  destruct e as [m [[st dat]|]|m]; simpl; unfold json; try congruence.
  intros H. injection H as H _ _.
  apply ResponseFacts.NextResponse_json_inr in H as [H _]. by simplify_eq.
Qed.

(** So does a reply of another status than 200 that is handed on. *)
Lemma returned_in_try_is_upstream (b : Body WeatherBody) (st s : Z)
    (d : CombinedWeatherData) (c c' : State) (l l' : list Request) :
  (forall d, b ≠ Payload (Combined d)) ->
  (returned_in_try (NextResponse_json b st), c, l) ≠ (inr (json (Payload (Combined d)) s), c', l').
Proof.
  intros Hb H. destruct (NextResponse_json (D := OwmData) b st) as [e|r] eqn:Hj; simpl in H.
  - by apply outer_catch_is_error in H.
  - apply ResponseFacts.NextResponse_json_inr in Hj as [-> _].
    unfold json in H. simplify_eq. by eapply Hb.
Qed.

(** A response of the route that carries its own payload with upstream calls
    made is a response that was just fetched and stored. *)
Lemma GET_fetched_is_stored (city units : option string) (env : Env)
    (upstream : Request -> Outcome OwmData) (t0 : Z) (cache cache' : State)
    (d : CombinedWeatherData) (calls : list Request) (s : Z) :
  GET city units env upstream t0 cache = (inr (json (Payload (Combined d)) s), cache', calls) ->
  calls ≠ [] ->
  exists c, nonempty city = Some c
    /\ cache' = ServerCache.store cache (c ++ "-" ++ default "metric" (nonempty units)) d t0
    /\ length calls = 2%nat.
Proof.
  unfold GET. intros H Hcalls.
  destruct (nonempty city) as [c|] eqn:Hc; [|by simplify_eq].
  exists c. split; [done|].
  destruct (ServerCache.lookup _ _ _ _); [by simplify_eq|].
  destruct (nonempty (OPENWEATHERMAP_API_KEY env)) as [k|]; [|by simplify_eq].
  case_decide; [by simplify_eq|].
  destruct (axios _ _) as [[m [r|]|m]|[st dat]]; try (by simplify_eq); try (by apply outer_catch_is_error in H).
  destruct (negb (st =? 200)).
  { apply returned_in_try_is_upstream in H; [done|]. by destruct (data_truthy dat). }
  unfold fetch_forecast in H.
  destruct (axios _ (upstream _)) as [[m [r|]|m]|[st2 dat2]]; try (by simplify_eq); try (by apply outer_catch_is_error in H).
  destruct (negb (st2 =? 200)).
  { injection H as H <- <-.
    exfalso. eapply (returned_in_try_is_upstream _ st2 s d cache cache [] []);
      [|by rewrite H]. by destruct (data_truthy dat2). }
  destruct dat2; [by apply outer_catch_is_error in H|]. by simplify_eq.
Qed.

Lemma GET_cache_hit (city units : option string) (env : Env)
    (upstream : Request -> Outcome OwmData) (t1 : Z) (cache : State)
    (c : string) (d : CombinedWeatherData) :
  nonempty city = Some c ->
  ServerCache.lookup cache (c ++ "-" ++ default "metric" (nonempty units)) t1 CACHE_DURATION
    = Some d ->
  GET city units env upstream t1 cache = (inr (json (Payload (Combined d)) 200), cache, []).
Proof. intros Hc Hl. unfold GET. by rewrite Hc, Hl. Qed.

(** C1. When the combined weather handler has answered a request at [t0]
    with its payload after calling upstream, and so stored it, a second
    request for the same city and units at [t1] with [t1 - t0] below ten
    minutes is answered with that payload, leaves the cache as it is and
    makes no upstream call, whatever the environment and the upstream
    service then are. *)
Theorem GET_second_request_within_ten_minutes
    (city units : option string) (env env' : Env)
    (upstream upstream' : Request -> Outcome OwmData) (t0 t1 : Z)
    (cache cache' : State) (d : CombinedWeatherData) (calls : list Request) :
  GET city units env upstream t0 cache = (inr (json (Payload (Combined d)) 200), cache', calls) ->
  calls ≠ [] ->
  t1 - t0 < 10 * 60 * 1000 ->
  GET city units env' upstream' t1 cache' = (inr (json (Payload (Combined d)) 200), cache', []).
Proof.
  intros H Hcalls Ht.
  destruct (GET_fetched_is_stored _ _ _ _ _ _ _ _ _ _ H Hcalls) as (c & Hc & -> & _).
  apply (GET_cache_hit _ _ _ _ _ _ c); [done|].
  by apply ServerCacheFacts.lookup_store_Some.
Qed.

Lemma GET_second_request_within_ten_minutes_witness :
  GET (Some "London") (Some "metric") Samples.weather_env (fun _ => NoReply "offline")
      (Samples.t0 + 599999) Samples.weather_cache
  = (inr (json (Payload (Combined Samples.combined)) 200), Samples.weather_cache, []).
Proof.
  apply (GET_second_request_within_ten_minutes
           (Some "London") (Some "metric") Samples.weather_env Samples.weather_env
           Samples.owm (fun _ => NoReply "offline") Samples.t0 (Samples.t0 + 599999)
           ∅ Samples.weather_cache Samples.combined Samples.weather_calls);
    [vm_compute; reflexivity | done | by vm_compute].
Defined.

(** The simple weather route serves a stored reply in the same window, and
    goes upstream once the window has passed. *)
Lemma WeatherRoute_GET_cache_hit (city units : option string) (env : WeatherRoute.Env)
    (upstream : WeatherRoute.Request -> Outcome JsVal) (t0 t1 : Z)
    (cache : WeatherRoute.State) (c : string) (d : JsVal) :
  nonempty city = Some c ->
  t1 - t0 < WeatherRoute.CACHE_DURATION ->
  WeatherRoute.GET city units env upstream t1
    (ServerCache.store cache (c ++ "-" ++ default "metric" (nonempty units)) d t0)
  = (json (Payload d) 200,
     ServerCache.store cache (c ++ "-" ++ default "metric" (nonempty units)) d t0, []).
Proof.
  intros Hc Ht. unfold WeatherRoute.GET. rewrite Hc.
  by rewrite (proj2 (ServerCacheFacts.lookup_store_Some _ _ _ _ _ _) Ht).
Qed.

Lemma WeatherRoute_GET_cache_expired (city units : option string) (env : WeatherRoute.Env)
    (upstream : WeatherRoute.Request -> Outcome JsVal) (t0 t1 : Z)
    (cache : WeatherRoute.State) (c apiKey : string) (d : JsVal) :
  nonempty city = Some c ->
  nonempty (WeatherRoute.OPENWEATHERMAP_API_KEY env) = Some apiKey ->
  apiKey ≠ "your_openweathermap_api_key" ->
  WeatherRoute.CACHE_DURATION <= t1 - t0 ->
  (WeatherRoute.GET city units env upstream t1
     (ServerCache.store cache (c ++ "-" ++ default "metric" (nonempty units)) d t0)).2
  = [WeatherRoute.CurrentWeather (show_env (WeatherRoute.OPENWEATHERMAP_BASE_URL env))
       c apiKey (default "metric" (nonempty units))].
Proof.
  intros Hc Hk Hne Ht. unfold WeatherRoute.GET. rewrite Hc, Hk.
  rewrite ServerCacheFacts.lookup_store, (proj2 (Z.ltb_ge _ _)) by lia.
  rewrite decide_False by done.
  destruct (axios _ _) as [e|[s j]]; [done|].
  repeat (destruct (_ =? _); [done|]). simpl.
  destruct (prop j "message"); [done|]. by destruct (NextResponse_json _ _).
Qed.

End WeatherFacts.

(** ** More on the combined weather route *)
Module CombinedWeatherMore.
Import CombinedWeatherRoute CombinedWeatherTerms.

(** The handler, split at its successive returns. *)
Lemma fetch_forecast_cases (upstream : Request -> Outcome OwmData)
    (baseUrl city apiKey units cacheKey : string) (now : Z)
    (currentWeatherData : OwmData) (weatherCache : State) :
  exists forecastUrl,
    forecastUrl =
      match data_opt_prop (Document (data_opt_prop currentWeatherData "coord")) "lat",
            data_opt_prop (Document (data_opt_prop currentWeatherData "coord")) "lon" with
      | Some lat, Some lon => ForecastByCoordinates baseUrl lat lon apiKey units
      | _, _ => ForecastByCity baseUrl city apiKey units
      end
    /\ (fetch_forecast upstream baseUrl city apiKey units cacheKey now
                       currentWeatherData weatherCache).2 = [forecastUrl]
    /\ ((fetch_forecast upstream baseUrl city apiKey units cacheKey now
                        currentWeatherData weatherCache).1.2 = weatherCache
        \/ exists d,
             fetch_forecast upstream baseUrl city apiKey units cacheKey now
                            currentWeatherData weatherCache
             = (inr (json (Payload (Combined d)) 200),
                ServerCache.store weatherCache cacheKey d now, [forecastUrl])).
Proof.
  eexists. split; [reflexivity|]. unfold fetch_forecast.
  destruct (axios _ _) as [[m [r|]|m]|[s d]]; simpl; try (split; [done|by left]).
  destruct (negb (s =? 200)); simpl; [split; [done|by left]|].
  destruct d; simpl; [split; [done|by left]|].
  split; [done|]. right. by eexists.
Qed.

Lemma GET_goes_upstream (city units : option string) (env : Env)
    (upstream : Request -> Outcome OwmData) (now : Z) (weatherCache : State)
    (c k : string) :
  goes_upstream city units env now weatherCache c k ->
  GET city units env upstream now weatherCache
  = let baseUrl := default "https://api.openweathermap.org/data/2.5"
                           (nonempty (OPENWEATHERMAP_BASE_URL env)) in
    let units' := default "metric" (nonempty units) in
    let currentUrl := CurrentWeather baseUrl c k units' in
    match axios (fun status => status <? 500) (upstream currentUrl) with
    | inr (status, d) =>
        if negb (status =? 200) then
          (returned_in_try
             (NextResponse_json
                (if data_truthy d then Payload (Upstream d)
                 else Error ("Failed to fetch current weather (" ++ pretty status ++ ")")
                            (str "Unknown error")) status),
           weatherCache, [currentUrl])
        else
          let '(r, c', calls) :=
            fetch_forecast upstream baseUrl c k units' (c ++ "-" ++ units') now d weatherCache in
          (r, c', currentUrl :: calls)
    | inl (AxiosError m None) =>
        (inr (json (Error "Network error fetching current weather" (str m)) 503),
         weatherCache, [currentUrl])
    | inl e => (outer_catch e, weatherCache, [currentUrl])
    end.
Proof.
  intros (Hc & Hk & Hne & Hmiss). unfold GET. rewrite Hc, Hmiss, Hk.
  by rewrite decide_False by done.
Qed.

Lemma GET_stays_home (city units : option string) (env : Env)
    (upstream : Request -> Outcome OwmData) (now : Z) (weatherCache : State) :
  (forall c k, ¬ goes_upstream city units env now weatherCache c k) ->
  (GET city units env upstream now weatherCache).2 = []
  /\ (GET city units env upstream now weatherCache).1.2 = weatherCache.
Proof.
  intros Hno. unfold GET.
  destruct (nonempty city) as [c|] eqn:Hc; [|done].
  destruct (ServerCache.lookup _ _ _ _) eqn:Hl; [done|].
  destruct (nonempty (OPENWEATHERMAP_API_KEY env)) as [k|] eqn:Hk; [|done].
  case_decide; [done|]. exfalso. by apply (Hno c k).
Qed.

Lemma goes_upstream_dec (city units : option string) (env : Env) (now : Z)
    (weatherCache : State) :
  (exists c k, goes_upstream city units env now weatherCache c k)
  \/ (forall c k, ¬ goes_upstream city units env now weatherCache c k).
Proof.
  unfold goes_upstream.
  destruct (nonempty city) as [c|]; [|right; by intros c k (? & _)].
  destruct (nonempty (OPENWEATHERMAP_API_KEY env)) as [k|];
    [|right; by intros ? ? (_ & ? & _)].
  destruct (decide (k = "your_openweathermap_api_key"));
    [right; intros ? ? (_ & ? & ? & _); congruence|].
  destruct (ServerCache.lookup weatherCache
              (c ++ "-" ++ default "metric" (nonempty units)) now CACHE_DURATION) eqn:Hl.
  - right. intros ? ? (? & _ & _ & Hl'). by simplify_eq.
  - left. by exists c, k.
Qed.

(** X1. Only a payload that was just fetched enters the cache: a request
    leaves the cache as it was, or answers 200 with the payload built from
    two upstream calls and stores it under the key of its city and units; a
    request that is not answered with a 200 never changes the cache. *)
Theorem GET_caches_only_fetched_payloads (city units : option string) (env : Env)
    (upstream : Request -> Outcome OwmData) (now : Z) (weatherCache : State) :
  ((GET city units env upstream now weatherCache).1.2 = weatherCache
   \/ exists c d,
        nonempty city = Some c
        /\ (GET city units env upstream now weatherCache).1.1
           = inr (json (Payload (Combined d)) 200)
        /\ (GET city units env upstream now weatherCache).1.2
           = ServerCache.store weatherCache
               (c ++ "-" ++ default "metric" (nonempty units)) d now
        /\ length (GET city units env upstream now weatherCache).2 = 2%nat)
  /\ (¬ answers (GET city units env upstream now weatherCache).1.1 200 ->
      (GET city units env upstream now weatherCache).1.2 = weatherCache).
Proof.
  destruct (goes_upstream_dec city units env now weatherCache) as [(c & k & Hgo) | Hno].
  2: { destruct (GET_stays_home city units env upstream now weatherCache Hno) as [_ ->].
       split; [by left | done]. }
  rewrite (GET_goes_upstream _ _ _ upstream _ _ c k Hgo). cbv zeta.
  destruct (axios _ _) as [[m [r|]|m]|[s d]]; simpl; try (split; [by left | done]).
  destruct (negb (s =? 200)); simpl; [split; [by left | done]|].
  destruct (fetch_forecast_cases upstream
              (default "https://api.openweathermap.org/data/2.5"
                       (nonempty (OPENWEATHERMAP_BASE_URL env)))
              c k (default "metric" (nonempty units))
              (c ++ "-" ++ default "metric" (nonempty units)) now d weatherCache)
    as (url & _ & Hcalls & [Hsame | (p & Hp)]).
  - destruct (fetch_forecast _ _ _ _ _ _ _ _ _) as [[r c'] calls]. simpl in *.
    split; [by left | done].
  - rewrite Hp. simpl. split.
    + right. exists c, p. destruct Hgo as (Hc & _). done.
    + intros Hn. exfalso. apply Hn. by eexists.
Qed.

(** X2. The handler goes upstream exactly for a named city, a configured
    key and no fresh cache entry; it then asks for the current weather of
    that city first and makes one more call at most. *)
Theorem GET_goes_upstream_iff (city units : option string) (env : Env)
    (upstream : Request -> Outcome OwmData) (now : Z) (weatherCache : State) :
  ((GET city units env upstream now weatherCache).2 ≠ []
   <-> exists c k, goes_upstream city units env now weatherCache c k)
  /\ ((GET city units env upstream now weatherCache).2 = []
      \/ exists c k rest,
           goes_upstream city units env now weatherCache c k
           /\ (GET city units env upstream now weatherCache).2
              = CurrentWeather
                  (default "https://api.openweathermap.org/data/2.5"
                           (nonempty (OPENWEATHERMAP_BASE_URL env)))
                  c k (default "metric" (nonempty units)) :: rest
           /\ (length rest <= 1)%nat).
Proof.
  destruct (goes_upstream_dec city units env now weatherCache) as [(c & k & Hgo) | Hno].
  2: { destruct (GET_stays_home city units env upstream now weatherCache Hno) as [-> _].
       split; [|by left]. split; [done|]. intros (c & k & Hgo). by destruct (Hno c k). }
  assert (Hcalls : exists rest,
    (GET city units env upstream now weatherCache).2
    = CurrentWeather (default "https://api.openweathermap.org/data/2.5"
                              (nonempty (OPENWEATHERMAP_BASE_URL env)))
                     c k (default "metric" (nonempty units)) :: rest
    /\ (length rest <= 1)%nat).
  { rewrite (GET_goes_upstream _ _ _ upstream _ _ c k Hgo). cbv zeta.
    destruct (axios _ _) as [[m [r|]|m]|[s d]]; simpl; try (by exists []; split; [|simpl; lia]).
    destruct (negb (s =? 200)); simpl; [by exists []; split; [|simpl; lia]|].
    destruct (fetch_forecast_cases upstream
                (default "https://api.openweathermap.org/data/2.5"
                         (nonempty (OPENWEATHERMAP_BASE_URL env)))
                c k (default "metric" (nonempty units))
                (c ++ "-" ++ default "metric" (nonempty units)) now d weatherCache)
      as (url & _ & Hcalls & _).
    destruct (fetch_forecast _ _ _ _ _ _ _ _ _) as [[r c'] calls]. simpl in *. subst calls.
    exists [url]. done. }
  destruct Hcalls as (rest & Hcalls & Hrest). split.
  - split; [intros _; by exists c, k | intros _; by rewrite Hcalls].
  - right. by exists c, k, rest.
Qed.

(** X3. After a 200 reply to the current-weather call, the forecast is asked
    for by coordinates when that reply holds both [coord.lat] and
    [coord.lon], and by city name otherwise. *)
Theorem GET_forecast_by_coordinates_when_known (city units : option string) (env : Env)
    (upstream : Request -> Outcome OwmData) (now : Z) (weatherCache : State)
    (c k : string) (d : OwmData) :
  goes_upstream city units env now weatherCache c k ->
  upstream (CurrentWeather
              (default "https://api.openweathermap.org/data/2.5"
                       (nonempty (OPENWEATHERMAP_BASE_URL env)))
              c k (default "metric" (nonempty units))) = Replied 200 d ->
  (GET city units env upstream now weatherCache).2
  = [CurrentWeather
       (default "https://api.openweathermap.org/data/2.5"
                (nonempty (OPENWEATHERMAP_BASE_URL env)))
       c k (default "metric" (nonempty units));
     match data_opt_prop (Document (data_opt_prop d "coord")) "lat",
           data_opt_prop (Document (data_opt_prop d "coord")) "lon" with
     | Some lat, Some lon =>
         ForecastByCoordinates
           (default "https://api.openweathermap.org/data/2.5"
                    (nonempty (OPENWEATHERMAP_BASE_URL env)))
           lat lon k (default "metric" (nonempty units))
     | _, _ =>
         ForecastByCity
           (default "https://api.openweathermap.org/data/2.5"
                    (nonempty (OPENWEATHERMAP_BASE_URL env)))
           c k (default "metric" (nonempty units))
     end].
Proof.
  intros Hgo Hup. rewrite (GET_goes_upstream _ _ _ upstream _ _ c k Hgo). cbv zeta.
  rewrite Hup. simpl.
  destruct (fetch_forecast_cases upstream
              (default "https://api.openweathermap.org/data/2.5"
                       (nonempty (OPENWEATHERMAP_BASE_URL env)))
              c k (default "metric" (nonempty units))
              (c ++ "-" ++ default "metric" (nonempty units)) now d weatherCache)
    as (url & -> & Hcalls & _).
  destruct (fetch_forecast _ _ _ _ _ _ _ _ _) as [[r c'] calls]. simpl in *.
  by subst calls.
Qed.

Lemma GET_forecast_by_coordinates_when_known_witness :
  (GET (Some "London") (Some "metric") Samples.weather_env Samples.owm Samples.t0 ∅).2
  = Samples.weather_calls.
Proof.
  apply (GET_forecast_by_coordinates_when_known
           (Some "London") (Some "metric") Samples.weather_env Samples.owm Samples.t0 ∅
           "London" "k" (Document Samples.london));
    [by repeat split | reflexivity].
Defined.

(** A status read off an upstream reply, as the status of the response:
    inside one of the inner [try] blocks, and in the outer [catch]. *)
Lemma returned_in_try_status (b : Body WeatherBody) (s : Z) :
  (accepted s = true -> answers (returned_in_try (NextResponse_json b s)) s)
  /\ (accepted s = false -> answers (returned_in_try (NextResponse_json b s)) 500).
Proof.
  split; intros Ha.
  - rewrite ResponseFacts.NextResponse_json_accepted by done. by eexists.
  - destruct (ResponseFacts.NextResponse_json_refused (D := OwmData) b s Ha) as [m ->].
    by eexists.
Qed.

Lemma outer_catch_status (m : string) (s : Z) (d : OwmData) :
  (accepted s = true -> answers (outer_catch (AxiosError m (Some (s, d)))) s)
  /\ (accepted s = false -> throws (outer_catch (AxiosError m (Some (s, d))))).
Proof.
  split; intros Ha; simpl.
  - rewrite ResponseFacts.NextResponse_json_accepted by done. by eexists.
  - destruct (ResponseFacts.NextResponse_json_refused (D := OwmData) (P := WeatherBody)
                (Error "Failed to process weather request"
                   (if truthy (data_opt_prop d "message")
                    then data_opt_prop d "message" else str m)) s Ha) as [m' Hm].
    by exists (JsError m').
Qed.

Lemma failure_status (a : Thrown OwmData + Response WeatherBody) (m : string)
    (s : Z) (d : OwmData) (b : Body WeatherBody) :
  a = (if s <? 500 then returned_in_try (NextResponse_json b s)
       else outer_catch (AxiosError m (Some (s, d)))) ->
  (accepted s = true -> answers a s)
  /\ (accepted s = false -> s <= 599 -> answers a 500)
  /\ (599 < s -> throws a).
Proof.
  intros ->. destruct (s <? 500) eqn:Hs.
  - apply Z.ltb_lt in Hs. destruct (returned_in_try_status b s) as [H1 H2].
    repeat split; [done | by intros ? _; apply H2 | lia].
  - apply Z.ltb_ge in Hs. destruct (outer_catch_status m s d) as [H1 H2].
    repeat split; [done | |].
    + intros Ha Hle. exfalso. unfold accepted in Ha.
      rewrite (proj2 (Z.leb_le 200 s)), (proj2 (Z.leb_le s 599)) in Ha by lia.
      rewrite (proj2 (Z.eqb_neq s 204)), (proj2 (Z.eqb_neq s 205)),
        (proj2 (Z.eqb_neq s 304)) in Ha by lia. done.
    + intros Hgt. apply H2. unfold accepted.
      by rewrite (proj2 (Z.leb_gt s 599)), andb_false_r by lia.
Qed.

Lemma fetch_forecast_status (upstream : Request -> Outcome OwmData)
    (baseUrl city apiKey units cacheKey : string) (now : Z)
    (currentWeatherData : OwmData) (weatherCache : State) (req : Request) :
  (fetch_forecast upstream baseUrl city apiKey units cacheKey now
                  currentWeatherData weatherCache).2 = [req] ->
  match upstream req with
  | Replied s _ =>
      s ≠ 200 ->
      (fetch_forecast upstream baseUrl city apiKey units cacheKey now
                      currentWeatherData weatherCache).1.2 = weatherCache
      /\ (accepted s = true ->
          answers (fetch_forecast upstream baseUrl city apiKey units cacheKey now
                                  currentWeatherData weatherCache).1.1 s)
      /\ (accepted s = false -> s <= 599 ->
          answers (fetch_forecast upstream baseUrl city apiKey units cacheKey now
                                  currentWeatherData weatherCache).1.1 500)
      /\ (599 < s ->
          throws (fetch_forecast upstream baseUrl city apiKey units cacheKey now
                                 currentWeatherData weatherCache).1.1)
  | NoReply _ =>
      answers (fetch_forecast upstream baseUrl city apiKey units cacheKey now
                              currentWeatherData weatherCache).1.1 503
      /\ (fetch_forecast upstream baseUrl city apiKey units cacheKey now
                         currentWeatherData weatherCache).1.2 = weatherCache
  end.
Proof.
  unfold fetch_forecast.
  set (url := match data_opt_prop (Document (data_opt_prop currentWeatherData "coord")) "lat",
                    data_opt_prop (Document (data_opt_prop currentWeatherData "coord")) "lon" with
              | Some lat, Some lon => ForecastByCoordinates baseUrl lat lon apiKey units
              | _, _ => ForecastByCity baseUrl city apiKey units
              end).
  intros Hreq.
  assert (req = url) as ->.
  { destruct (axios _ _) as [[m [r|]|m]|[s d]]; simpl in Hreq; try by simplify_eq.
    destruct (negb (s =? 200)); simpl in Hreq; [by simplify_eq|].
    destruct d; simpl in Hreq; by simplify_eq. }
  clear Hreq. destruct (upstream url) as [s d|m]; simpl; [|split; [by eexists | done]].
  intros Hs. split.
  { destruct (s <? 500); simpl; [|done]. by rewrite (proj2 (Z.eqb_neq s 200) Hs). }
  eapply (failure_status _ _ s d). destruct (s <? 500); simpl; [|reflexivity].
  by rewrite (proj2 (Z.eqb_neq s 200) Hs).
Qed.

(** X4. An upstream failure decides the answer and leaves the cache as it
    was. When the last upstream call of a request got no reply, the
    response is a 503. When it was answered with a status [s] other than
    200, the response carries [s] if [NextResponse.json] accepts it; if not,
    the response is a 500 for [s] up to 599 (a status below 200, or 204, 205
    or 304), and for a greater [s] the handler throws and returns no
    response. *)
Theorem GET_hands_on_upstream_failure (city units : option string) (env : Env)
    (upstream : Request -> Outcome OwmData) (now : Z) (weatherCache : State)
    (req : Request) :
  last (GET city units env upstream now weatherCache).2 = Some req ->
  match upstream req with
  | Replied s _ =>
      s ≠ 200 ->
      (GET city units env upstream now weatherCache).1.2 = weatherCache
      /\ (accepted s = true ->
          answers (GET city units env upstream now weatherCache).1.1 s)
      /\ (accepted s = false -> s <= 599 ->
          answers (GET city units env upstream now weatherCache).1.1 500)
      /\ (599 < s -> throws (GET city units env upstream now weatherCache).1.1)
  | NoReply _ =>
      answers (GET city units env upstream now weatherCache).1.1 503
      /\ (GET city units env upstream now weatherCache).1.2 = weatherCache
  end.
Proof.
  destruct (goes_upstream_dec city units env now weatherCache) as [(c & k & Hgo) | Hno].
  2: { by destruct (GET_stays_home city units env upstream now weatherCache Hno) as [-> _]. }
  rewrite (GET_goes_upstream _ _ _ upstream _ _ c k Hgo). cbv zeta.
  set (url := CurrentWeather _ c k _).
  destruct (upstream url) as [s d|m] eqn:Hup; simpl.
  2: { intros ?; simplify_eq. rewrite Hup. split; [by eexists | done]. }
  destruct (s <? 500) eqn:Hs; simpl.
  2: { intros ?; simplify_eq. rewrite Hup. intros _. split; [done|].
       eapply (failure_status _ _ s d (Error "" None)). by rewrite Hs. }
  destruct (s =? 200) eqn:H200; simpl.
  2: { intros ?; simplify_eq. rewrite Hup. intros _. split; [done|].
       eapply (failure_status _ "" s d). by rewrite Hs. }
  pose proof (fetch_forecast_status upstream
                (default "https://api.openweathermap.org/data/2.5"
                         (nonempty (OPENWEATHERMAP_BASE_URL env)))
                c k (default "metric" (nonempty units))
                (c ++ "-" ++ default "metric" (nonempty units)) now d weatherCache req) as Hf.
  destruct (fetch_forecast_cases upstream
              (default "https://api.openweathermap.org/data/2.5"
                       (nonempty (OPENWEATHERMAP_BASE_URL env)))
              c k (default "metric" (nonempty units))
              (c ++ "-" ++ default "metric" (nonempty units)) now d weatherCache)
    as (url2 & _ & Hcalls & _).
  destruct (fetch_forecast _ _ _ _ _ _ _ _ _) as [[r c'] calls]. simpl in *.
  subst calls. simpl. intros ?; simplify_eq. by apply Hf.
Qed.

Lemma GET_hands_on_upstream_failure_witness :
  answers (GET (Some "London") (Some "metric") Samples.weather_env
               MoreSamples.unknown_city (Samples.t0 + 600000) Samples.weather_cache).1.1
          404
  /\ (GET (Some "London") (Some "metric") Samples.weather_env
          MoreSamples.unknown_city (Samples.t0 + 600000) Samples.weather_cache).1.2
     = Samples.weather_cache.
Proof.
  assert (W : 404 ≠ 200 ->
    (GET (Some "London") (Some "metric") Samples.weather_env
         MoreSamples.unknown_city (Samples.t0 + 600000) Samples.weather_cache).1.2
    = Samples.weather_cache
    /\ (accepted 404 = true ->
        answers (GET (Some "London") (Some "metric") Samples.weather_env
                     MoreSamples.unknown_city (Samples.t0 + 600000)
                     Samples.weather_cache).1.1 404)
    /\ (accepted 404 = false -> 404 <= 599 ->
        answers (GET (Some "London") (Some "metric") Samples.weather_env
                     MoreSamples.unknown_city (Samples.t0 + 600000)
                     Samples.weather_cache).1.1 500)
    /\ (599 < 404 ->
        throws (GET (Some "London") (Some "metric") Samples.weather_env
                    MoreSamples.unknown_city (Samples.t0 + 600000)
                    Samples.weather_cache).1.1)).
  { apply (GET_hands_on_upstream_failure
             (Some "London") (Some "metric") Samples.weather_env
             MoreSamples.unknown_city (Samples.t0 + 600000) Samples.weather_cache
             MoreSamples.london_weather). by vm_compute. }
  destruct W as (Hcache & Hanswer & _); [done|].
  split; [by apply Hanswer | exact Hcache].
Defined.

End CombinedWeatherMore.

(** ** More on the simple weather route *)
Module WeatherRouteMore.
Import WeatherRoute.

Lemma GET_fetch (city units : option string) (env : Env)
    (upstream : Request -> Outcome JsVal) (now : Z) (weatherCache : State)
    (c k : string) :
  nonempty city = Some c ->
  nonempty (OPENWEATHERMAP_API_KEY env) = Some k ->
  k ≠ "your_openweathermap_api_key" ->
  ServerCache.lookup weatherCache (c ++ "-" ++ default "metric" (nonempty units))
                     now CACHE_DURATION = None ->
  GET city units env upstream now weatherCache
  = let url := CurrentWeather (show_env (OPENWEATHERMAP_BASE_URL env)) c k
                              (default "metric" (nonempty units)) in
    match axios (fun status => status <? 500) (upstream url) with
    | inr (status, d) =>
        if status =? 401 then
          (json (Error "Invalid API key"
                   (str "The API key is invalid or not activated yet. It may take up to 2 hours after registration to activate.")) 401,
           weatherCache, [url])
        else if status =? 404 then
          (json (Error "City not found"
                   (str ("Could not find weather data for " ++ quoted c))) 404,
           weatherCache, [url])
        else if status =? 429 then
          (json (Error "Too many requests"
                   (str "You have exceeded the API rate limit")) 429,
           weatherCache, [url])
        else if negb (status =? 200) then
          match prop (D := JsVal) d "message" with
          | inr m =>
              match
                NextResponse_json (D := JsVal)
                  (Error "OpenWeatherMap API error"
                         (if truthy m then m else str "Unknown error")) status
              with
              | inr response => (response, weatherCache, [url])
              | inl e => (rethrown (message_of e), weatherCache, [url])
              end
          | inl e => (rethrown (message_of e), weatherCache, [url])
          end
        else
          (json (Payload d) 200,
           ServerCache.store weatherCache (c ++ "-" ++ default "metric" (nonempty units)) d now,
           [url])
    | inl e => (rethrown (message_of e), weatherCache, [url])
    end.
Proof.
  intros Hc Hk Hne Hmiss. unfold GET. rewrite Hc, Hmiss, Hk.
  by rewrite decide_False by done.
Qed.

(** X5. What the simple weather route makes of an upstream failure: a reply
    with a status other than 200 is answered with that status when it is
    401, 404 or 429, or below 500 with a body whose [message] can be read
    and a status that [NextResponse.json] accepts (200 to 599 but for 204,
    205 and 304), and with 500 otherwise; no reply is a 500; the cache is
    left as it was and the one call was made. *)
Theorem GET_upstream_failure (city units : option string) (env : Env)
    (upstream : Request -> Outcome JsVal) (now : Z) (weatherCache : State)
    (c k : string) :
  nonempty city = Some c ->
  nonempty (OPENWEATHERMAP_API_KEY env) = Some k ->
  k ≠ "your_openweathermap_api_key" ->
  ServerCache.lookup weatherCache (c ++ "-" ++ default "metric" (nonempty units))
                     now CACHE_DURATION = None ->
  match upstream (CurrentWeather (show_env (OPENWEATHERMAP_BASE_URL env)) c k
                                 (default "metric" (nonempty units))) with
  | Replied s d =>
      s ≠ 200 ->
      status (GET city units env upstream now weatherCache).1.1
      = (if (s <? 500)
            && ((s =? 401) || (s =? 404) || (s =? 429)
                || match d with None | Some JNull => false | Some _ => true end
                   && accepted s)
         then s else 500)
      /\ (GET city units env upstream now weatherCache).1.2 = weatherCache
      /\ (GET city units env upstream now weatherCache).2
         = [CurrentWeather (show_env (OPENWEATHERMAP_BASE_URL env)) c k
                           (default "metric" (nonempty units))]
  | NoReply m =>
      (GET city units env upstream now weatherCache).1.1
      = json (Error "Failed to fetch weather data"
                    (str ("Axios failed to fetch weather: " ++ m))) 500
      /\ (GET city units env upstream now weatherCache).1.2 = weatherCache
      /\ (GET city units env upstream now weatherCache).2
         = [CurrentWeather (show_env (OPENWEATHERMAP_BASE_URL env)) c k
                           (default "metric" (nonempty units))]
  end.
Proof.
  intros Hc Hk Hne Hmiss. rewrite (GET_fetch _ _ _ upstream _ _ c k) by done. cbv zeta.
  destruct (upstream _) as [s d|m]; simpl; [|done].
  intros Hs. destruct (s <? 500) eqn:H500; simpl; [|done].
  destruct (s =? 401) eqn:H401; simpl.
  { apply Z.eqb_eq in H401. by subst. }
  destruct (s =? 404) eqn:H404; simpl.
  { apply Z.eqb_eq in H404. by subst. }
  destruct (s =? 429) eqn:H429; simpl.
  { apply Z.eqb_eq in H429. by subst. }
  rewrite (proj2 (Z.eqb_neq s 200) Hs). simpl.
  assert (Hr : forall m : JsVal,
    status (match NextResponse_json (D := JsVal)
                    (Error "OpenWeatherMap API error" m) s with
            | inr response => (response, weatherCache,
                               [CurrentWeather (show_env (OPENWEATHERMAP_BASE_URL env)) c k
                                               (default "metric" (nonempty units))])
            | inl e => (rethrown (message_of e), weatherCache,
                        [CurrentWeather (show_env (OPENWEATHERMAP_BASE_URL env)) c k
                                        (default "metric" (nonempty units))])
            end).1.1
    = (if accepted s then s else 500)
    /\ (match NextResponse_json (D := JsVal)
                (Error "OpenWeatherMap API error"
                       m) s with
        | inr response => (response, weatherCache,
                           [CurrentWeather (show_env (OPENWEATHERMAP_BASE_URL env)) c k
                                           (default "metric" (nonempty units))])
        | inl e => (rethrown (message_of e), weatherCache,
                    [CurrentWeather (show_env (OPENWEATHERMAP_BASE_URL env)) c k
                                    (default "metric" (nonempty units))])
        end).1.2 = weatherCache
    /\ (match NextResponse_json (D := JsVal)
                (Error "OpenWeatherMap API error"
                       m) s with
        | inr response => (response, weatherCache,
                           [CurrentWeather (show_env (OPENWEATHERMAP_BASE_URL env)) c k
                                           (default "metric" (nonempty units))])
        | inl e => (rethrown (message_of e), weatherCache,
                    [CurrentWeather (show_env (OPENWEATHERMAP_BASE_URL env)) c k
                                    (default "metric" (nonempty units))])
        end).2
       = [CurrentWeather (show_env (OPENWEATHERMAP_BASE_URL env)) c k
                         (default "metric" (nonempty units))]).
  { intros m. destruct (accepted s) eqn:Ha.
    - by rewrite ResponseFacts.NextResponse_json_accepted by done.
    - by destruct (ResponseFacts.NextResponse_json_refused (D := JsVal) (P := JsVal)
                     (Error "OpenWeatherMap API error"
                            m) s Ha) as [m' ->]. }
  destruct d as [[]|]; simpl; try done; apply Hr.
Qed.

Lemma GET_upstream_failure_witness :
  status (GET (Some "London") None MoreSamples.simple_env
              MoreSamples.simple_unknown_city Samples.t0 ∅).1.1 = 404
  /\ (GET (Some "London") None MoreSamples.simple_env
          MoreSamples.simple_unknown_city Samples.t0 ∅).1.2 = ∅
  /\ (GET (Some "London") None MoreSamples.simple_env
          MoreSamples.simple_unknown_city Samples.t0 ∅).2 = [MoreSamples.simple_london].
Proof.
  apply (GET_upstream_failure (Some "London") None MoreSamples.simple_env
           MoreSamples.simple_unknown_city Samples.t0 ∅ "London" "k");
    [reflexivity | reflexivity | done | reflexivity | done].
Defined.

Lemma simple_GET_fetched_is_stored (city units : option string) (env : Env)
    (upstream : Request -> Outcome JsVal) (t0 : Z) (cache cache' : State)
    (d : JsVal) (calls : list Request) :
  GET city units env upstream t0 cache = (json (Payload d) 200, cache', calls) ->
  calls ≠ [] ->
  exists c, nonempty city = Some c
    /\ cache' = ServerCache.store cache (c ++ "-" ++ default "metric" (nonempty units)) d t0.
Proof.
  unfold GET. intros H Hcalls.
  destruct (nonempty city) as [c|] eqn:Hc; [|by simplify_eq].
  exists c. split; [done|].
  destruct (ServerCache.lookup _ _ _ _); [by simplify_eq|].
  destruct (nonempty (OPENWEATHERMAP_API_KEY env)) as [k|]; [|by simplify_eq].
  case_decide; [by simplify_eq|].
  destruct (axios _ _) as [e|[s j]]; [by simplify_eq|].
  repeat (destruct (_ =? _); [by simplify_eq|]). simpl in H.
  destruct (s =? 200) eqn:H200; simpl in H.
  - by simplify_eq.
  - destruct (prop j "message") as [e|m]; [by simplify_eq|].
    destruct (NextResponse_json _ _) as [e|r] eqn:Hj; [by simplify_eq|].
    apply ResponseFacts.NextResponse_json_inr in Hj as [-> _]. by simplify_eq.
Qed.

(** X6. When the simple weather route has answered a request at [t0] with an
    upstream reply it fetched, a request for the same city and units less
    than ten minutes later is answered with the same body without an
    upstream call. *)
Theorem GET_second_request_served_from_cache
    (city units : option string) (env env' : Env)
    (upstream upstream' : Request -> Outcome JsVal) (t0 t1 : Z)
    (cache cache' : State) (d : JsVal) (calls : list Request) :
  GET city units env upstream t0 cache = (json (Payload d) 200, cache', calls) ->
  calls ≠ [] ->
  t1 - t0 < CACHE_DURATION ->
  GET city units env' upstream' t1 cache' = (json (Payload d) 200, cache', []).
Proof.
  intros H Hcalls Ht.
  destruct (simple_GET_fetched_is_stored _ _ _ _ _ _ _ _ _ H Hcalls) as (c & Hc & ->).
  unfold GET. rewrite Hc.
  by rewrite (proj2 (ServerCacheFacts.lookup_store_Some _ _ _ _ _ _) Ht).
Qed.

Lemma GET_second_request_served_from_cache_witness :
  GET (Some "London") None MoreSamples.simple_env MoreSamples.simple_unknown_city
      (Samples.t0 + 599999)
      (ServerCache.store ∅ "London-metric" Samples.london Samples.t0)
  = (json (Payload Samples.london) 200,
     ServerCache.store ∅ "London-metric" Samples.london Samples.t0, []).
Proof.
  apply (GET_second_request_served_from_cache
           (Some "London") None MoreSamples.simple_env MoreSamples.simple_env
           MoreSamples.simple_owm MoreSamples.simple_unknown_city
           Samples.t0 (Samples.t0 + 599999) ∅
           (ServerCache.store ∅ "London-metric" Samples.london Samples.t0)
           Samples.london [MoreSamples.simple_london]);
    [reflexivity | done | by vm_compute].
Defined.

End WeatherRouteMore.

(** ** More on the forecast summary *)
Module ForecastMore.
Import Forecast ForecastFacts.

Lemma new_bucket_empty (item : ThreeHourForecastItem) (hour : option Z) :
  temps (new_bucket item hour) = [] /\ weatherIcons (new_bucket item hour) = []
  /\ pops (new_bucket item hour) = [].
Proof. unfold new_bucket. by destruct (around_noon hour). Qed.

Lemma samples_of_day_key (timezoneOffset : Z) (key : string)
    (list_ : list ThreeHourForecastItem) (item : ThreeHourForecastItem) :
  item ∈ samples_of_day timezoneOffset key list_ <->
  item ∈ list_ /\ dateKey (dt item + timezoneOffset) = key.
Proof.
  unfold samples_of_day. rewrite !list_elem_of_In, filter_In.
  by rewrite bool_decide_eq_true.
Qed.

Lemma holds_samples_push (b : Bucket) (samples : list ThreeHourForecastItem)
    (item : ThreeHourForecastItem) :
  temps b = main_temp <$> samples ->
  weatherIcons b = (fun item => icon (weather0 item)) <$> samples ->
  pops b = pop <$> samples ->
  holds_samples (push b item) (samples ++ [item]).
Proof.
  intros Ht Hi Hp. unfold holds_samples, push. simpl.
  rewrite Ht, Hi, Hp, !fmap_app. repeat split. by destruct samples.
Qed.

Lemma bucketed_add_item (timezoneOffset : Z) (seen : list ThreeHourForecastItem)
    (dailyData : DailyData) (item : ThreeHourForecastItem) :
  bucketed timezoneOffset seen dailyData ->
  bucketed timezoneOffset (seen ++ [item]) (add_item timezoneOffset dailyData item).
Proof.
  intros (Hnd & Hkeys & Hall).
  destruct (add_item_keys timezoneOffset dailyData item) as [Hnew Hold].
  split; [|split].
  - unfold add_item. rewrite update_bucket_keys.
    destruct (bucket_of dailyData _) eqn:Hb; [done|].
    rewrite fmap_app. apply NoDup_app. split; [done|]. split; [|apply NoDup_singleton].
    intros k Hk Hk'. apply list_elem_of_singleton in Hk'. simpl in Hk'. subst k.
    by apply bucket_of_None in Hb.
  - intros it Hit. apply elem_of_app in Hit as [Hit | Hit]; [by apply Hold, Hkeys|].
    apply list_elem_of_singleton in Hit. by subst.
  - unfold add_item. set (key := dateKey (dt item + timezoneOffset)).
    assert (Hupd : forall dd,
      Forall (fun kb =>
        if bool_decide (kb.1 = key)
        then temps kb.2 = main_temp <$> samples_of_day timezoneOffset key seen
             /\ weatherIcons kb.2
                = (fun item => icon (weather0 item)) <$> samples_of_day timezoneOffset key seen
             /\ pops kb.2 = pop <$> samples_of_day timezoneOffset key seen
        else holds_samples kb.2 (samples_of_day timezoneOffset kb.1 seen)) dd ->
      Forall (fun kb =>
        holds_samples kb.2 (samples_of_day timezoneOffset kb.1 (seen ++ [item])))
        (update_bucket key (fun b => push b item) dd)).
    { intros dd Hdd. unfold update_bucket. apply Forall_forall. intros kb Hkb.
      apply list_elem_of_In, in_map_iff in Hkb as ([k b] & <- & Hin).
      rewrite Forall_forall in Hdd. apply list_elem_of_In in Hin.
      specialize (Hdd _ Hin). simpl in *. rewrite samples_of_day_snoc. fold key.
      case_bool_decide as Hk; simpl.
      - subst k. rewrite bool_decide_eq_true_2 by done.
        destruct Hdd as (? & ? & ?). by apply holds_samples_push.
      - rewrite bool_decide_eq_false_2 by done. by rewrite app_nil_r. }
    apply Hupd. destruct (bucket_of dailyData key) as [b0|] eqn:Hb.
    + eapply Forall_impl; [exact Hall|]. intros [k b] Hh. simpl in *.
      case_bool_decide; [|done]. subst k. by destruct Hh as (? & ? & ? & _).
    + apply bucket_of_None in Hb. apply Forall_app. split.
      * rewrite Forall_forall in Hall. apply Forall_forall. intros [k b] Hin.
        simpl. rewrite bool_decide_eq_false_2; [by apply (Hall (k, b))|].
        intros ->. apply Hb. apply list_elem_of_fmap. by exists (key, b).
      * apply Forall_singleton. simpl. rewrite bool_decide_eq_true_2 by done.
        assert (Hnone : samples_of_day timezoneOffset key seen = []).
        { destruct (samples_of_day timezoneOffset key seen) as [|it r] eqn:Hs; [done|].
          exfalso. assert (Hit : it ∈ samples_of_day timezoneOffset key seen)
            by (rewrite Hs; by left).
          apply samples_of_day_key in Hit as [Hit Hk]. apply Hb. rewrite <- Hk.
          by apply Hkeys. }
        rewrite Hnone. apply new_bucket_empty.
Qed.

Lemma bucketed_group_by_day (list_ : list ThreeHourForecastItem) (timezoneOffset : Z) :
  bucketed timezoneOffset list_ (group_by_day list_ timezoneOffset).
Proof.
  unfold group_by_day.
  assert (H : forall rest seen dd, bucketed timezoneOffset seen dd ->
    bucketed timezoneOffset (seen ++ rest) (fold_left (add_item timezoneOffset) rest dd)).
  { induction rest as [|item rest IH]; intros seen dd Hg; simpl.
    - by rewrite app_nil_r.
    - replace (seen ++ item :: rest)%list with ((seen ++ [item]) ++ rest)%list
        by (by rewrite <- app_assoc).
      by apply IH, bucketed_add_item. }
  apply (H list_ [] []). split; [constructor|]. split; [|constructor].
  intros item Hin. by apply elem_of_nil in Hin.
Qed.

(** X7. The grouping sorts every sample into the bucket of its calendar day:
    there is one bucket per day that has a sample, and the temperatures,
    icons and precipitation values of a bucket are those of the samples of
    its day, in the order of the list. *)
Theorem group_by_day_partitions (list_ : list ThreeHourForecastItem)
    (timezoneOffset : Z) :
  NoDup (group_by_day list_ timezoneOffset).*1
  /\ (forall key, key ∈ (group_by_day list_ timezoneOffset).*1
                  <-> exists item, item ∈ list_
                                   /\ dateKey (dt item + timezoneOffset) = key)
  /\ (forall key b, (key, b) ∈ group_by_day list_ timezoneOffset ->
        temps b = main_temp <$> samples_of_day timezoneOffset key list_
        /\ weatherIcons b
           = (fun item => icon (weather0 item)) <$> samples_of_day timezoneOffset key list_
        /\ pops b = pop <$> samples_of_day timezoneOffset key list_).
Proof.
  destruct (bucketed_group_by_day list_ timezoneOffset) as (Hnd & Hkeys & Hall).
  split; [done|]. rewrite Forall_forall in Hall. split.
  - intros key. split.
    + intros Hk. apply list_elem_of_fmap in Hk as ([k b] & -> & Hin).
      destruct (Hall _ Hin) as (_ & _ & _ & Hne). simpl in *.
      destruct (samples_of_day timezoneOffset k list_) as [|it r] eqn:Hs; [done|].
      exists it. apply samples_of_day_key. rewrite Hs. by left.
    + intros (item & Hin & <-). by apply Hkeys.
  - intros key b Hin. destruct (Hall _ Hin) as (? & ? & ? & _). done.
Qed.

Lemma by_dt_Transitive : Transitive by_dt.
Proof. intros a b c. unfold by_dt. lia. Qed.

Lemma by_dt_Total : Total by_dt.
Proof. intros a b. unfold by_dt. lia. Qed.

Lemma StronglySorted_take_by {A} (R : relation A) (l : list A) (n : nat) :
  StronglySorted R l -> StronglySorted R (take n l).
Proof.
  intros Hl. revert n. induction Hl as [|x l Hl IH Hx]; intros [|n]; simpl;
    try constructor; [apply IH|]. by apply Forall_take.
Qed.

Lemma StronglySorted_strict (l : list DailyForecastData) :
  StronglySorted by_dt l -> NoDup (daily_dt <$> l) -> StronglySorted earlier l.
Proof.
  induction 1 as [|x l Hl IH Hx]; intros Hnd; [constructor|].
  rewrite fmap_cons in Hnd. apply NoDup_cons in Hnd as [Hx' Hnd].
  constructor; [by apply IH|].
  rewrite Forall_forall in Hx. apply Forall_forall. intros y Hy.
  specialize (Hx y Hy). unfold by_dt in Hx. unfold earlier.
  assert (daily_dt x ≠ daily_dt y).
  { intros Heq. apply Hx'. rewrite Heq. apply list_elem_of_fmap. by exists y. }
  lia.
Qed.

Lemma lookup_unique_key {B} (l : list (string * B)) (k : string) (b1 b2 : B) :
  NoDup l.*1 -> (k, b1) ∈ l -> (k, b2) ∈ l -> b1 = b2.
Proof.
  induction l as [|[k' b'] l IH]; intros Hnd H1 H2; [by apply elem_of_nil in H1|].
  rewrite fmap_cons in Hnd. apply NoDup_cons in Hnd as [Hk Hnd]. simpl in Hk.
  apply elem_of_cons in H1 as [H1|H1]; apply elem_of_cons in H2 as [H2|H2];
    simplify_eq; try done.
  - destruct Hk. apply list_elem_of_fmap. by exists (k', b2).
  - destruct Hk. apply list_elem_of_fmap. by exists (k', b1).
  - by apply IH.
Qed.

(** The buckets of different days carry different timestamps. *)
Lemma group_by_day_dt_NoDup (list_ : list ThreeHourForecastItem) (timezoneOffset : Z) :
  NoDup ((fun kb : string * Bucket => bucket_dt kb.2) <$> group_by_day list_ timezoneOffset).
Proof.
  destruct (bucketed_group_by_day list_ timezoneOffset) as (Hnd & _ & _).
  destruct (grouped_group_by_day list_ timezoneOffset) as [_ Hdt].
  rewrite Forall_forall in Hdt.
  apply NoDup_fmap_2_strong; [|by apply NoDup_fmap_1 in Hnd].
  intros [k1 b1] [k2 b2] H1 H2 Heq. simpl in Heq.
  destruct (Hdt _ H1) as (f1 & Hf1 & Hb1), (Hdt _ H2) as (f2 & Hf2 & Hb2). simpl in *.
  assert (Hk : forall k f, head (samples_of_day timezoneOffset k list_) = Some f ->
                           dateKey (dt f + timezoneOffset) = k).
  { intros k f Hf. apply head_Some_elem_of in Hf.
    by apply samples_of_day_key in Hf as [_ ?]. }
  assert (k1 = k2) as ->.
  { rewrite <- (Hk k1 f1 Hf1), <- (Hk k2 f2 Hf2). congruence. }
  f_equal. by apply (lookup_unique_key _ k2 b1 b2 Hnd).
Qed.

Lemma daily_dt_summaries (list_ : list ThreeHourForecastItem) (dailyData : DailyData) :
  daily_dt <$> List.map (fun kb : string * Bucket => summarize list_ kb.2) dailyData
  = (fun kb : string * Bucket => bucket_dt kb.2) <$> dailyData.
Proof.
  induction dailyData as [|kb dd IH]; [done|].
  cbn [List.map]. rewrite !fmap_cons, IH. reflexivity.
Qed.

(** X8. The daily summaries come in strictly ascending order of their
    timestamps, one per calendar day and six at most, so that the [slice(0, 7)]
    of the handler never drops a day. *)
Theorem processForecastList_ascending_days (list_ : list ThreeHourForecastItem)
    (timezoneOffset : Z) :
  StronglySorted earlier (processForecastList list_ timezoneOffset)
  /\ (length (processForecastList list_ timezoneOffset) <= 6)%nat
  /\ (length (processForecastList list_ timezoneOffset)
      <= length (group_by_day list_ timezoneOffset))%nat
  /\ take 7 (processForecastList list_ timezoneOffset)
     = processForecastList list_ timezoneOffset.
Proof.
  unfold processForecastList.
  set (days := List.map (fun kb : string * Bucket => summarize list_ kb.2)
                        (group_by_day list_ timezoneOffset)).
  assert (Hlen : (length (take 6 (merge_sort by_dt days)) <= 6)%nat)
    by (rewrite length_take; lia).
  split; [|split; [done|split]].
  - apply StronglySorted_take_by, StronglySorted_strict.
    + apply (@StronglySorted_merge_sort _ by_dt _ by_dt_Transitive by_dt_Total).
    + rewrite merge_sort_Permutation. unfold days. rewrite daily_dt_summaries.
      apply group_by_day_dt_NoDup.
  - rewrite length_take. assert (Hd : length (merge_sort by_dt days) = length days)
      by (apply Permutation_length, merge_sort_Permutation).
    rewrite Hd. unfold days. rewrite length_map. lia.
  - apply take_ge. lia.
Qed.

Lemma elem_of_processForecastList (list_ : list ThreeHourForecastItem)
    (timezoneOffset : Z) (d : DailyForecastData) :
  d ∈ processForecastList list_ timezoneOffset ->
  exists key b, (key, b) ∈ group_by_day list_ timezoneOffset /\ d = summarize list_ b.
Proof.
  unfold processForecastList. intros Hd.
  apply elem_of_take in Hd as (i & Hd & _). apply list_elem_of_lookup_2 in Hd.
  rewrite merge_sort_Permutation in Hd.
  apply list_elem_of_In, in_map_iff in Hd as ([key b] & <- & Hin).
  exists key, b. split; [by apply list_elem_of_In | done].
Qed.

Lemma Qmin_cases (x y : Q) :
  (Qmin x y = x /\ (x <= y)%Q) \/ (Qmin x y = y /\ (y <= x)%Q).
Proof.
  unfold Qmin, GenericMinMax.gmin. destruct (x ?= y)%Q eqn:Hc.
  - left. split; [done|]. apply Qeq_alt in Hc. rewrite Hc. apply Qle_refl.
  - left. split; [done|]. apply Qlt_alt in Hc. by apply Qlt_le_weak.
  - right. split; [done|]. apply Qgt_alt in Hc. by apply Qlt_le_weak.
Qed.

Lemma Qmax_cases (x y : Q) :
  (Qmax x y = x /\ (y <= x)%Q) \/ (Qmax x y = y /\ (x <= y)%Q).
Proof.
  unfold Qmax, GenericMinMax.gmax. destruct (x ?= y)%Q eqn:Hc.
  - left. split; [done|]. apply Qeq_alt in Hc. rewrite Hc. apply Qle_refl.
  - right. split; [done|]. apply Qlt_alt in Hc. by apply Qlt_le_weak.
  - left. split; [done|]. apply Qgt_alt in Hc. by apply Qlt_le_weak.
Qed.

Lemma fold_Qmin (r : list Q) (acc : Q) :
  (fold_left Qmin r acc = acc \/ fold_left Qmin r acc ∈ r)
  /\ (fold_left Qmin r acc <= acc)%Q
  /\ (forall y, y ∈ r -> (fold_left Qmin r acc <= y)%Q).
Proof.
  revert acc. induction r as [|x r IH]; intros acc; simpl.
  - split; [by left|]. split; [apply Qle_refl|]. intros y Hy. by apply elem_of_nil in Hy.
  - destruct (IH (Qmin acc x)) as (Hin & Hle & Hall).
    destruct (Qmin_cases acc x) as [[Hm Hax] | [Hm Hxa]]; rewrite Hm in *.
    + split; [destruct Hin; [by left | right; by right]|]. split; [done|].
      intros y Hy. apply elem_of_cons in Hy as [-> | Hy]; [|by apply Hall].
      by eapply Qle_trans.
    + split; [right; destruct Hin as [-> | Hin]; [by left | by right]|].
      split; [by eapply Qle_trans|].
      intros y Hy. apply elem_of_cons in Hy as [-> | Hy]; [done | by apply Hall].
Qed.

Lemma fold_Qmax (r : list Q) (acc : Q) :
  (fold_left Qmax r acc = acc \/ fold_left Qmax r acc ∈ r)
  /\ (acc <= fold_left Qmax r acc)%Q
  /\ (forall y, y ∈ r -> (y <= fold_left Qmax r acc)%Q).
Proof.
  revert acc. induction r as [|x r IH]; intros acc; simpl.
  - split; [by left|]. split; [apply Qle_refl|]. intros y Hy. by apply elem_of_nil in Hy.
  - destruct (IH (Qmax acc x)) as (Hin & Hle & Hall).
    destruct (Qmax_cases acc x) as [[Hm Hxa] | [Hm Hax]]; rewrite Hm in *.
    + split; [destruct Hin; [by left | right; by right]|]. split; [done|].
      intros y Hy. apply elem_of_cons in Hy as [-> | Hy]; [|by apply Hall].
      by eapply Qle_trans.
    + split; [right; destruct Hin as [-> | Hin]; [by left | by right]|].
      split; [by eapply Qle_trans|].
      intros y Hy. apply elem_of_cons in Hy as [-> | Hy]; [done | by apply Hall].
Qed.

Lemma Math_min_spec (l : list Q) :
  l ≠ [] -> Math_min l ∈ l /\ forall y, y ∈ l -> (Math_min l <= y)%Q.
Proof.
  destruct l as [|x r]; [done|]. intros _. unfold Math_min.
  destruct (fold_Qmin r x) as (Hin & Hle & Hall). split.
  - destruct Hin as [-> | Hin]; [by left | by right].
  - intros y Hy. apply elem_of_cons in Hy as [-> | Hy]; [done | by apply Hall].
Qed.

Lemma Math_max_spec (l : list Q) :
  l ≠ [] -> Math_max l ∈ l /\ forall y, y ∈ l -> (y <= Math_max l)%Q.
Proof.
  destruct l as [|x r]; [done|]. intros _. unfold Math_max.
  destruct (fold_Qmax r x) as (Hin & Hle & Hall). split.
  - destruct Hin as [-> | Hin]; [by left | by right].
  - intros y Hy. apply elem_of_cons in Hy as [-> | Hy]; [done | by apply Hall].
Qed.

(** X9. Every daily summary stands for the samples of one calendar day: its
    minimum and maximum temperature are temperatures of samples of that day,
    and the temperature of every sample of that day lies between them. *)
Theorem processForecastList_min_max_of_day (list_ : list ThreeHourForecastItem)
    (timezoneOffset : Z) (d : DailyForecastData) :
  d ∈ processForecastList list_ timezoneOffset ->
  exists key lo hi,
    lo ∈ samples_of_day timezoneOffset key list_
    /\ hi ∈ samples_of_day timezoneOffset key list_
    /\ temp_min (daily_temp d) = main_temp lo
    /\ temp_max (daily_temp d) = main_temp hi
    /\ forall item, item ∈ samples_of_day timezoneOffset key list_ ->
         (temp_min (daily_temp d) <= main_temp item)%Q
         /\ (main_temp item <= temp_max (daily_temp d))%Q.
Proof.
  intros Hd. apply elem_of_processForecastList in Hd as (key & b & Hin & ->).
  destruct (bucketed_group_by_day list_ timezoneOffset) as (_ & _ & Hall).
  rewrite Forall_forall in Hall. destruct (Hall _ Hin) as (Ht & _ & _ & Hne).
  simpl in *. set (samples := samples_of_day timezoneOffset key list_) in *.
  assert (Htne : temps b ≠ []) by (rewrite Ht; by destruct samples).
  destruct (Math_min_spec _ Htne) as [Hminin Hmin].
  destruct (Math_max_spec _ Htne) as [Hmaxin Hmax].
  rewrite Ht in Hminin, Hmaxin.
  apply list_elem_of_fmap in Hminin as (lo & Hlo & Hloin).
  apply list_elem_of_fmap in Hmaxin as (hi & Hhi & Hhiin).
  exists key, lo, hi. simpl. rewrite Ht.
  split; [done|]. split; [done|]. split; [done|]. split; [done|].
  intros item Hitem. rewrite <- Ht.
  split; [apply Hmin | apply Hmax]; rewrite Ht; apply list_elem_of_fmap; by exists item.
Qed.

Lemma processForecastList_min_max_of_day_witness :
  exists d,
    head (processForecastList Samples.day_of_samples 0) = Some d
    /\ exists key lo hi,
         lo ∈ samples_of_day 0 key Samples.day_of_samples
         /\ hi ∈ samples_of_day 0 key Samples.day_of_samples
         /\ temp_min (daily_temp d) = main_temp lo
         /\ temp_max (daily_temp d) = main_temp hi
         /\ forall item, item ∈ samples_of_day 0 key Samples.day_of_samples ->
              (temp_min (daily_temp d) <= main_temp item)%Q
              /\ (main_temp item <= temp_max (daily_temp d))%Q.
Proof.
  destruct (processForecastList Samples.day_of_samples 0) as [|d rest] eqn:Hd;
    [by vm_compute in Hd|].
  exists d. split; [reflexivity|].
  apply (processForecastList_min_max_of_day Samples.day_of_samples 0 d).
  rewrite Hd. left.
Defined.

Lemma replace_n_d_day_icon (s : string) :
  icon_code s = true ->
  icon_code (replace_n_d s) = true /\ occurs "n" (replace_n_d s) = false.
Proof.
  destruct s as [|a [|b [|c [|]]]]; try done. simpl.
  intros H. apply andb_true_iff in H as [H Hc]. apply andb_true_iff in H as [Ha Hb].
  assert (Hn : forall x, is_digit x = true -> Ascii.eqb x "n" = false).
  { intros x Hx. apply Ascii.eqb_neq. intros ->. done. }
  rewrite (Hn a Ha), (Hn b Hb).
  destruct (Ascii.eqb c "n") eqn:Hcn; simpl; rewrite ?Ha, ?Hb, ?(Hn a Ha), ?(Hn b Hb); simpl.
  - done.
  - rewrite Hcn, Hc. done.
Qed.

(** X10. For samples whose icons are icon codes, the icon of every daily
    summary is an icon code without [n]: a day icon, also for a day whose
    samples are all night samples. *)
Theorem processForecastList_day_icons (list_ : list ThreeHourForecastItem)
    (timezoneOffset : Z) (d : DailyForecastData) :
  (forall item, item ∈ list_ -> icon_code (icon (weather0 item)) = true) ->
  d ∈ processForecastList list_ timezoneOffset ->
  exists w, daily_weather d = [w]
            /\ icon_code (icon w) = true /\ occurs "n" (icon w) = false.
Proof.
  intros Hcodes Hd. apply elem_of_processForecastList in Hd as (key & b & Hin & ->).
  destruct (bucketed_group_by_day list_ timezoneOffset) as (_ & _ & Hall).
  rewrite Forall_forall in Hall. destruct (Hall _ Hin) as (_ & Hi & _ & Hne).
  simpl in *. eexists. split; [reflexivity|]. simpl.
  assert (Hine : weatherIcons b ≠ []).
  { rewrite Hi. by destruct (samples_of_day timezoneOffset key list_). }
  destruct (IconFacts.getMostFrequentIcon_first_most_frequent _ Hine)
    as (pre & post & Heq & _).
  assert (Hr : getMostFrequentIcon (weatherIcons b) ∈ List.map replace_n_d (weatherIcons b)).
  { rewrite Heq. apply elem_of_app. right. by left. }
  apply list_elem_of_In, in_map_iff in Hr as (raw & <- & Hraw).
  apply replace_n_d_day_icon. rewrite Hi in Hraw.
  apply list_elem_of_In, list_elem_of_fmap in Hraw as (item & -> & Hitem).
  apply Hcodes. by apply samples_of_day_key in Hitem as [? _].
Qed.

Lemma processForecastList_day_icons_witness :
  exists d,
    head (processForecastList [Samples.midnight] 0) = Some d
    /\ exists w, daily_weather d = [w]
                 /\ icon_code (icon w) = true /\ occurs "n" (icon w) = false.
Proof.
  destruct (processForecastList [Samples.midnight] 0) as [|d rest] eqn:Hd;
    [by vm_compute in Hd|].
  exists d. split; [reflexivity|].
  apply (processForecastList_day_icons [Samples.midnight] 0 d).
  - intros item ->%list_elem_of_singleton. reflexivity.
  - rewrite Hd. left.
Defined.

End ForecastMore.

(** ** More on the AI insight route *)
Module GeminiMore.
Import GeminiRoute.

Lemma prop_truthy {D} (v : JsVal) (k : string) :
  truthy v = true -> prop (D := D) v k = inr (opt_prop v k).
Proof. by destruct v as [[]|]. Qed.

(** X11. The mode of a request follows from the fields that are truthy: a
    project prompt is written only for a [project] alone (with a name and a
    description), a global prompt only for [weatherData] with [projectData]
    and no [project], a weather prompt only for [weatherData] alone. *)
Theorem select_prompt_exclusive (weatherData projectData project : JsVal)
    (prompt : Prompt) :
  select_prompt weatherData projectData project = inr (inr prompt) ->
  match prompt with
  | ProjectPrompt name description _ _ =>
      truthy project = true /\ truthy weatherData = false
      /\ truthy projectData = false
      /\ name = opt_prop project "name" /\ truthy name = true
      /\ description = opt_prop project "description" /\ truthy description = true
  | GlobalPrompt _ _ _ project_name _ =>
      truthy weatherData = true /\ truthy projectData = true
      /\ truthy project = false
      /\ project_name = opt_prop projectData "name" /\ truthy project_name = true
  | WeatherPrompt city _ _ =>
      truthy weatherData = true /\ truthy projectData = false
      /\ truthy project = false
      /\ city = opt_prop weatherData "name" /\ truthy city = true
  end.
Proof.
  unfold select_prompt.
  destruct (truthy project) eqn:Hpr, (truthy weatherData) eqn:Hw,
           (truthy projectData) eqn:Hp; simpl; try done.
  - rewrite !(prop_truthy project) by done. simpl.
    destruct (truthy (opt_prop project "name")) eqn:Hn; simpl; [|done].
    destruct (truthy (opt_prop project "description")) eqn:Hd; simpl; [|done].
    intros ?; by simplify_eq.
  - rewrite !(prop_truthy weatherData), !(prop_truthy projectData) by done. simpl.
    destruct (truthy (opt_prop weatherData "weather")) eqn:Hwe; simpl; [|done].
    destruct (first (opt_prop weatherData "weather")) as [e|w0] eqn:Hf; simpl; [done|].
    destruct (truthy w0) eqn:Hw0; simpl; [|done].
    destruct (truthy (opt_prop projectData "name")) eqn:Hn; simpl; [|done].
    rewrite (prop_truthy w0) by done. simpl.
    destruct (prop (opt_prop weatherData "main") "temp") as [e|t]; simpl; [done|].
    intros ?; by simplify_eq.
  - rewrite !(prop_truthy weatherData) by done. simpl.
    destruct (truthy (opt_prop weatherData "weather")) eqn:Hwe; simpl; [|done].
    destruct (first (opt_prop weatherData "weather")) as [e|w0] eqn:Hf; simpl; [done|].
    destruct (truthy w0) eqn:Hw0; simpl; [|done].
    destruct (truthy (opt_prop weatherData "name")) eqn:Hn; simpl; [|done].
    rewrite (prop_truthy w0) by done. simpl.
    destruct (prop (opt_prop weatherData "main") "temp") as [e|t]; simpl; [done|].
    intros ?; by simplify_eq.
Qed.

Lemma select_prompt_exclusive_witness :
  truthy (opt_prop (Some MoreSamples.project_body) "project") = true
  /\ truthy (opt_prop (Some MoreSamples.project_body) "weatherData") = false
  /\ truthy (opt_prop (Some MoreSamples.project_body) "projectData") = false
  /\ str "linux" = opt_prop (opt_prop (Some MoreSamples.project_body) "project") "name"
  /\ truthy (str "linux") = true
  /\ str "kernel"
     = opt_prop (opt_prop (Some MoreSamples.project_body) "project") "description"
  /\ truthy (str "kernel") = true.
Proof.
  apply (select_prompt_exclusive
           (opt_prop (Some MoreSamples.project_body) "weatherData")
           (opt_prop (Some MoreSamples.project_body) "projectData")
           (opt_prop (Some MoreSamples.project_body) "project")
           MoreSamples.project_prompt).
  reflexivity.
Defined.

Lemma prop_body (b : Json) (k : string) :
  b ≠ JNull -> prop (D := JsVal) (Some b) k = inr (opt_prop (Some b) k).
Proof. by destruct b. Qed.

Lemma POST_prompted (b : Json) (env : Env) (upstream : Request -> Outcome JsVal)
    (prompt : Prompt) (k base : string) :
  select_prompt (opt_prop (Some b) "weatherData") (opt_prop (Some b) "projectData")
                (opt_prop (Some b) "project") = inr (inr prompt) ->
  nonempty (GEMINI_API_KEY env) = Some k ->
  nonempty (GEMINI_API_BASE_URL env) = Some base ->
  POST (Some b) env upstream
  = match axios default_validateStatus (upstream (GenerateContent base k prompt)) with
    | inl e => (on_error e, [GenerateContent base k prompt])
    | inr (_, d) =>
        match generated_text d with
        | inl e => (on_error e, [GenerateContent base k prompt])
        | inr text =>
            (inr (json (Payload {| message := text |}) 200),
             [GenerateContent base k prompt])
        end
    end.
Proof.
  intros Hsel Hk Hbase. unfold POST.
  assert (b ≠ JNull) by (intros ->; done).
  rewrite !prop_body by done. cbv beta iota zeta delta [try_]. by rewrite Hsel, Hk, Hbase.
Qed.

(** X12. The service is called once at most, and only with the prompt of a
    valid mode and with both the key and the base URL configured. *)
Theorem POST_calls_only_with_prompt (body : option Json) (env : Env)
    (upstream : Request -> Outcome JsVal) :
  (POST body env upstream).2 = []
  \/ exists b prompt k base,
       body = Some b
       /\ select_prompt (opt_prop (Some b) "weatherData") (opt_prop (Some b) "projectData")
                        (opt_prop (Some b) "project") = inr (inr prompt)
       /\ nonempty (GEMINI_API_KEY env) = Some k
       /\ nonempty (GEMINI_API_BASE_URL env) = Some base
       /\ (POST body env upstream).2 = [GenerateContent base k prompt].
Proof.
  destruct body as [b|]; [|by left].
  assert (b = JNull \/ b ≠ JNull) as [-> | Hb]
    by (destruct b; (by left) || (by right)); [by left|].
  destruct (select_prompt (opt_prop (Some b) "weatherData") (opt_prop (Some b) "projectData")
                          (opt_prop (Some b) "project")) as [e|[r|prompt]] eqn:Hsel.
  - left. unfold POST. rewrite !prop_body by done. cbv beta iota zeta delta [try_]. by rewrite Hsel.
  - left. unfold POST. rewrite !prop_body by done. cbv beta iota zeta delta [try_]. by rewrite Hsel.
  - destruct (nonempty (GEMINI_API_KEY env)) as [k|] eqn:Hk.
    2: { left. unfold POST. rewrite !prop_body by done. cbv beta iota zeta delta [try_]. by rewrite Hsel, Hk. }
    destruct (nonempty (GEMINI_API_BASE_URL env)) as [base|] eqn:Hbase.
    2: { left. unfold POST. rewrite !prop_body by done. cbv beta iota zeta delta [try_]. by rewrite Hsel, Hk, Hbase. }
    right. exists b, prompt, k, base. repeat split; try done.
    rewrite (POST_prompted b env upstream prompt k base) by done.
    destruct (axios _ _) as [e|[s d]]; [done|]. by destruct (generated_text d).
Qed.

(** X13. A failure of the service decides the answer. A reply with a status
    [s] outside 200 to 299 is handed on with that status (500 for a status
    0) and the service's own error message when it has one, named as a
    failure to communicate, if [NextResponse.json] accepts the status (200 to
    599 but for 204, 205 and 304); if not, the handler throws in its
    [catch] and returns no response. No reply is a 500. The one call was
    made in each case. *)
Theorem POST_hands_on_service_failure (b : Json) (env : Env)
    (upstream : Request -> Outcome JsVal) (prompt : Prompt) (k base : string) :
  select_prompt (opt_prop (Some b) "weatherData") (opt_prop (Some b) "projectData")
                (opt_prop (Some b) "project") = inr (inr prompt) ->
  nonempty (GEMINI_API_KEY env) = Some k ->
  nonempty (GEMINI_API_BASE_URL env) = Some base ->
  match upstream (GenerateContent base k prompt) with
  | Replied s d =>
      default_validateStatus s = false ->
      (POST (Some b) env upstream).2 = [GenerateContent base k prompt]
      /\ (accepted (if s =? 0 then 500 else s) = true ->
          (POST (Some b) env upstream).1
          = inr (json (Error "Failed to communicate with AI service"
                         (or_else (opt_prop (opt_prop d "error") "message")
                                  (str ("Request failed with status code " ++ pretty s))))
                      (if s =? 0 then 500 else s)))
      /\ (accepted (if s =? 0 then 500 else s) = false ->
          throws (POST (Some b) env upstream).1)
  | NoReply m =>
      POST (Some b) env upstream
      = (inr (json (Error "Failed to communicate with AI service" (str m)) 500),
         [GenerateContent base k prompt])
  end.
Proof.
  intros Hsel Hk Hbase. rewrite (POST_prompted b env upstream prompt k base) by done.
  destruct (upstream _) as [s d|m]; simpl; [|done].
  intros ->. simpl. split; [done|]. split; intros Ha.
  - by rewrite ResponseFacts.NextResponse_json_accepted by done.
  - destruct (ResponseFacts.NextResponse_json_refused (D := JsVal) (P := MessageBody)
                (Error "Failed to communicate with AI service"
                   (or_else (opt_prop (opt_prop d "error") "message")
                            (str ("Request failed with status code " ++ pretty s))))
                (if s =? 0 then 500 else s) Ha) as [m Hm].
    exists (JsError m). exact Hm.
Qed.

Lemma POST_hands_on_service_failure_witness :
  POST (Some MoreSamples.project_body) Samples.gemini_env MoreSamples.out_of_quota
  = (inr (json (Error "Failed to communicate with AI service" (str "quota exceeded")) 429),
     [MoreSamples.project_request]).
Proof.
  assert (W : default_validateStatus 429 = false ->
    (POST (Some MoreSamples.project_body) Samples.gemini_env MoreSamples.out_of_quota).2
    = [MoreSamples.project_request]
    /\ (accepted 429 = true ->
        (POST (Some MoreSamples.project_body) Samples.gemini_env MoreSamples.out_of_quota).1
        = inr (json (Error "Failed to communicate with AI service" (str "quota exceeded"))
                    429))
    /\ (accepted 429 = false ->
        throws (POST (Some MoreSamples.project_body) Samples.gemini_env
                     MoreSamples.out_of_quota).1)).
  { apply (POST_hands_on_service_failure
             MoreSamples.project_body Samples.gemini_env MoreSamples.out_of_quota
             MoreSamples.project_prompt "k"
             "https://generativelanguage.googleapis.com/v1beta");
      reflexivity. }
  destruct W as (Hcalls & Hanswer & _); [reflexivity|].
  specialize (Hanswer eq_refl).
  destruct (POST (Some MoreSamples.project_body) Samples.gemini_env MoreSamples.out_of_quota)
    as [r calls].
  simpl in Hcalls, Hanswer. by rewrite Hcalls, Hanswer.
Defined.

Lemma generated_text_first_part (d : JsVal) (candidate part : Json)
    (more_candidates more_parts : list Json) :
  opt_prop d "candidates" = Some (JArray (candidate :: more_candidates)) ->
  opt_prop (opt_prop (Some candidate) "content") "parts"
  = Some (JArray (part :: more_parts)) ->
  part ≠ JNull ->
  generated_text d = inr (opt_prop (Some part) "text").
Proof.
  intros Hc Hp Hpart.
  destruct d as [[| | | | |fields]|]; try done. simpl in Hc.
  destruct candidate as [| | | | |cfields]; try done. simpl in Hp.
  destruct (field cfields "content") as [[| | | | |ctfields]|] eqn:Hct; try done.
  simpl in Hp. unfold generated_text. simpl. rewrite Hc. simpl. rewrite Hct. simpl.
  rewrite Hp. simpl. by destruct part.
Qed.

(** X14. A reply of the service with a status from 200 to 299 is answered
    with 200 and the [text] of the first part of its first candidate,
    whatever else the reply holds; a reply without candidates (none named,
    or an empty list) is answered with a 500 that names an unexpected
    response format. *)
Theorem POST_extracts_first_candidate (b : Json) (env : Env)
    (upstream : Request -> Outcome JsVal) (prompt : Prompt) (k base : string)
    (s : Z) (d : JsVal) :
  select_prompt (opt_prop (Some b) "weatherData") (opt_prop (Some b) "projectData")
                (opt_prop (Some b) "project") = inr (inr prompt) ->
  nonempty (GEMINI_API_KEY env) = Some k ->
  nonempty (GEMINI_API_BASE_URL env) = Some base ->
  upstream (GenerateContent base k prompt) = Replied s d ->
  default_validateStatus s = true ->
  (forall (candidate part : Json) (more_candidates more_parts : list Json),
     opt_prop d "candidates" = Some (JArray (candidate :: more_candidates)) ->
     opt_prop (opt_prop (Some candidate) "content") "parts"
     = Some (JArray (part :: more_parts)) ->
     part ≠ JNull ->
     POST (Some b) env upstream
     = (inr (json (Payload {| message := opt_prop (Some part) "text" |}) 200),
        [GenerateContent base k prompt]))
  /\ (truthy (opt_prop d "candidates") = false
       \/ opt_prop d "candidates" = Some (JArray []) ->
      POST (Some b) env upstream
      = (inr (json (Error "Failed to generate AI insight"
                      (str "Received an unexpected response format from the AI service."))
                   500),
         [GenerateContent base k prompt])).
Proof.
  intros Hsel Hk Hbase Hup Hs. rewrite (POST_prompted b env upstream prompt k base) by done.
  rewrite Hup. cbn [axios]. rewrite Hs. split.
  - intros candidate part more_candidates more_parts Hc Hp Hpart.
    by rewrite (generated_text_first_part d candidate part more_candidates more_parts).
  - unfold generated_text. destruct (truthy d) eqn:Hd; simpl; [|done].
    rewrite (prop_truthy d) by done. simpl. intros [Hc | Hc].
    + by rewrite Hc.
    + by rewrite Hc.
Qed.

Lemma POST_extracts_first_candidate_witness :
  POST (Some MoreSamples.project_body) Samples.gemini_env MoreSamples.answering
  = (inr (json (Payload {| message := str "Linux is a kernel." |}) 200),
     [MoreSamples.project_request]).
Proof.
  destruct (POST_extracts_first_candidate
              MoreSamples.project_body Samples.gemini_env MoreSamples.answering
              MoreSamples.project_prompt "k"
              "https://generativelanguage.googleapis.com/v1beta" 200
              MoreSamples.generated) as [Htext _]; [reflexivity..|].
  apply (Htext MoreSamples.first_candidate MoreSamples.first_part [] []);
    [reflexivity | reflexivity | done].
Defined.

End GeminiMore.

(** ** More on the client cache, and the hook over it *)
Module ClientCacheMore.
Import ClientCache ClientCacheRest ClientCacheFacts.

Section Store.
Context {T : Type}.
Implicit Types (st : State T) (key : string) (now t : Z).

Lemma window_persistCache st : window_defined (persistCache st) = window_defined st.
Proof. unfold persistCache. by destruct (window_defined st) eqn:Hw. Qed.

Lemma isInitialized_persistCache st : isInitialized (persistCache st) = isInitialized st.
Proof. unfold persistCache. destruct (window_defined st); reflexivity. Qed.

Lemma window_cleanExpiredEntries now st :
  window_defined (cleanExpiredEntries now st) = window_defined st.
Proof. unfold cleanExpiredEntries. case_bool_decide; [rewrite window_persistCache|]; done. Qed.

Lemma isInitialized_cleanExpiredEntries now st :
  isInitialized (cleanExpiredEntries now st) = isInitialized st.
Proof.
  unfold cleanExpiredEntries. case_bool_decide; [rewrite isInitialized_persistCache|]; done.
Qed.

Lemma window_initialize now st : window_defined (initialize now st) = window_defined st.
Proof.
  unfold initialize. destruct (window_defined st) eqn:Hw; simpl; [|done].
  destruct (isInitialized st); simpl; [done|].
  destruct (stored st); simpl; try done. by rewrite window_cleanExpiredEntries.
Qed.

Lemma lookup_sweep t (m : gmap string (CacheEntry T)) key :
  filter (fun kv => ¬ (expiryTime kv.2 < t)) m !! key = unexpired t (m !! key).
Proof.
  rewrite map_lookup_filter. unfold unexpired.
  destruct (m !! key) as [e|]; simpl; [|done].
  case_guard; case_decide; simpl in *; by try lia.
Qed.

Lemma unexpired_twice now t (e : option (CacheEntry T)) :
  now <= t -> unexpired t (unexpired now e) = unexpired t e.
Proof.
  intros Ht. destruct e as [e|]; [|done]. unfold unexpired. simpl.
  destruct (decide (expiryTime e < now)); simpl; [|done].
  by rewrite decide_True by lia.
Qed.

(** The entry of a key once the cache is initialised at [t]. *)
Lemma lookup_initialize_cases t st key :
  cacheStore (initialize t st) !! key
  = if window_defined st && negb (isInitialized st)
    then match stored st with
         | Parsed c => unexpired t (c !! key)
         | Absent => cacheStore st !! key
         | Corrupt => None
         end
    else cacheStore st !! key.
Proof.
  unfold initialize. destruct (window_defined st); simpl; [|done].
  destruct (isInitialized st); simpl; [done|].
  destruct (stored st); simpl; try done.
  by rewrite cacheStore_cleanExpiredEntries, lookup_sweep.
Qed.

Lemma has_lookup key t st :
  (has key t st).1
  = match cacheStore (initialize t st) !! key with
    | Some e => bool_decide (expiryTime e > t)
    | None => false
    end.
Proof. unfold has. by destruct (cacheStore (initialize t st) !! key). Qed.

Lemma get_lookup key t st :
  (get key t st).1 = data <$> unexpired t (cacheStore (initialize t st) !! key).
Proof. unfold get. simpl. by rewrite cacheStore_cleanExpiredEntries, lookup_sweep. Qed.

(** The state that [set] leaves, as far as a later call reads it. *)
Lemma set_state key (d : T) duration now st :
  window_defined (set key d duration now st) = window_defined st
  /\ (window_defined st = true ->
      stored (set key d duration now st) = Parsed (cacheStore (set key d duration now st)))
  /\ (isInitialized (set key d duration now st) = false ->
      window_defined st = true -> isInitialized st = false /\ stored st = Corrupt)
  /\ forall key', key' ≠ key ->
       cacheStore (set key d duration now st) !! key'
       = cacheStore (initialize now st) !! key'.
Proof.
  unfold set. rewrite window_persistCache, cacheStore_persistCache. simpl.
  rewrite window_initialize. split; [done|]. split; [|split].
  - intros Hw. unfold persistCache. simpl. rewrite window_initialize, Hw. reflexivity.
  - rewrite isInitialized_persistCache. simpl. unfold initialize.
    intros Hi Hw. rewrite Hw in Hi. simpl in Hi.
    destruct (isInitialized st) eqn:Hinit; simpl in Hi; [congruence|].
    split; [done|]. by destruct (stored st).
  - intros key' Hne. by rewrite lookup_insert_ne.
Qed.

Lemma lookup_after_set key key' (d : T) duration now t st :
  key' ≠ key -> now <= t ->
  unexpired t (cacheStore (initialize t (set key d duration now st)) !! key')
  = unexpired t (cacheStore (initialize t st) !! key').
Proof.
  intros Hne Ht.
  destruct (set_state key d duration now st) as (Hw & Hst & Hinit & Hother).
  rewrite (lookup_initialize_cases t (set key d duration now st)), Hw.
  destruct (window_defined st) eqn:Hwin; simpl.
  2: { rewrite Hother by done. rewrite !lookup_initialize_cases, Hwin. done. }
  destruct (isInitialized (set key d duration now st)) eqn:Hi; simpl.
  - rewrite Hother by done. rewrite !lookup_initialize_cases, Hwin. simpl.
    destruct (isInitialized st); simpl; [done|].
    destruct (stored st); try done. by rewrite !unexpired_twice by lia.
  - destruct (Hinit eq_refl eq_refl) as [Hi0 Hc]. rewrite Hst by done.
    rewrite Hother by done. rewrite !lookup_initialize_cases, Hwin, Hi0, Hc. done.
Qed.

Lemma has_unexpired key t st :
  (has key t st).1
  = match unexpired t (cacheStore (initialize t st) !! key) with
    | Some e => bool_decide (expiryTime e > t)
    | None => false
    end.
Proof.
  rewrite has_lookup. destruct (cacheStore (initialize t st) !! key) as [e|]; [|done].
  unfold unexpired. simpl. case_decide; [|done]. by rewrite bool_decide_eq_false_2 by lia.
Qed.

(** Once initialised, a state stays as it is under [initialize], as far as
    its entries go. *)
Lemma lookup_initialize_twice t t' st key :
  cacheStore (initialize t (initialize t' st)) !! key
  = cacheStore (initialize t' st) !! key.
Proof.
  rewrite (lookup_initialize_cases t (initialize t' st)), window_initialize.
  destruct (window_defined st) eqn:Hw; simpl; [|done].
  unfold initialize. rewrite Hw. simpl.
  destruct (isInitialized st) eqn:Hi; simpl; [by rewrite Hi|].
  destruct (stored st) eqn:Hs; simpl; try done.
  by rewrite Hi, Hs.
Qed.

Lemma lookup_clear key key' now st :
  cacheStore (clear key now st) !! key'
  = if decide (key' = key) then None else cacheStore (initialize now st) !! key'.
Proof.
  unfold clear. destruct (cacheStore (initialize now st) !! key) eqn:Hk.
  - rewrite cacheStore_persistCache. simpl. case_decide.
    + subst. apply lookup_delete_eq.
    + by rewrite lookup_delete_ne.
  - case_decide; [by subst|done].
Qed.

Lemma lookup_initialize_clear t key now st :
  cacheStore (initialize t (clear key now st)) !! key = None.
Proof.
  rewrite lookup_initialize_cases.
  assert (Hkey : cacheStore (clear key now st) !! key = None)
    by (rewrite lookup_clear; by rewrite decide_True).
  destruct (window_defined (clear key now st) && negb (isInitialized (clear key now st)))
    eqn:Hc; [|done].
  apply andb_true_iff in Hc as [Hw Hi]. apply negb_true_iff in Hi.
  unfold clear in *.
  destruct (cacheStore (initialize now st) !! key) eqn:Hk.
  - rewrite window_persistCache in Hw. simpl in Hw.
    unfold persistCache. simpl. rewrite Hw. simpl.
    by rewrite lookup_delete_eq.
  - unfold initialize in *.
    destruct (window_defined st) eqn:Hwin; simpl in *; [|congruence].
    destruct (isInitialized st) eqn:Hinit; simpl in *; [congruence|].
    destruct (stored st) eqn:Hs; simpl in *; try done.
    by rewrite Hs.
Qed.

End Store.

(** X15. Storing one key does not disturb another: after [set] of [key] at
    [now], what [has] and [get] give for a different key at a later clock is
    what they gave without the [set]. *)
Theorem set_leaves_other_keys {T : Type} (key key' : string) (d : T)
    (duration now t : Z) (st : State T) :
  key' ≠ key -> now <= t ->
  (has key' t (set key d duration now st)).1 = (has key' t st).1
  /\ (get key' t (set key d duration now st)).1 = (get key' t st).1.
Proof.
  intros Hne Ht. rewrite !has_unexpired, !get_lookup.
  by rewrite (lookup_after_set key key' d duration now t st).
Qed.

Lemma set_leaves_other_keys_witness :
  (has "/api/weather" 1 (set "/api/github" "projects" 1800000 0 MoreSamples.unused_cache)).1
  = (has "/api/weather" 1 MoreSamples.unused_cache).1
  /\ (get "/api/weather" 1 (set "/api/github" "projects" 1800000 0 MoreSamples.unused_cache)).1
     = (get "/api/weather" 1 MoreSamples.unused_cache).1.
Proof.
  apply (set_leaves_other_keys "/api/github" "/api/weather" "projects" 1800000 0 1
           MoreSamples.unused_cache); [done | lia].
Defined.

(** X16. After [clear] of a key, [has] is false and [get] gives nothing for
    that key at any clock, whatever the state of the cache and of the
    storage was. *)
Theorem clear_forgets_key {T : Type} (key : string) (now t : Z) (st : State T) :
  (has key t (clear key now st)).1 = false
  /\ (get key t (clear key now st)).1 = None.
Proof.
  rewrite has_lookup, get_lookup. by rewrite lookup_initialize_clear.
Qed.

(** X17. In a browser a stored entry outlives the page: after [set] at [now]
    and a page load, [has] is true exactly while the clock is below
    [now + duration] and [get] gives the value up to then; after [clearAll]
    and a page load nothing is left. *)
Theorem set_survives_page_load {T : Type} (key : string) (d : T)
    (duration now t : Z) (st : State T) :
  window_defined st = true ->
  ((has key t (page_load true (stored (set key d duration now st)))).1 = true
   <-> t < now + duration)
  /\ (t <= now + duration ->
      (get key t (page_load true (stored (set key d duration now st)))).1 = Some d)
  /\ (has key t (page_load true (stored (clearAll (set key d duration now st))))).1 = false
  /\ (get key t (page_load true (stored (clearAll (set key d duration now st))))).1 = None.
Proof.
  intros Hw.
  destruct (set_state key d duration now st) as (Hw' & Hst & _ & _).
  rewrite !has_lookup, !get_lookup, !lookup_initialize_cases. simpl.
  rewrite Hst by done. rewrite lookup_set. rewrite Hw', Hw. simpl.
  unfold unexpired. simpl. split; [|split; [|done]].
  - case_decide; simpl in *; [split; [done|lia]|].
    rewrite bool_decide_eq_true. lia.
  - intros Ht. rewrite decide_False by lia. simpl. by rewrite decide_False by lia.
Qed.

Lemma set_survives_page_load_witness :
  ((has "/api/weather" 599999
        (page_load true (stored (set "/api/weather" "sunny" 600000 0
                                     MoreSamples.unused_cache)))).1 = true
   <-> 599999 < 0 + 600000)
  /\ (599999 <= 0 + 600000 ->
      (get "/api/weather" 599999
           (page_load true (stored (set "/api/weather" "sunny" 600000 0
                                        MoreSamples.unused_cache)))).1 = Some "sunny")
  /\ (has "/api/weather" 599999
          (page_load true (stored (clearAll (set "/api/weather" "sunny" 600000 0
                                                 MoreSamples.unused_cache))))).1 = false
  /\ (get "/api/weather" 599999
          (page_load true (stored (clearAll (set "/api/weather" "sunny" 600000 0
                                                 MoreSamples.unused_cache))))).1 = None.
Proof.
  apply (set_survives_page_load "/api/weather" "sunny" 600000 0 599999
           MoreSamples.unused_cache).
  reflexivity.
Defined.

Lemma has_state {T : Type} key t (st : State T) : (has key t st).2 = initialize t st.
Proof. unfold has. by destruct (cacheStore (initialize t st) !! key). Qed.

Lemma lookup_initialize_set {T : Type} key (d : T) duration now t st :
  t <= now + duration ->
  cacheStore (initialize t (set key d duration now st)) !! key
  = Some {| data := d; timestamp := now; expiryTime := now + duration |}.
Proof.
  intros Ht.
  destruct (lookup_initialize t (set key d duration now st) key) as [-> | ->];
    [apply coherent_set|apply lookup_set| ].
  rewrite lookup_set. simpl. by rewrite decide_False by lia.
Qed.

(** X18. The hook over the cache: a refresh that resolves to [r] at [later]
    shows [r] and stores it; the next unforced [fetchData] for the key invokes
    the fetcher unless the clock is below [later + cacheDuration] and [r] is
    truthy, and in that case it leaves the hook showing [r], whatever the
    fetcher would have given. *)
Theorem fetchData_refetches_unless_fresh {T : Type} (truthy_data : T -> bool)
    (key : option string) (r : T) (outcome : Fetched T)
    (cacheDuration cacheDuration' now later t t' : Z)
    (h : HookState T) (c : State T) :
  is_Some (nonempty key) ->
  exists h1 c1,
    fetchData truthy_data key (Some (Resolved r)) cacheDuration true now later h c
    = (h1, c1, true)
    /\ hook_data h1 = Some r
    /\ (fetchData truthy_data key (Some outcome) cacheDuration' false t t' h1 c1).2
       = negb (bool_decide (t < later + cacheDuration) && truthy_data r)
    /\ (t < later + cacheDuration -> truthy_data r = true ->
        (fetchData truthy_data key (Some outcome) cacheDuration' false t t' h1 c1).1.1
        = h1).
Proof.
  intros [k Hk]. unfold fetchData. rewrite Hk. eexists _, _. split; [reflexivity|].
  split; [done|].
  destruct (has k t (set k r cacheDuration later c)) as [fresh c1] eqn:Hhas.
  assert (Hfresh : fresh = bool_decide (t < later + cacheDuration)).
  { change fresh with (fresh, c1).1. rewrite <- Hhas.
    erewrite has_spec; [|apply coherent_set|apply lookup_set]. done. }
  assert (Hc1 : c1 = initialize t (set k r cacheDuration later c)).
  { change c1 with (fresh, c1).2. rewrite <- Hhas. apply has_state. }
  subst fresh. case_bool_decide as Ht; cbv iota.
  - destruct (get k t c1) as [cachedData c2] eqn:Hget.
    assert (HcachedData : cachedData = Some r).
    { change cachedData with (cachedData, c2).1. rewrite <- Hget, get_lookup, Hc1.
      rewrite lookup_initialize_twice, lookup_initialize_set by lia.
      unfold unexpired. simpl. by rewrite decide_False by lia. }
    subst cachedData. destruct (truthy_data r) eqn:Htruthy; simpl.
    + split; [done|]. intros _ _. reflexivity.
    + split; [by destruct outcome|]. intros _ ?. congruence.
  - split; [by destruct outcome|]. intros ?. lia.
Qed.

Lemma fetchData_refetches_unless_fresh_witness :
  exists h1 c1,
    fetchData (fun _ => true) (Some "/api/weather") (Some (Resolved "sunny"))
              600000 true 0 5 MoreSamples.idle_hook MoreSamples.unused_cache
    = (h1, c1, true)
    /\ hook_data h1 = Some "sunny"
    /\ (fetchData (fun _ => true) (Some "/api/weather") (Some (RejectedOther : Fetched string))
                  600000 false 1000 1005 h1 c1).2
       = negb (bool_decide (1000 < 5 + 600000) && true)
    /\ (1000 < 5 + 600000 -> true = true ->
        (fetchData (fun _ => true) (Some "/api/weather") (Some (RejectedOther : Fetched string))
                   600000 false 1000 1005 h1 c1).1.1 = h1).
Proof.
  apply (fetchData_refetches_unless_fresh (fun _ : string => true)
           (Some "/api/weather") "sunny" (RejectedOther : Fetched string)
           600000 600000 0 5 1000 1005 MoreSamples.idle_hook MoreSamples.unused_cache).
  by eexists.
Defined.

End ClientCacheMore.

(** ** More on the preferences *)
Module PreferencesMore.
Import Preferences PreferencesFacts.

Lemma some_id_app (i : Z) (l k : list GitHubProjectData) :
  some_id i (l ++ k) = some_id i l || some_id i k.
Proof. unfold some_id. apply existsb_app. Qed.

Lemma some_id_filter (i j : Z) (l : list GitHubProjectData) :
  some_id j (List.filter (fun p => negb (Z.eqb (id p) i)) l)
  = some_id j l && negb (j =? i).
Proof.
  unfold some_id. induction l as [|p l IH]; simpl; [done|].
  destruct (id p =? i) eqn:Hpi; simpl.
  - rewrite IH. apply Z.eqb_eq in Hpi. rewrite Hpi.
    rewrite (Z.eqb_sym i j). by destruct (j =? i), (existsb _ l).
  - rewrite IH. destruct (id p =? j) eqn:Hpj; simpl; [|done].
    apply Z.eqb_eq in Hpj. rewrite <- Hpj, Hpi. reflexivity.
Qed.

(** X19. Which projects count as bookmarked after a change: after
    [addBookmarkedProject] the project's id is bookmarked when there is a
    browser, and every other id is as before; after
    [removeBookmarkedProject] the id is not bookmarked, and every other id is
    as before. *)
Theorem isProjectBookmarked_after_change (project : GitHubProjectData)
    (projectId j : Z) (b : Browser) :
  isProjectBookmarked j (addBookmarkedProject project b)
  = isProjectBookmarked j b || (window_defined b && (id project =? j))
  /\ isProjectBookmarked j (removeBookmarkedProject projectId b)
     = isProjectBookmarked j b && negb (j =? projectId).
Proof.
  unfold isProjectBookmarked, addBookmarkedProject, removeBookmarkedProject.
  destruct (window_defined b) eqn:Hw; simpl; [|by rewrite Hw].
  split.
  - destruct (some_id (id project) (getBookmarkedProjects b)) eqn:Hin; simpl.
    + rewrite Hw. simpl. destruct (id project =? j) eqn:Hj; [|by rewrite orb_false_r].
      apply Z.eqb_eq in Hj. subst j. by rewrite Hin.
    + rewrite getBookmarkedProjects_setBookmarks by done.
      rewrite some_id_app. unfold some_id at 2. simpl.
      rewrite Hw. simpl. by destruct (some_id j _), (id project =? j).
  - rewrite getBookmarkedProjects_setBookmarks by done. simpl. rewrite Hw. simpl.
    apply some_id_filter.
Qed.

Lemma filter_all {A : Type} (P : A -> Prop) `{!forall x, Decision (P x)} (l : list A) :
  Forall P l -> filter P l = l.
Proof.
  induction 1 as [|x l Hx _ IH]; [done|].
  by rewrite filter_cons_True, IH.
Qed.

Lemma filter_ne_fresh (x : string) (l : list string) :
  Forall (fun item => item ≠ x) (filter (fun item => item ≠ x) l).
Proof. apply Forall_forall. intros y Hy. by apply list_elem_of_filter in Hy as [? _]. Qed.

Lemma getViewHistory_addToViewHistory (n : string) (b : Browser) :
  window_defined b = true ->
  getViewHistory (addToViewHistory n b)
  = take 20 (n :: filter (fun item => item ≠ n) (getViewHistory b)).
Proof.
  intros Hw. unfold addToViewHistory. rewrite Hw. simpl.
  by rewrite getViewHistory_setHistory.
Qed.

Lemma window_addToViewHistory (n : string) (b : Browser) :
  window_defined (addToViewHistory n b) = window_defined b.
Proof. unfold addToViewHistory. by destruct (window_defined b) eqn:Hw. Qed.

(** X20. Viewing the same repository twice in a row changes nothing the second
    time; viewing [n] and then another repository [m] puts [m] first and [n]
    second; and [clearViewHistory] leaves an empty history. *)
Theorem addToViewHistory_again (n : string) (b : Browser) :
  addToViewHistory n (addToViewHistory n b) = addToViewHistory n b
  /\ (forall m, m ≠ n -> window_defined b = true ->
      take 2 (getViewHistory (addToViewHistory m (addToViewHistory n b))) = [m; n])
  /\ getViewHistory (clearViewHistory b) = [].
Proof.
  split; [|split].
  - unfold addToViewHistory at 1 3.
    rewrite window_addToViewHistory.
    destruct (window_defined b) eqn:Hw; simpl.
    2:{ unfold addToViewHistory. by rewrite Hw. }
    rewrite getViewHistory_addToViewHistory by done.
    pose proof (filter_ne_fresh n (getViewHistory b)) as Hfresh.
    set (l := filter (fun item => item ≠ n) (getViewHistory b)) in *.
    unfold setHistory. simpl. unfold addToViewHistory. rewrite Hw. simpl.
    rewrite Hw. do 4 f_equal. rewrite filter_cons_False by (intros ?; done).
    rewrite (filter_all _ (take 19 l)) by by apply Forall_take.
    by rewrite take_take.
  - intros m Hm Hw.
    rewrite !getViewHistory_addToViewHistory
      by (by rewrite ?window_addToViewHistory).
    simpl. by rewrite filter_cons_True by done.
  - unfold clearViewHistory. destruct (window_defined b) eqn:Hw; simpl.
    + by rewrite getViewHistory_setHistory.
    + unfold getViewHistory. by rewrite Hw.
Qed.

End PreferencesMore.

(** ** The favourite languages and topics *)
Module FavoritesFacts.
Import Favorites.

Lemma getFavoriteLanguages_setLanguages (b : Browser) (l : list string) :
  window_defined b = true -> getFavoriteLanguages (setLanguages b l) = l.
Proof. intros Hw. unfold getFavoriteLanguages. simpl. by rewrite Hw. Qed.

Lemma getFavoriteTopics_setTopics (b : Browser) (l : list string) :
  window_defined b = true -> getFavoriteTopics (setTopics b l) = l.
Proof. intros Hw. unfold getFavoriteTopics. simpl. by rewrite Hw. Qed.

Lemma getFavoriteLanguages_no_window (b : Browser) :
  window_defined b = false -> getFavoriteLanguages b = [].
Proof. intros Hw. unfold getFavoriteLanguages. by rewrite Hw. Qed.

Lemma getFavoriteTopics_no_window (b : Browser) :
  window_defined b = false -> getFavoriteTopics b = [].
Proof. intros Hw. unfold getFavoriteTopics. by rewrite Hw. Qed.

Lemma elem_of_added (x y : string) (l : list string) :
  x ∈ (if negb (includes y l) then (l ++ [y])%list else l) <-> x ∈ l \/ x = y.
Proof.
  unfold includes. case_bool_decide as Hy; simpl.
  - split; [by left|]. intros [?| ->]; done.
  - rewrite elem_of_app, list_elem_of_singleton. done.
Qed.

Lemma NoDup_added (y : string) (l : list string) :
  NoDup l -> NoDup (if negb (includes y l) then (l ++ [y])%list else l).
Proof.
  intros Hl. unfold includes. case_bool_decide as Hy; simpl; [done|].
  apply NoDup_app. split; [done|]. split; [|apply NoDup_singleton].
  intros x Hx ->%list_elem_of_singleton. done.
Qed.

(** X21. The favourite languages and the favourite topics behave as sets kept
    in the order of arrival: after an addition the list holds what it held
    and, in a browser, the new name; after a removal it holds what it held
    but the name; and an addition never introduces a duplicate. *)
Theorem favorites_membership (x name : string) (b : Browser) :
  (x ∈ getFavoriteLanguages (addFavoriteLanguage name b)
   <-> x ∈ getFavoriteLanguages b \/ (window_defined b = true /\ x = name))
  /\ (x ∈ getFavoriteLanguages (removeFavoriteLanguage name b)
      <-> x ∈ getFavoriteLanguages b /\ x ≠ name)
  /\ (NoDup (getFavoriteLanguages b) ->
      NoDup (getFavoriteLanguages (addFavoriteLanguage name b)))
  /\ (x ∈ getFavoriteTopics (addFavoriteTopic name b)
      <-> x ∈ getFavoriteTopics b \/ (window_defined b = true /\ x = name))
  /\ (x ∈ getFavoriteTopics (removeFavoriteTopic name b)
      <-> x ∈ getFavoriteTopics b /\ x ≠ name)
  /\ (NoDup (getFavoriteTopics b) ->
      NoDup (getFavoriteTopics (addFavoriteTopic name b))).
Proof.
  unfold addFavoriteLanguage, removeFavoriteLanguage, addFavoriteTopic, removeFavoriteTopic.
  destruct (window_defined b) eqn:Hw; simpl.
  2:{ rewrite getFavoriteLanguages_no_window, getFavoriteTopics_no_window by done.
      rewrite !elem_of_nil. intuition congruence. }
  pose proof (elem_of_added x name (getFavoriteLanguages b)) as Hl.
  pose proof (NoDup_added name (getFavoriteLanguages b)) as Hnl.
  pose proof (elem_of_added x name (getFavoriteTopics b)) as Ht.
  pose proof (NoDup_added name (getFavoriteTopics b)) as Hnt.
  destruct (negb (includes name (getFavoriteLanguages b)));
    destruct (negb (includes name (getFavoriteTopics b)));
    rewrite ?getFavoriteLanguages_setLanguages, ?getFavoriteTopics_setTopics by done;
    rewrite !list_elem_of_filter;
    (split; [rewrite Hl; tauto|]);
    (split; [tauto|]); (split; [done|]);
    (split; [rewrite Ht; tauto|]);
    (split; [tauto|]); done.
Qed.

End FavoritesFacts.

(** ** The shuffle *)
Module ShuffleFacts.

Lemma insert_Permutation_cons {A : Type} (l : list A) (i : nat) (x y : A) :
  l !! i = Some x -> y :: l ≡ₚ x :: <[i := y]> l.
Proof.
  revert i. induction l as [|a l IH]; intros [|i] Hi; simplify_eq/=.
  - apply perm_swap.
  - rewrite perm_swap, (IH i Hi). apply perm_swap.
Qed.

Lemma swap_Permutation {A : Type} (i j : nat) (array : list A) : swap i j array ≡ₚ array.
Proof.
  unfold swap. destruct (array !! i) as [x|] eqn:Hi; [|done].
  destruct (array !! j) as [y|] eqn:Hj; [|done].
  apply (Permutation_cons_inv (a := y)).
  rewrite (insert_Permutation_cons array i x y Hi).
  symmetry. apply insert_Permutation_cons.
  destruct (decide (i = j)) as [->|Hij].
  - apply list_lookup_insert_eq. by eapply lookup_lt_Some.
  - by rewrite list_lookup_insert_ne.
Qed.

Lemma shuffle_from_Permutation {A : Type} (floor_random : nat -> nat -> nat)
    (i k : nat) (array : list A) :
  shuffle_from floor_random i k array ≡ₚ array.
Proof.
  revert k array. induction i as [|i IH]; intros k array; simpl; [done|].
  rewrite IH. apply swap_Permutation.
Qed.

Lemma shuffleArray_spec {A : Type} (floor_random : nat -> nat -> nat)
    (k : nat) (array : list A) :
  (shuffleArray floor_random k array).1 ≡ₚ array
  /\ (shuffleArray floor_random k array).2 = (k + (length array - 1))%nat.
Proof. split; [apply shuffle_from_Permutation|reflexivity]. Qed.

(** X22. Whatever the random indices are, [shuffleArray] returns a permutation
    of the array it is given: the same elements as often, none lost and none
    made up; it calls [Math.random] once for every element but one. *)
Theorem shuffleArray_permutes {A : Type} (floor_random : nat -> nat -> nat)
    (k : nat) (array : list A) :
  below_bound floor_random ->
  (shuffleArray floor_random k array).1 ≡ₚ array
  /\ length (shuffleArray floor_random k array).1 = length array
  /\ (shuffleArray floor_random k array).2 = (k + (length array - 1))%nat.
Proof.
  intros _.
  pose proof (shuffle_from_Permutation floor_random (length array - 1) k array) as Hp.
  split; [exact Hp|]. split; [|done]. simpl. by rewrite Hp.
Qed.

Lemma shuffleArray_permutes_witness :
  (shuffleArray MoreSamples.first_index 0 ["a"; "b"; "c"]).1 ≡ₚ ["a"; "b"; "c"]
  /\ length (shuffleArray MoreSamples.first_index 0 ["a"; "b"; "c"]).1 = 3%nat
  /\ (shuffleArray MoreSamples.first_index 0 ["a"; "b"; "c"]).2 = 2%nat.
Proof.
  apply (shuffleArray_permutes MoreSamples.first_index 0 ["a"; "b"; "c"]).
  intros k n Hn. exact Hn.
Defined.

End ShuffleFacts.

(** ** The main GitHub route *)
Module GitHubHandlerFacts.
Import GitHubRoute GitHubHandler.

Section Handler.

Context (upstream : nat -> Request -> Outcome GitHubData)
        (Date_now : nat -> Z)
        (floor_random : nat -> nat -> nat)
        (days_before_today : Z -> string)
        (baseUrl : string) (headers : option string).

Lemma details_world repoName w :
  trendingCache (details upstream Date_now baseUrl headers repoName w).2 = trendingCache w
  /\ randoms (details upstream Date_now baseUrl headers repoName w).2 = randoms w
  /\ reads (details upstream Date_now baseUrl headers repoName w).2 = S (reads w).
Proof.
  unfold GitHubHandler.details.
  by destruct (getRepoDetails _ _ _ _ _ _) as [[? ?] ?].
Qed.

Lemma collect_spec passes count names acc w :
  Forall (fun d => passes d = true) acc -> Z.of_nat (length acc) <= count ->
  Forall (fun d => passes d = true) (collect upstream Date_now baseUrl headers passes count names acc w).1
  /\ Z.of_nat (length (collect upstream Date_now baseUrl headers passes count names acc w).1) <= count.
Proof.
  revert acc w. induction names as [|name names IH]; intros acc w Hacc Hlen; simpl; [done|].
  destruct (Z.of_nat (length acc) >=? count) eqn:Hfull; [done|].
  rewrite Z.geb_leb in Hfull. apply Z.leb_gt in Hfull.
  destruct (GitHubHandler.details _ _ _ _ name w) as [[d|] w1]; [|by apply IH].
  destruct (passes d) eqn:Hd; [|by apply IH].
  apply IH.
  - apply Forall_app. split; [done|]. by apply Forall_singleton.
  - rewrite length_app. simpl. lia.
Qed.

Lemma collect_world passes count names acc w :
  trendingCache (collect upstream Date_now baseUrl headers passes count names acc w).2 = trendingCache w
  /\ randoms (collect upstream Date_now baseUrl headers passes count names acc w).2 = randoms w
  /\ (reads (collect upstream Date_now baseUrl headers passes count names acc w).2 <= reads w + length names)%nat
  /\ ((collect upstream Date_now baseUrl headers passes count names acc w).1 = [] -> 1 <= count ->
      reads (collect upstream Date_now baseUrl headers passes count names acc w).2 = (reads w + length names)%nat).
Proof.
  revert acc w. induction names as [|name names IH]; intros acc w; simpl.
  { repeat split; lia. }
  destruct (Z.of_nat (length acc) >=? count) eqn:Hfull.
  { simpl. split; [done|]. split; [done|]. split; [lia|].
    intros -> ?. simpl in Hfull. rewrite Z.geb_leb in Hfull. apply Z.leb_le in Hfull. lia. }
  pose proof (details_world name w) as (Ht & Hr & Hc).
  destruct (GitHubHandler.details _ _ _ _ name w) as [r w1]. simpl in *.
  assert (Hgoal : forall acc',
    trendingCache (collect upstream Date_now baseUrl headers passes count names acc' w1).2 = trendingCache w
    /\ randoms (collect upstream Date_now baseUrl headers passes count names acc' w1).2 = randoms w
    /\ (reads (collect upstream Date_now baseUrl headers passes count names acc' w1).2 <= reads w + S (length names))%nat
    /\ ((collect upstream Date_now baseUrl headers passes count names acc' w1).1 = [] -> 1 <= count ->
        reads (collect upstream Date_now baseUrl headers passes count names acc' w1).2 = (reads w + S (length names))%nat)).
  { intros acc'. destruct (IH acc' w1) as (Ht' & Hr' & Hc' & He').
    rewrite Ht', Hr', Ht, Hr. repeat split; try lia.
    intros He Hcount. rewrite He' by done. lia. }
  destruct r as [d|]; [|apply Hgoal]. apply Hgoal.
Qed.

Lemma details_of_all_spec names w :
  length (details_of_all upstream Date_now baseUrl headers names w).1 = length names
  /\ trendingCache (details_of_all upstream Date_now baseUrl headers names w).2 = trendingCache w
  /\ randoms (details_of_all upstream Date_now baseUrl headers names w).2 = randoms w
  /\ reads (details_of_all upstream Date_now baseUrl headers names w).2 = (reads w + length names)%nat.
Proof.
  revert w. induction names as [|name names IH]; intros w; simpl.
  { repeat split; lia. }
  pose proof (details_world name w) as (Ht & Hr & Hc).
  destruct (GitHubHandler.details _ _ _ _ name w) as [r w1]. simpl in *.
  destruct (IH w1) as (Hl & Ht' & Hr' & Hc').
  destruct (GitHubHandler.details_of_all _ _ _ _ names w1) as [rs w2]. simpl in *.
  repeat split; [lia|congruence|congruence|lia].
Qed.

Lemma shuffled_spec w :
  (shuffled floor_random w).1 ≡ₚ curatedRepos
  /\ trendingCache (shuffled floor_random w).2 = trendingCache w
  /\ randoms (shuffled floor_random w).2 = (randoms w + 28)%nat
  /\ reads (shuffled floor_random w).2 = reads w.
Proof.
  unfold shuffled.
  pose proof (ShuffleFacts.shuffleArray_spec floor_random (randoms w) curatedRepos)
    as [Hp Hk].
  destruct (shuffleArray floor_random (randoms w) curatedRepos) as [names k].
  change (length curatedRepos - 1)%nat with 28%nat in Hk.
  cbv beta iota. unfold fst, snd in *. split; [exact Hp|]. split; [reflexivity|].
  split; [exact Hk|reflexivity].
Qed.

Lemma length_omap_le {B : Type} (l : list (option B)) :
  (length (omap (fun r => r) l) <= length l)%nat.
Proof. induction l as [|[b|] l IH]; cbn in *; lia. Qed.

Lemma random_selection_spec count w :
  1 <= count ->
  ((random_selection upstream Date_now floor_random baseUrl headers count w).1
   = none_retrieved
   \/ exists projects,
        (random_selection upstream Date_now floor_random baseUrl headers count w).1
        = json (Payload (Projects projects)) 200
        /\ projects ≠ [] /\ Z.of_nat (length projects) <= count)
  /\ trendingCache (random_selection upstream Date_now floor_random baseUrl headers count w).2
     = trendingCache w
  /\ randoms (random_selection upstream Date_now floor_random baseUrl headers count w).2
     = (randoms w + 28)%nat
  /\ reads (random_selection upstream Date_now floor_random baseUrl headers count w).2
     = (reads w + Z.to_nat count `min` 29)%nat.
Proof.
  intros Hcount. unfold random_selection.
  pose proof (shuffled_spec w) as (Hp & Ht & Hr & Hc).
  destruct (shuffled floor_random w) as [names w0]. simpl fst in *. simpl snd in *.
  pose proof (details_of_all_spec (take (Z.to_nat count) names) w0) as (Hl & Ht' & Hr' & Hc').
  destruct (GitHubHandler.details_of_all _ _ _ _ _ w0) as [results w1].
  simpl fst in *. simpl snd in *.
  apply Permutation_length in Hp. rewrite length_take, Hp in Hl, Hc'.
  change (length curatedRepos) with 29%nat in *.
  pose proof (length_omap_le results) as Hle.
  destruct (_ =? 0)%nat eqn:Hz; simpl.
  - split; [by left|]. split; [congruence|]. split; lia.
  - split; [|split; [congruence|split; lia]].
    right. eexists. split; [reflexivity|]. apply Nat.eqb_neq in Hz.
    split; [intros Heq; by rewrite Heq in Hz|lia].
Qed.

Lemma filtered_selection_spec passes count w :
  1 <= count ->
  (exists projects,
     (filtered_selection upstream Date_now floor_random baseUrl headers passes count w).1
     = json (Payload (Projects projects)) 200
     /\ projects ≠ [] /\ Z.of_nat (length projects) <= count
     /\ Forall (fun d => passes d = true) projects
     /\ randoms (filtered_selection upstream Date_now floor_random baseUrl headers
                                    passes count w).2 = (randoms w + 28)%nat)
  \/ (((filtered_selection upstream Date_now floor_random baseUrl headers passes count w).1
       = none_retrieved
       \/ exists projects,
            (filtered_selection upstream Date_now floor_random baseUrl headers passes count w).1
            = json (Payload (Projects projects)) 200
            /\ projects ≠ [] /\ Z.of_nat (length projects) <= count)
      /\ randoms (filtered_selection upstream Date_now floor_random baseUrl headers
                                     passes count w).2 = (randoms w + 56)%nat
      /\ (reads w + 29 + Z.to_nat count `min` 29
          = reads (filtered_selection upstream Date_now floor_random baseUrl headers
                                      passes count w).2)%nat).
Proof.
  intros Hcount. unfold filtered_selection.
  pose proof (shuffled_spec w) as (Hp & Ht & Hr & Hc).
  destruct (shuffled floor_random w) as [names w0]. simpl fst in *. simpl snd in *.
  pose proof (collect_spec passes count names [] w0 (Forall_nil_2 _)) as Hspec.
  pose proof (collect_world passes count names [] w0) as (Ht' & Hr' & Hc' & He').
  destruct (GitHubHandler.collect _ _ _ _ passes count names [] w0) as [filteredRepos w1].
  simpl fst in *. simpl snd in *.
  destruct Hspec as [Hall Hlen]; [simpl; lia|].
  apply Permutation_length in Hp. change (length curatedRepos) with 29%nat in *.
  destruct filteredRepos as [|d filteredRepos].
  - right. change (0 <? length [])%nat with false. cbv iota.
    destruct (random_selection_spec count w1 Hcount) as (Hres & _ & Hr'' & Hc'').
    split; [exact Hres|]. rewrite Hr'', Hc'', He' by done. lia.
  - left. change (0 <? length (d :: filteredRepos))%nat with true. cbv iota.
    eexists. split; [reflexivity|]. split; [done|]. split; [done|].
    split; [done|]. simpl. congruence.
Qed.

Lemma count_of_positive countParam : 1 <= count_of countParam.
Proof.
  unfold count_of. destruct (parseInt _) as [count|]; [|lia].
  destruct (count <? 1) eqn:Hc; [lia|]. by apply Z.ltb_ge in Hc.
Qed.

Lemma length_take_count {B : Type} count (l : list B) :
  1 <= count -> Z.of_nat (length (take (Z.to_nat count) l)) <= count.
Proof. intros Hc. rewrite length_take. lia. Qed.

Lemma trending_spec count language topic since w :
  1 <= count ->
  match trending upstream Date_now days_before_today baseUrl headers
                 count language topic since w with
  | inl (response, w') =>
      exists projects,
        response = json (Payload (Projects projects)) 200
        /\ Z.of_nat (length projects) <= count
  | inr w' => True
  end.
Proof.
  intros Hcount. unfold trending.
  destruct (ServerCache.lookup _ _ _ _) as [data|].
  { eexists. split; [reflexivity|]. by apply length_take_count. }
  destruct (fetchTrendingRepos _ _ _ _ _ _) as [[[|d trendingRepos]|] sent]; try done.
  eexists. split; [reflexivity|]. by apply length_take_count.
Qed.

(** A fetched list is answered and stored from its first repository on. *)
Lemma trending_serves_all_fetched count language since w d rest sent :
  ServerCache.lookup (trendingCache w)
    ("trending_" ++ default "all" language ++ "_" ++ since ++ "_" ++ "all")
    (Date_now (reads w)) CACHE_DURATION = None ->
  fetchTrendingRepos baseUrl (days_before_today (daysBack since)) language None headers
                     (upstream (length (calls w))) = (Some (d :: rest), sent) ->
  exists w',
    trending upstream Date_now days_before_today baseUrl headers
             count language None since w
    = inl (json (Payload (Projects (take (Z.to_nat count) (d :: rest)))) 200, w')
    /\ trendingCache w'
       = ServerCache.store (trendingCache w)
           ("trending_" ++ default "all" language ++ "_" ++ since ++ "_" ++ "all")
           (d :: rest) (Date_now (reads w))
    /\ calls w' = (calls w ++ sent)%list.
Proof.
  intros Hmiss Hfetch. unfold trending. cbn [default]. rewrite Hmiss, Hfetch.
  eexists. split; [reflexivity|]. done.
Qed.

End Handler.

(** X23. What [GET /api/github] can answer. With a [repo] parameter: 404 with
    the name of the repository, or 200 with the repository and its
    beginner issues. Without one: 500 when nothing could be retrieved, or 200
    with an array of at most [count] projects, where [count] is at least 1. *)
Theorem GET_answers (upstream : nat -> Request -> Outcome GitHubData)
    (Date_now : nat -> Z) (floor_random : nat -> nat -> nat)
    (days_before_today : Z -> string) (q : Query) (env : Env) (w : World) :
  1 <= count_of (q_count q)
  /\ match nonempty (q_repo q) with
     | Some repoFullName =>
         (GET upstream Date_now floor_random days_before_today q env w).1
         = json (Error "Repository not found"
                       (str ("Could not find repository: " ++ repoFullName))) 404
         \/ exists repoData issues,
              (GET upstream Date_now floor_random days_before_today q env w).1
              = json (Payload (RepoWithIssues repoData issues)) 200
     | None =>
         (GET upstream Date_now floor_random days_before_today q env w).1
         = none_retrieved
         \/ exists projects,
              (GET upstream Date_now floor_random days_before_today q env w).1
              = json (Payload (Projects projects)) 200
              /\ Z.of_nat (length projects) <= count_of (q_count q)
     end.
Proof.
  pose proof (count_of_positive (q_count q)) as Hcount. split; [done|].
  unfold GET. destruct (nonempty (q_repo q)) as [repoFullName|].
  - destruct (details _ _ _ _ repoFullName w) as [[repoData|] w1]; [|by left].
    right. destruct (getBeginnerFriendlyIssues _ _ _ _) as [issues sent].
    by eexists _, _.
  - set (baseUrl := default "https://api.github.com" _).
    set (headers := baseHeaders _).
    assert (Hcurated : forall w,
      (match nonempty (q_language q), nonempty (q_topic q) with
       | Some l, Some t =>
           filtered_selection upstream Date_now floor_random baseUrl headers
                              (fun d => has_language l d && has_topic t d)
                              (count_of (q_count q)) w
       | Some l, None =>
           filtered_selection upstream Date_now floor_random baseUrl headers
                              (has_language l) (count_of (q_count q)) w
       | None, Some t =>
           filtered_selection upstream Date_now floor_random baseUrl headers
                              (has_topic t) (count_of (q_count q)) w
       | None, None =>
           random_selection upstream Date_now floor_random baseUrl headers
                            (count_of (q_count q)) w
       end).1 = none_retrieved
      \/ exists projects,
           (match nonempty (q_language q), nonempty (q_topic q) with
            | Some l, Some t =>
                filtered_selection upstream Date_now floor_random baseUrl headers
                                   (fun d => has_language l d && has_topic t d)
                                   (count_of (q_count q)) w
            | Some l, None =>
                filtered_selection upstream Date_now floor_random baseUrl headers
                                   (has_language l) (count_of (q_count q)) w
            | None, Some t =>
                filtered_selection upstream Date_now floor_random baseUrl headers
                                   (has_topic t) (count_of (q_count q)) w
            | None, None =>
                random_selection upstream Date_now floor_random baseUrl headers
                                 (count_of (q_count q)) w
            end).1 = json (Payload (Projects projects)) 200
           /\ Z.of_nat (length projects) <= count_of (q_count q)).
    { intros w0.
      destruct (nonempty (q_language q)) as [l|], (nonempty (q_topic q)) as [t|].
      1-3: match goal with
           | |- context [filtered_selection _ _ _ _ _ ?p ?c ?w] =>
               destruct (filtered_selection_spec upstream Date_now floor_random
                           baseUrl headers p c w Hcount)
                 as [(ps & -> & _ & Hle & _)|[[->|(ps & -> & _ & Hle)] _]]
           end; try (by left); right; by eexists.
      destruct (random_selection_spec upstream Date_now floor_random
                  baseUrl headers _ w0 Hcount) as [[->|(ps & -> & _ & Hle)] _];
        [by left|right; by eexists]. }
    case_decide; [|apply Hcurated].
    pose proof (trending_spec upstream Date_now days_before_today baseUrl headers
                  (count_of (q_count q)) (nonempty (q_language q)) (nonempty (q_topic q))
                  (default "daily" (or_param (q_timeFilter q) (q_since q))) w Hcount) as Ht.
    destruct (trending _ _ _ _ _ _ _ _ _ w) as [[response w1]|w1]; [|apply Hcurated].
    destruct Ht as (ps & -> & Hle). right. by eexists.
Qed.

(** X24. A request for projects of a language or a topic, outside the trending
    filter: either the response is a non-empty array of projects that all
    have what was asked for, after one shuffle; or all 29 curated
    repositories were looked up and none had it, and the response is what the
    random selection gives after a second shuffle. *)
Theorem GET_filtered_or_random (upstream : nat -> Request -> Outcome GitHubData)
    (Date_now : nat -> Z) (floor_random : nat -> nat -> nat)
    (days_before_today : Z -> string) (q : Query) (env : Env) (w : World) :
  nonempty (q_repo q) = None ->
  default "all" (nonempty (q_filter q)) ≠ "trending" ->
  is_Some (nonempty (q_language q)) \/ is_Some (nonempty (q_topic q)) ->
  (exists projects,
     (GET upstream Date_now floor_random days_before_today q env w).1
     = json (Payload (Projects projects)) 200
     /\ projects ≠ [] /\ Forall (wanted q) projects
     /\ randoms (GET upstream Date_now floor_random days_before_today q env w).2
        = (randoms w + 28)%nat)
  \/ (randoms (GET upstream Date_now floor_random days_before_today q env w).2
      = (randoms w + 56)%nat
      /\ reads (GET upstream Date_now floor_random days_before_today q env w).2
         = (reads w + 29 + Z.to_nat (count_of (q_count q)) `min` 29)%nat).
Proof.
  intros Hrepo Hfilter Hasked.
  pose proof (count_of_positive (q_count q)) as Hcount.
  unfold GET. rewrite Hrepo. rewrite decide_False by done.
  set (baseUrl := default "https://api.github.com" _).
  set (headers := baseHeaders _).
  unfold wanted.
  destruct (nonempty (q_language q)) as [l|] eqn:Hl,
           (nonempty (q_topic q)) as [t|] eqn:Ht.
  4: { destruct Hasked as [[? ?]|[? ?]]; done. }
  all: match goal with
       | |- context [filtered_selection _ _ _ _ _ ?p ?c ?w] =>
           destruct (filtered_selection_spec upstream Date_now floor_random
                       baseUrl headers p c w Hcount)
             as [(ps & Hres & Hne & _ & Hall & Hr)|(_ & Hr & Hc)]
       end; [left|right; by split].
  all: exists ps; split; [exact Hres|]; split; [done|]; split; [|done].
  all: eapply Forall_impl; [exact Hall|]; simpl; intros d Hd.
  - apply andb_true_iff in Hd as [? ?]. split; intros ? ?; by simplify_eq.
  - split; intros ? ?; by simplify_eq.
  - split; intros ? ?; by simplify_eq.
Qed.

Lemma GET_filtered_or_random_witness :
  (exists projects,
     (GET MoreSamples.github MoreSamples.stopped_clock MoreSamples.first_index
          MoreSamples.new_year MoreSamples.rust_query MoreSamples.github_env
          MoreSamples.world).1
     = json (Payload (Projects projects)) 200
     /\ projects ≠ [] /\ Forall (wanted MoreSamples.rust_query) projects
     /\ randoms (GET MoreSamples.github MoreSamples.stopped_clock MoreSamples.first_index
                     MoreSamples.new_year MoreSamples.rust_query MoreSamples.github_env
                     MoreSamples.world).2 = (0 + 28)%nat)
  \/ (randoms (GET MoreSamples.github MoreSamples.stopped_clock MoreSamples.first_index
                   MoreSamples.new_year MoreSamples.rust_query MoreSamples.github_env
                   MoreSamples.world).2 = (0 + 56)%nat
      /\ reads (GET MoreSamples.github MoreSamples.stopped_clock MoreSamples.first_index
                    MoreSamples.new_year MoreSamples.rust_query MoreSamples.github_env
                    MoreSamples.world).2
         = (0 + 29 + Z.to_nat (count_of (Some "3")) `min` 29)%nat).
Proof.
  apply (GET_filtered_or_random MoreSamples.github MoreSamples.stopped_clock
           MoreSamples.first_index MoreSamples.new_year MoreSamples.rust_query
           MoreSamples.github_env MoreSamples.world);
    [reflexivity | done | left; by eexists].
Defined.

(** X25. A request for one repository. A repository that [repoCache] holds
    fresh is answered from it, and only the issues are fetched; otherwise
    the repository GitHub answers with status 200 is returned, whatever
    becomes of the issues request; and when GitHub does not answer, or with
    another status, the response is 404 and the cache stays as it was. *)
Theorem GET_repository (upstream : nat -> Request -> Outcome GitHubData)
    (Date_now : nat -> Z) (floor_random : nat -> nat -> nat)
    (days_before_today : Z -> string) (q : Query) (env : Env) (w : World)
    (repoFullName : string) :
  nonempty (q_repo q) = Some repoFullName ->
  let baseUrl := default "https://api.github.com" (nonempty (GITHUB_API_BASE_URL env)) in
  let headers := baseHeaders (GITHUB_API_TOKEN env) in
  let cached := ServerCache.lookup (repoCache w) ("repo_" ++ repoFullName)
                                   (Date_now (reads w)) CACHE_DURATION in
  let answer := upstream (length (calls w)) (Repository baseUrl repoFullName headers) in
  let response := (GET upstream Date_now floor_random days_before_today q env w).1 in
  let w' := (GET upstream Date_now floor_random days_before_today q env w).2 in
  (forall repoData, cached = Some repoData ->
     exists issues,
       response = json (Payload (RepoWithIssues repoData issues)) 200
       /\ calls w' = (calls w ++ [LabelledIssues baseUrl repoFullName headers])%list)
  /\ (forall data, cached = None -> answer = Replied 200 (RepositoryDocument data) ->
      exists issues,
        response = json (Payload (RepoWithIssues (repo_details data) issues)) 200
        /\ calls w' = (calls w ++ [Repository baseUrl repoFullName headers;
                                   LabelledIssues baseUrl repoFullName headers])%list)
  /\ (cached = None ->
      fails answer ->
      response = json (Error "Repository not found"
                             (str ("Could not find repository: " ++ repoFullName))) 404
      /\ calls w' = (calls w ++ [Repository baseUrl repoFullName headers])%list
      /\ repoCache w' = repoCache w).
Proof.
  intros Hrepo. cbv zeta. unfold GET. rewrite Hrepo.
  set (baseUrl := default "https://api.github.com" _).
  set (headers := baseHeaders _).
  unfold details, getRepoDetails.
  destruct (ServerCache.lookup _ _ _ _) as [d|] eqn:Hcached.
  - split; [|split; intros; done]. intros ? [= <-]. simpl.
    unfold getBeginnerFriendlyIssues.
    rewrite app_nil_r.
    destruct (axios _ _) as [?|[status [| |issues|]]]; simpl;
      try destruct (negb (status =? 200)); simpl; by eexists.
  - split; [done|]. split.
    + intros data _ ->. simpl. unfold getBeginnerFriendlyIssues. simpl.
      rewrite length_app. simpl.
      destruct (axios _ _) as [?|[status [| |issues|]]]; simpl;
        try destruct (negb (status =? 200)); simpl;
        eexists; (split; [reflexivity|]); by rewrite <- app_assoc.
    + intros _ Hfails. destruct (upstream _ _) as [status data|message]; simpl; [|done].
      destruct (default_validateStatus status); simpl; [|done].
      destruct data; try done.
      apply Z.eqb_neq in Hfails. by rewrite Hfails.
Qed.

Lemma GET_repository_witness :
  exists issues,
    (GET MoreSamples.github MoreSamples.stopped_clock MoreSamples.first_index
         MoreSamples.new_year MoreSamples.linux_query MoreSamples.github_env
         MoreSamples.world).1
    = json (Payload (RepoWithIssues Samples.project issues)) 200
    /\ calls (GET MoreSamples.github MoreSamples.stopped_clock MoreSamples.first_index
                  MoreSamples.new_year MoreSamples.linux_query MoreSamples.github_env
                  MoreSamples.world).2
       = [Repository "https://api.github.com" "torvalds/linux" None;
          LabelledIssues "https://api.github.com" "torvalds/linux" None].
Proof.
  apply (GET_repository MoreSamples.github MoreSamples.stopped_clock
           MoreSamples.first_index MoreSamples.new_year MoreSamples.linux_query
           MoreSamples.github_env MoreSamples.world "torvalds/linux" eq_refl);
    reflexivity.
Defined.

End GitHubHandlerFacts.

(** ** The caches of the GitHub helpers *)
Module GitHubCacheFacts.

(** X26. [getRepoDetails] asks GitHub at most once: what it fetched it serves
    from [repoCache], without a request, to every call for the same
    repository made less than 30 minutes later; a fetch that failed leaves
    the cache as it was, so that the next call asks again. *)
Theorem getRepoDetails_serves_fetched
    (baseUrl repoFullName : string) (headers : option string)
    (upstream : GitHubRoute.Request -> Outcome GitHubData) (now : Z)
    (repoCache : GitHubRoute.RepoCache) :
  ServerCache.lookup repoCache ("repo_" ++ repoFullName) now GitHubRoute.CACHE_DURATION
  = None ->
  (GitHubRoute.getRepoDetails baseUrl repoFullName headers upstream now repoCache).2
  = [GitHubRoute.Repository baseUrl repoFullName headers]
  /\ match (GitHubRoute.getRepoDetails baseUrl repoFullName headers upstream now
                                       repoCache).1 with
     | (Some repoData, repoCache') =>
         forall baseUrl' headers' upstream' now',
           now' - now < GitHubRoute.CACHE_DURATION ->
           GitHubRoute.getRepoDetails baseUrl' repoFullName headers' upstream' now' repoCache'
           = (Some repoData, repoCache', [])
     | (None, repoCache') => repoCache' = repoCache
     end.
Proof.
  intros Hmiss. unfold GitHubRoute.getRepoDetails at 1 2. rewrite Hmiss.
  destruct (axios _ _) as [?|[status [data| | |]]]; try done.
  destruct (negb (status =? 200)); [done|]. simpl. split; [done|].
  intros baseUrl' headers' upstream' now' Hnow.
  unfold GitHubRoute.getRepoDetails.
  by rewrite (proj2 (ServerCacheFacts.lookup_store_Some _ _ _ _ _ _) Hnow).
Qed.

Lemma getRepoDetails_serves_fetched_witness :
  (GitHubRoute.getRepoDetails "https://api.github.com" "torvalds/linux" None
                              (MoreSamples.github 0) Samples.t0 ∅).2
  = [GitHubRoute.Repository "https://api.github.com" "torvalds/linux" None]
  /\ match (GitHubRoute.getRepoDetails "https://api.github.com" "torvalds/linux" None
                                       (MoreSamples.github 0) Samples.t0 ∅).1 with
     | (Some repoData, repoCache') =>
         forall baseUrl' headers' upstream' now',
           now' - Samples.t0 < GitHubRoute.CACHE_DURATION ->
           GitHubRoute.getRepoDetails baseUrl' "torvalds/linux" headers' upstream' now'
                                      repoCache'
           = (Some repoData, repoCache', [])
     | (None, repoCache') => repoCache' = ∅
     end.
Proof.
  apply (getRepoDetails_serves_fetched "https://api.github.com" "torvalds/linux" None
           (MoreSamples.github 0) Samples.t0 ∅).
  reflexivity.
Defined.

(** X27. The search route never reports a failure of GitHub: without a query
    it answers 400 and asks nothing; with one it answers 200, with the
    repositories found or, when GitHub fails, with none, and then nothing is
    cached. What a search found is served from the cache, without a request,
    for the same query during the next five minutes. *)
Theorem search_GET_answers (q : option string) (env : SearchHandler.Env)
    (upstream : SearchRoute.Request -> Outcome GitHubData) (now : Z)
    (searchCache : SearchRoute.SearchCache) :
  let baseUrl :=
    default "https://api.github.com" (nonempty (SearchHandler.GITHUB_API_BASE_URL env)) in
  let headers := baseHeaders (SearchHandler.GITHUB_API_TOKEN env) in
  match nonempty q with
  | None =>
      SearchHandler.GET q env upstream now searchCache
      = (json (Error "Missing search query"
                     (str "Please provide a search query with q parameter")) 400,
         searchCache, [])
  | Some query =>
      let request := SearchRoute.SearchRepositories baseUrl query 10 headers in
      exists repositories searchCache' calls,
        SearchHandler.GET q env upstream now searchCache
        = (json (Payload {| SearchHandler.repositories := repositories |}) 200,
           searchCache', calls)
        /\ (calls = [] \/ calls = [request])
        /\ (calls = [request] -> fails (upstream request) ->
            repositories = [] /\ searchCache' = searchCache)
        /\ (calls = [request] -> searchCache' ≠ searchCache ->
            forall env' upstream' now',
              now' - now < SearchRoute.CACHE_DURATION ->
              SearchHandler.GET q env' upstream' now' searchCache'
              = (json (Payload {| SearchHandler.repositories := repositories |}) 200,
                 searchCache', []))
  end.
Proof.
  cbv zeta. unfold SearchHandler.GET.
  destruct (nonempty q) as [query|] eqn:Hq; [|done].
  assert (Hquery : query ≠ "").
  { destruct q as [s|]; simpl in Hq; [|done]. by case_decide; simplify_eq. }
  unfold SearchRoute.searchRepositories. rewrite !decide_False by done.
  destruct (ServerCache.lookup _ _ _ _) as [d|] eqn:Hcached.
  { eexists _, _, _. split; [reflexivity|]. split; [by left|]. by split. }
  destruct (upstream _) as [status data|message] eqn:Hup; simpl.
  2:{ eexists _, _, _. split; [reflexivity|]. split; [by right|]. by split. }
  destruct (default_validateStatus status) eqn:Hvalid; simpl.
  2:{ eexists _, _, _. split; [reflexivity|]. split; [by right|]. by split. }
  destruct data as [|items| |];
    try (eexists _, _, _; split; [reflexivity|]; split; [by right|]; by split).
  destruct (status =? 200) eqn:Hstatus; simpl.
  2:{ eexists _, _, _. split; [reflexivity|]. split; [by right|]. by split. }
  apply Z.eqb_eq in Hstatus.
  destruct (mapM SearchRoute.search_item items) as [repositories|];
    try (eexists _, _, _; split; [reflexivity|]; split; [by right|]; by split).
  eexists _, _, _. split; [reflexivity|]. split; [by right|].
  split; [intros _ ?; done|]. intros _ _ env' upstream' now' Hnow.
  rewrite !decide_False by done.
  by rewrite (proj2 (ServerCacheFacts.lookup_store_Some _ _ _ _ _ _) Hnow).
Qed.

End GitHubCacheFacts.

(** ** The route of the popular repositories *)
Module PopularFacts.
Import PopularRoute.

Lemma fetch_all_spec baseUrl headers upstream k names :
  repoName_of <$> (fetch_all baseUrl headers upstream k names).2 = names
  /\ length (fetch_all baseUrl headers upstream k names).1 = length names.
Proof.
  revert k. induction names as [|repoName names IH]; intros k; [done|].
  cbn [fetch_all]. destruct (fetched _ _ _ repoName) as [project request] eqn:Hf.
  assert (repoName_of request = repoName) as Hname.
  { unfold fetched in Hf. by simplify_eq. }
  destruct (IH (S k)) as [Hcalls Hlen].
  destruct (fetch_all _ _ _ (S k) names) as [results calls]. cbn [fst snd] in *.
  rewrite fmap_cons, Hname, Hcalls. cbn [length]. by rewrite Hlen.
Qed.

Lemma NoDup_popularRepos : NoDup popularRepos.
Proof. apply (bool_decide_unpack (NoDup popularRepos)). vm_compute. exact I. Qed.

Lemma count_of_bounds countParam : 1 <= count_of countParam <= 20.
Proof.
  unfold count_of. change (Z.of_nat (length popularRepos)) with 20.
  destruct (parseInt _) as [count|]; [|lia].
  destruct (count <? 1) eqn:Hc; [lia|]. apply Z.ltb_ge in Hc. lia.
Qed.

(** X28. The route of the popular repositories asks GitHub about exactly
    [count] repositories, all different and all from its list, where [count]
    is between 1 and 20; it answers 500 when none of them could be retrieved
    and otherwise 200 with the ones that could, at most [count]. *)
Theorem popular_GET_answers (upstream : nat -> Request -> Outcome JsVal)
    (floor_random : nat -> nat -> nat) (countParam : option string) (env : Env) :
  1 <= count_of countParam <= 20
  /\ Z.of_nat (length (GET upstream floor_random countParam env).2) = count_of countParam
  /\ NoDup (repoName_of <$> (GET upstream floor_random countParam env).2)
  /\ (forall request, request ∈ (GET upstream floor_random countParam env).2 ->
                      repoName_of request ∈ popularRepos)
  /\ ((GET upstream floor_random countParam env).1
      = json (Error "Failed to fetch any GitHub project data"
                    (str "Could not retrieve data for the selected repositories.")) 500
      \/ exists projects,
           (GET upstream floor_random countParam env).1 = json (Payload projects) 200
           /\ projects ≠ []
           /\ Z.of_nat (length projects) <= count_of countParam).
Proof.
  pose proof (count_of_bounds countParam) as Hcount. split; [done|].
  unfold GET.
  pose proof (ShuffleFacts.shuffleArray_spec floor_random 0 popularRepos) as [Hp _].
  set (shuffledRepos := (shuffleArray floor_random 0 popularRepos).1) in *.
  clearbody shuffledRepos.
  set (selectedRepos := take (Z.to_nat (count_of countParam)) shuffledRepos).
  pose proof (fetch_all_spec (show_env (GITHUB_API_BASE_URL env))
                (baseHeaders (GITHUB_API_TOKEN env)) upstream 0 selectedRepos)
    as [Hcalls Hlen].
  destruct (fetch_all _ _ _ 0 selectedRepos) as [results calls].
  simpl fst in *. simpl snd in *.
  assert (Hselected : length selectedRepos = Z.to_nat (count_of countParam)).
  { unfold selectedRepos. rewrite length_take, (Permutation_length Hp).
    change (length popularRepos) with 20%nat. lia. }
  assert (Hnodup : NoDup selectedRepos).
  { unfold selectedRepos. eapply sublist_NoDup; [|apply sublist_take].
    rewrite Hp. apply NoDup_popularRepos. }
  pose proof (GitHubHandlerFacts.length_omap_le results) as Hle.
  assert (Hcallslen : length calls = length selectedRepos).
  { by rewrite <- Hcalls, length_fmap. }
  assert (Hcount' : Z.of_nat (length calls) = count_of countParam) by lia.
  assert (Hnames : NoDup (repoName_of <$> calls)) by by rewrite Hcalls.
  assert (Hlist : forall request, request ∈ calls -> repoName_of request ∈ popularRepos).
  { intros request Hin. rewrite <- Hp.
    apply (subseteq_take (Z.to_nat (count_of countParam))).
    fold selectedRepos. rewrite <- Hcalls. by apply list_elem_of_fmap_2. }
  destruct (_ =? 0)%nat eqn:Hz; simpl andb.
  - replace (0 <? count_of countParam) with true by (symmetry; apply Z.ltb_lt; lia).
    cbn [fst snd]. repeat split; try done. by left.
  - cbn [fst snd]. repeat split; try done. right. eexists. split; [reflexivity|].
    apply Nat.eqb_neq in Hz. split; [intros Heq; by rewrite Heq in Hz|lia].
Qed.

End PopularFacts.

(** ** The question route *)
Module QuestionFacts.
Import GeminiRoute QuestionRoute.

Lemma no_double_asterisk_tail a s :
  no_double_asterisk (String a s) = true -> no_double_asterisk s = true.
Proof. destruct s as [|b s]; [done|]. simpl. by intros [_ ?]%andb_true_iff. Qed.

Lemma no_double_asterisk_cons a s :
  no_double_asterisk s = true ->
  (Ascii.eqb a asterisk = true -> forall b r, s = String b r -> Ascii.eqb b asterisk = false) ->
  no_double_asterisk (String a s) = true.
Proof.
  intros Hs Hhead. destruct s as [|b r]; [done|].
  change (negb (Ascii.eqb a asterisk && Ascii.eqb b asterisk)
          && no_double_asterisk (String b r) = true).
  rewrite Hs, andb_true_r.
  destruct (Ascii.eqb a asterisk) eqn:Ha; [|done].
  by rewrite (Hhead eq_refl b r eq_refl).
Qed.

Lemma remove_double_asterisks_head b rest :
  Ascii.eqb b asterisk = false ->
  exists r, remove_double_asterisks (String b rest) = String b r.
Proof.
  intros Hb. destruct rest as [|c rest]; simpl; [by eexists|].
  rewrite Hb. simpl. by eexists.
Qed.

Lemma no_double_asterisk_remove_within n s :
  (String.length s <= n)%nat ->
  no_double_asterisk (remove_double_asterisks s) = true.
Proof.
  revert s. induction n as [|n IH]; intros s Hn.
  { destruct s; [done|simpl in Hn; lia]. }
  destruct s as [|a [|b rest]]; [done|done|].
  simpl in Hn. simpl.
  destruct (Ascii.eqb a asterisk && Ascii.eqb b asterisk) eqn:Hab.
  - apply IH. lia.
  - apply no_double_asterisk_cons.
    + apply (IH (String b rest)). simpl. lia.
    + intros Ha c r Hr. rewrite Ha in Hab. simpl in Hab.
      destruct (remove_double_asterisks_head b rest Hab) as [r' Hr'].
      change (remove_double_asterisks (String b rest) = String c r) in Hr.
      rewrite Hr' in Hr. by simplify_eq.
Qed.

Lemma no_double_asterisk_after_white_space s t :
  after_white_space s = Some t -> no_double_asterisk s = true ->
  no_double_asterisk t = true.
Proof.
  unfold after_white_space. intros Ht Hs.
  destruct s as [|a s1]; [done|].
  pose proof (no_double_asterisk_tail _ _ Hs) as H1.
  destruct (is_white_space1 a); [by simplify_eq|].
  destruct s1 as [|b s2]; [done|].
  pose proof (no_double_asterisk_tail _ _ H1) as H2.
  destruct (is_white_space2 a b); [by simplify_eq|].
  destruct s2 as [|c s3]; [done|].
  pose proof (no_double_asterisk_tail _ _ H2) as H3.
  destruct (is_white_space3 a b c); by simplify_eq.
Qed.

Lemma emphasised_spec s group after :
  emphasised s = Some (group, after) ->
  no_asterisk group = true
  /\ (no_double_asterisk s = true -> no_double_asterisk after = true).
Proof.
  revert group after. induction s as [|a rest IH]; intros group after; [done|].
  cbn [emphasised]. destruct (Ascii.eqb a asterisk) eqn:Ha; [done|].
  destruct rest as [|b rest']; [done|].
  destruct (Ascii.eqb b asterisk) eqn:Hb.
  - intros [= <- <-]. split; [simpl; by rewrite Ha|].
    intros H. by do 2 apply no_double_asterisk_tail in H.
  - destruct (emphasised (String b rest')) as [[g aft]|] eqn:Hrec; [|done].
    intros [= <- <-]. destruct (IH g aft eq_refl) as [Hg Haft].
    split; [simpl; by rewrite Ha, Hg|].
    intros H. apply Haft. by apply no_double_asterisk_tail in H.
Qed.

Lemma no_double_asterisk_app group s :
  no_asterisk group = true -> no_double_asterisk s = true ->
  no_double_asterisk (group ++ s) = true.
Proof.
  intros Hg Hs. induction group as [|a group IH]; [done|].
  simpl in Hg. apply andb_true_iff in Hg as [Ha Hg].
  change (no_double_asterisk (String a (group ++ s)) = true).
  apply no_double_asterisk_cons; [by apply IH|].
  intros Ha'. by rewrite Ha' in Ha.
Qed.

Lemma remove_emphasis_within_head n s a r :
  remove_emphasis_within n s = String a r -> Ascii.eqb a asterisk = true ->
  exists r', s = String a r'.
Proof.
  destruct n as [|n], s as [|b rest]; simpl; try done.
  - intros [= -> ->]. by eexists.
  - destruct (emphasis_at (String b rest)) as [[group after]|].
    + change (" " ++ group ++ remove_emphasis_within n after)
        with (String " " (group ++ remove_emphasis_within n after)).
      by intros [= <- _].
    + intros [= -> _] _. by eexists.
Qed.

Lemma no_double_asterisk_remove_emphasis n s :
  no_double_asterisk s = true ->
  no_double_asterisk (remove_emphasis_within n s) = true.
Proof.
  revert s. induction n as [|n IH]; intros s Hs; [by destruct s|].
  destruct s as [|a rest]; [done|].
  change (no_double_asterisk
            match emphasis_at (String a rest) with
            | Some (group, after) => " " ++ group ++ remove_emphasis_within n after
            | None => String a (remove_emphasis_within n rest)
            end = true).
  destruct (emphasis_at (String a rest)) as [[group after]|] eqn:Hat.
  - unfold emphasis_at in Hat.
    destruct (after_white_space (String a rest)) as [[|c rest2]|] eqn:Hws; try done.
    destruct (Ascii.eqb c asterisk); [|done].
    apply emphasised_spec in Hat as [Hgroup Hafter].
    pose proof (no_double_asterisk_after_white_space _ _ Hws Hs) as H2.
    apply no_double_asterisk_tail in H2.
    change (" " ++ group ++ remove_emphasis_within n after)
      with (String " " group ++ remove_emphasis_within n after).
    apply no_double_asterisk_app; [by simpl|]. apply IH. by apply Hafter.
  - apply no_double_asterisk_cons.
    + apply IH. by apply no_double_asterisk_tail in Hs.
    + intros Ha b r Hr.
      destruct (Ascii.eqb b asterisk) eqn:Hb; [|done].
      destruct (remove_emphasis_within_head _ _ _ _ Hr Hb) as [r' ->].
      simpl in Hs. by rewrite Ha, Hb in Hs.
Qed.

Lemma no_double_asterisk_skip_within n s :
  (String.length s <= n)%nat -> no_double_asterisk s = true ->
  no_double_asterisk (skip_white_space s) = true.
Proof.
  revert s. induction n as [|n IH]; intros s Hn Hs.
  { destruct s; [done|simpl in Hn; lia]. }
  destruct s as [|a s1]; [done|]. simpl in Hn.
  pose proof (no_double_asterisk_tail _ _ Hs) as H1.
  simpl. destruct (is_white_space1 a); [apply IH; [lia|done]|].
  destruct s1 as [|b s2]; [done|]. simpl in Hn.
  pose proof (no_double_asterisk_tail _ _ H1) as H2.
  destruct (is_white_space2 a b); [apply IH; [lia|done]|].
  destruct s2 as [|c s3]; [done|]. simpl in Hn.
  pose proof (no_double_asterisk_tail _ _ H2) as H3.
  destruct (is_white_space3 a b c); [apply IH; [lia|done]|done].
Qed.

Lemma trim_end_head a rest b r :
  trim_end (String a rest) = String b r -> a = b.
Proof.
  change (trim_end (String a rest))
    with (if bool_decide (skip_white_space (String a rest) = "")
          then "" else String a (trim_end rest)).
  case_bool_decide; [done|]. by intros [= -> _].
Qed.

Lemma no_double_asterisk_trim_end s :
  no_double_asterisk s = true -> no_double_asterisk (trim_end s) = true.
Proof.
  induction s as [|a rest IH]; intros Hs; [done|].
  change (trim_end (String a rest))
    with (if bool_decide (skip_white_space (String a rest) = "")
          then "" else String a (trim_end rest)).
  case_bool_decide; [done|].
  apply no_double_asterisk_cons.
  - apply IH. by apply no_double_asterisk_tail in Hs.
  - intros Ha b r Hr. destruct rest as [|c rest']; [done|].
    apply trim_end_head in Hr as <-.
    simpl in Hs. rewrite Ha in Hs. simpl in Hs.
    apply andb_true_iff in Hs as [Hc _]. by apply negb_true_iff in Hc.
Qed.

Lemma no_double_asterisk_cleanedText s : no_double_asterisk (cleanedText s) = true.
Proof.
  unfold cleanedText, trim, remove_emphasis.
  apply no_double_asterisk_trim_end.
  eapply no_double_asterisk_skip_within; [done|].
  apply no_double_asterisk_remove_emphasis.
  by eapply no_double_asterisk_remove_within.
Qed.

Lemma no_asterisk_remove_double_asterisks s :
  no_asterisk s = true -> remove_double_asterisks s = s.
Proof.
  induction s as [|a [|b rest] IH]; [done|done|].
  intros Hs. simpl in Hs. apply andb_true_iff in Hs as [Ha Hs].
  apply negb_true_iff in Ha.
  change (remove_double_asterisks (String a (String b rest)))
    with (if Ascii.eqb a asterisk && Ascii.eqb b asterisk
          then remove_double_asterisks rest
          else String a (remove_double_asterisks (String b rest))).
  rewrite Ha. simpl andb. cbv iota. f_equal. by apply IH.
Qed.

Lemma no_asterisk_after_white_space s t :
  after_white_space s = Some t -> no_asterisk s = true -> no_asterisk t = true.
Proof.
  unfold after_white_space. intros Ht Hs.
  destruct s as [|a s1]; [done|].
  simpl in Hs. apply andb_true_iff in Hs as [_ H1].
  destruct (is_white_space1 a); [by simplify_eq|].
  destruct s1 as [|b s2]; [done|].
  simpl in H1. apply andb_true_iff in H1 as [_ H2].
  destruct (is_white_space2 a b); [by simplify_eq|].
  destruct s2 as [|c s3]; [done|].
  simpl in H2. apply andb_true_iff in H2 as [_ H3].
  destruct (is_white_space3 a b c); by simplify_eq.
Qed.

Lemma no_asterisk_remove_emphasis n s :
  no_asterisk s = true -> remove_emphasis_within n s = s.
Proof.
  revert s. induction n as [|n IH]; intros s Hs; [by destruct s|].
  destruct s as [|a rest]; [done|].
  change (match emphasis_at (String a rest) with
          | Some (group, after) => " " ++ group ++ remove_emphasis_within n after
          | None => String a (remove_emphasis_within n rest)
          end = String a rest).
  assert (Hat : emphasis_at (String a rest) = None).
  { unfold emphasis_at.
    destruct (after_white_space (String a rest)) as [[|c rest2]|] eqn:Hws; try done.
    apply no_asterisk_after_white_space in Hws; [|done].
    simpl in Hws. apply andb_true_iff in Hws as [Hc _].
    apply negb_true_iff in Hc. by rewrite Hc. }
  rewrite Hat. f_equal. apply IH.
  simpl in Hs. by apply andb_true_iff in Hs as [_ ?].
Qed.

Lemma length_after_white_space s t :
  after_white_space s = Some t -> (String.length t < String.length s)%nat.
Proof.
  unfold after_white_space. intros Ht.
  destruct s as [|a s1]; [done|].
  destruct (is_white_space1 a); [simplify_eq; simpl; lia|].
  destruct s1 as [|b s2]; [done|].
  destruct (is_white_space2 a b); [simplify_eq; simpl; lia|].
  destruct s2 as [|c s3]; [done|].
  destruct (is_white_space3 a b c); simplify_eq. simpl. lia.
Qed.

Lemma length_emphasised s group after :
  emphasised s = Some (group, after) -> (String.length after < String.length s)%nat.
Proof.
  revert group after. induction s as [|a rest IH]; intros group after; [done|].
  cbn [emphasised]. destruct (Ascii.eqb a asterisk); [done|].
  destruct rest as [|b rest']; [done|].
  destruct (Ascii.eqb b asterisk).
  - intros [= <- <-]. simpl. lia.
  - destruct (emphasised (String b rest')) as [[g aft]|] eqn:Hrec; [|done].
    intros [= <- <-]. specialize (IH g aft eq_refl). simpl in *. lia.
Qed.

Lemma length_emphasis_at s group after :
  emphasis_at s = Some (group, after) -> (String.length after < String.length s)%nat.
Proof.
  unfold emphasis_at.
  destruct (after_white_space s) as [[|c rest]|] eqn:Hws; try done.
  destruct (Ascii.eqb c asterisk); [|done].
  intros Hat%length_emphasised. apply length_after_white_space in Hws.
  simpl in Hws. lia.
Qed.

(** The scan of [remove_emphasis] reaches the end of the string. *)
Lemma remove_emphasis_within_enough n m s :
  (String.length s <= n)%nat -> (String.length s <= m)%nat ->
  remove_emphasis_within n s = remove_emphasis_within m s.
Proof.
  revert m s. induction n as [|n IH]; intros m s Hn Hm.
  { destruct s; [by destruct m|simpl in Hn; lia]. }
  destruct s as [|a rest]; [by destruct m|].
  destruct m as [|m]; [simpl in Hm; lia|].
  change (match emphasis_at (String a rest) with
          | Some (group, after) => " " ++ group ++ remove_emphasis_within n after
          | None => String a (remove_emphasis_within n rest)
          end
          = match emphasis_at (String a rest) with
            | Some (group, after) => " " ++ group ++ remove_emphasis_within m after
            | None => String a (remove_emphasis_within m rest)
            end).
  simpl in Hn, Hm.
  destruct (emphasis_at (String a rest)) as [[group after]|] eqn:Hat.
  - apply length_emphasis_at in Hat. simpl in Hat.
    by rewrite (IH m after) by lia.
  - by rewrite (IH m rest) by lia.
Qed.

(** X29. The clean-up of the generated text leaves no two asterisks in a row,
    whatever the text; and a text without any asterisk is only trimmed. *)
Theorem cleanedText_asterisks (generatedText : string) :
  no_double_asterisk (cleanedText generatedText) = true
  /\ (no_asterisk generatedText = true -> cleanedText generatedText = trim generatedText).
Proof.
  split; [apply no_double_asterisk_cleanedText|].
  intros Hs. unfold cleanedText, remove_emphasis.
  rewrite (no_asterisk_remove_double_asterisks _ Hs).
  by rewrite (no_asterisk_remove_emphasis _ _ Hs).
Qed.

(** The [catch] of the handler never answers with a payload. *)
Lemma on_error_is_error (e : Thrown JsVal) (response : Response AnswerBody)
    (answer : AnswerBody) :
  on_error e = inr response -> body response = Payload answer -> False.
Proof.
  destruct e as [m r|m]; simpl; intros H Hb.
  - apply ResponseFacts.NextResponse_json_inr in H as [-> _]. done.
  - by simplify_eq.
Qed.

(** X30. The question route answers 400 to a body without a question, before
    it asks the AI service anything; it asks at most once; and a 200 answer
    carries the question as it was asked and a message with no two asterisks
    in a row. *)
Theorem POST_question_answers (posted : option Json) (env : Env)
    (upstream : Request -> Outcome JsVal) :
  (length (POST posted env upstream).2 <= 1)%nat
  /\ (forall b question,
        posted = Some b -> prop (D := JsVal) (Some b) "question" = inr question ->
        truthy question = false ->
        POST posted env upstream
        = (inr (json (Error "Missing question" (str "A question is required")) 400), []))
  /\ (forall response answer,
        (POST posted env upstream).1 = inr response ->
        body response = Payload answer ->
        status response = 200
        /\ length (POST posted env upstream).2 = 1%nat
        /\ no_double_asterisk (QuestionRoute.message answer) = true
        /\ truthy (QuestionRoute.question answer) = true
        /\ exists b, posted = Some b
                     /\ prop (D := JsVal) (Some b) "question"
                        = inr (QuestionRoute.question answer)).
Proof.
  split; [|split].
  - unfold POST. destruct posted as [b|]; [|simpl; lia].
    destruct (let? question := prop (Some b) "question" in _) as [e|[question repoName]];
      [simpl; lia|].
    destruct (negb (truthy question)); [simpl; lia|].
    destruct (nonempty (GEMINI_API_KEY env)); [|simpl; lia].
    destruct (nonempty (GEMINI_API_BASE_URL env)); [|simpl; lia].
    destruct (axios _ _) as [e|[code d]]; [simpl; lia|].
    destruct (let? text := generated_text d in _); simpl; lia.
  - intros b question -> Hq Htruthy. unfold POST. rewrite Hq.
    cbv beta iota zeta delta [try_].
    assert (Hr : exists repoName, prop (D := JsVal) (Some b) "repoName" = inr repoName).
    { destruct b; simplify_eq/=; by eexists. }
    destruct Hr as [repoName ->]. by rewrite Htruthy.
  - unfold POST. destruct posted as [b|]; [|by intros ? ? ? ?; simplify_eq/=].
    destruct (prop (D := JsVal) (Some b) "question") as [e|question] eqn:Hq;
      cbv beta iota zeta delta [try_];
      [intros ? ? H Hb; by destruct (on_error_is_error _ _ _ H Hb)|].
    destruct (prop (D := JsVal) (Some b) "repoName") as [e|repoName] eqn:Hr;
      [intros ? ? H Hb; by destruct (on_error_is_error _ _ _ H Hb)|].
    destruct (truthy question) eqn:Htruthy; cbv beta iota zeta delta [negb];
      [|by intros ? ? ? ?; simplify_eq/=].
    destruct (nonempty (GEMINI_API_KEY env)) as [apiKey|];
      [|by intros ? ? ? ?; simplify_eq/=].
    destruct (nonempty (GEMINI_API_BASE_URL env)) as [baseUrl|];
      [|by intros ? ? ? ?; simplify_eq/=].
    destruct (axios _ _) as [e|[code d]];
      [intros ? ? H Hb; by destruct (on_error_is_error _ _ _ H Hb)|].
    destruct (generated_text d) as [e|text];
      [intros ? ? H Hb; by destruct (on_error_is_error _ _ _ H Hb)|].
    unfold cleaned.
    destruct text as [[| | |text| |]|];
      try (by intros ? ? H Hb; destruct (on_error_is_error _ _ _ H Hb)).
    intros response answer [= <-] [= <-]. simpl. split; [done|]. split; [done|].
    split; [apply no_double_asterisk_cleanedText|]. split; [done|]. by exists b.
Qed.

End QuestionFacts.
